(** * Exotel-Vapi connector: a shallow embedding of the Python scripts

    The scripts talk to two HTTP APIs and branch on the decoded replies.
    They are embedded here as functions over
    - [string] for Python [str] (a Rocq string is the UTF-8 byte sequence of
      the Python text; every character the scripts test for is ASCII, and an
      ASCII byte never occurs inside a multi-byte UTF-8 sequence),
    - [pyval] for the dynamically typed values that [json.loads] produces and
      that the scripts assemble into result dictionaries,
    - [pyexn] for the exceptions the scripts raise, catch or let escape,
    - a state-and-exception monad [M] over a [world] that records every HTTP
      request sent and every line printed.

    The Python standard library ([json], [base64], [xml.etree], [urllib]) and
    the remote servers are not code of the repository: they are the fields of
    the class [Platform], over which every definition is parametric. *)

From Stdlib Require Import String Ascii ZArith List Bool Lia DecimalString.
Import ListNotations.
Open Scope list_scope.
Open Scope string_scope.

Set Implicit Arguments.
Set Warnings "-register-all".

(* ================================================================== *)
(** ** Python string primitives *)

Module PyString.

(** [sub in s] *)
Fixpoint str_in (sub s : string) : bool :=
  if prefix sub s then true
  else match s with
       | EmptyString => false
       | String _ s' => str_in sub s'
       end.

(** [s.replace(old, new)] for a non-empty [old]: scan left to right; at a
    match emit [new] and skip the rest of the matched text. *)
Fixpoint replace_from (old new : string) (skip : nat) (s : string) : string :=
  match s with
  | EmptyString => EmptyString
  | String c s' =>
      match skip with
      | S k => replace_from old new k s'
      | O => if prefix old s
             then new ++ replace_from old new (String.length old - 1) s'
             else String c (replace_from old new 0 s')
      end
  end.

(** [s.replace("", new)] puts [new] before every character and at the end. *)
Fixpoint intersperse (new s : string) : string :=
  match s with
  | EmptyString => new
  | String c s' => new ++ String c (intersperse new s')
  end.

Definition str_replace (old new s : string) : string :=
  match old with
  | EmptyString => intersperse new s
  | String _ _ => replace_from old new 0 s
  end.

Definition startswith (s pre : string) : bool := prefix pre s.

(** The ASCII characters for which [str.isspace] holds. *)
Definition is_space (c : ascii) : bool :=
  let n := nat_of_ascii c in
  (((9 <=? n) && (n <=? 13)) || ((28 <=? n) && (n <=? 32)))%nat.

(** The number of bytes of the white-space character that [s] starts with,
    0 when it starts with none.  [str.isspace] holds for the ASCII
    characters above and for U+0085, U+00A0 (C2 85, C2 A0), U+1680
    (E1 9A 80), U+2000 to U+200A, U+2028, U+2029, U+202F (E2 80 80 to 8A,
    A8, A9, AF), U+205F (E2 81 9F) and U+3000 (E3 80 80). *)
Definition space_width (s : string) : nat :=
  match s with
  | EmptyString => 0
  | String c s1 =>
      let a := nat_of_ascii c in
      if is_space c then 1
      else match s1 with
           | EmptyString => 0
           | String d s2 =>
               let b := nat_of_ascii d in
               if ((a =? 194) && ((b =? 133) || (b =? 160)))%nat then 2
               else match s2 with
                    | EmptyString => 0
                    | String e _ =>
                        let g := nat_of_ascii e in
                        if (((a =? 225) && (b =? 154) && (g =? 128))
                            || ((a =? 226) && (b =? 128)
                                && (((128 <=? g) && (g <=? 138))
                                    || (g =? 168) || (g =? 169) || (g =? 175)))
                            || ((a =? 226) && (b =? 129) && (g =? 159))
                            || ((a =? 227) && (b =? 128) && (g =? 128)))%nat
                        then 3 else 0
                    end
           end
  end.

(** [s.lstrip()] *)
Fixpoint lstrip (s : string) : string :=
  match s with
  | EmptyString => EmptyString
  | String _ s1 =>
      match space_width s with
      | 1 => lstrip s1
      | 2 => match s1 with
             | String _ s2 => lstrip s2
             | EmptyString => s
             end
      | 3 => match s1 with
             | String _ (String _ s3) => lstrip s3
             | _ => s
             end
      | _ => s
      end
  end.

(** [s.rstrip()]: what is left of [s] once it is white space to the end is
    dropped. *)
Fixpoint rstrip (s : string) : string :=
  match s with
  | EmptyString => EmptyString
  | String c s' =>
      match lstrip s with
      | EmptyString => EmptyString
      | _ => String c (rstrip s')
      end
  end.

(** [s.strip()] *)
Definition strip (s : string) : string := rstrip (lstrip s).

Definition lower_ascii (c : ascii) : ascii :=
  let n := nat_of_ascii c in
  if ((65 <=? n) && (n <=? 90))%nat then ascii_of_nat (n + 32) else c.

(** [s.lower()]; no character outside ASCII lower-cases to an ASCII letter
    of the word the scripts compare with. *)
Fixpoint lower (s : string) : string :=
  match s with
  | EmptyString => EmptyString
  | String c s' => String (lower_ascii c) (lower s')
  end.

(** [sep.join(l)] *)
Fixpoint join (sep : string) (l : list string) : string :=
  match l with
  | [] => EmptyString
  | [x] => x
  | x :: l' => x ++ sep ++ join sep l'
  end.

(** A UTF-8 continuation byte, 10xxxxxx. *)
Definition is_cont (c : ascii) : bool :=
  let n := nat_of_ascii c in ((128 <=? n) && (n <? 192))%nat.

(** The characters (code points) of a string, each as a string. *)
Fixpoint chars (s : string) : list string :=
  match s with
  | EmptyString => []
  | String c s' =>
      match s' with
      | String d _ =>
          if is_cont d
          then match chars s' with
               | h :: t => String c h :: t
               | [] => [String c EmptyString]
               end
          else String c EmptyString :: chars s'
      | EmptyString => [String c EmptyString]
      end
  end.

Definition hex_digit (n : nat) : ascii :=
  ascii_of_nat (if (n <? 10)%nat then 48 + n else 87 + n).

Definition bslash : ascii := ascii_of_nat 92.
Definition squote : ascii := ascii_of_nat 39.
Definition dquote : ascii := ascii_of_nat 34.

Definition escaped (s : string) : string := String bslash s.

(** One ASCII character of [repr(s)] with [q] the chosen quote. *)
Definition repr_char (q c : ascii) : string :=
  let n := nat_of_ascii c in
  if Ascii.eqb c q || Ascii.eqb c bslash then escaped (String c EmptyString)
  else if (n =? 9)%nat then escaped "t"
  else if (n =? 10)%nat then escaped "n"
  else if (n =? 13)%nat then escaped "r"
  else if ((n <? 32) || (n =? 127))%nat
       then escaped (String "x"%char
              (String (hex_digit (n / 16)) (String (hex_digit (n mod 16)) EmptyString)))
  else String c EmptyString.

(** The code point of a character given by its UTF-8 bytes. *)
Definition code_point (ch : string) : Z :=
  let byte (c : ascii) : Z := Z.of_nat (nat_of_ascii c) in
  match ch with
  | String a EmptyString => byte a
  | String a (String b EmptyString) => (byte a mod 32) * 64 + byte b mod 64
  | String a (String b (String c EmptyString)) =>
      (byte a mod 16) * 4096 + (byte b mod 64) * 64 + byte c mod 64
  | String a (String b (String c (String d EmptyString))) =>
      (byte a mod 8) * 262144 + (byte b mod 64) * 4096
      + (byte c mod 64) * 64 + byte d mod 64
  | _ => 0
  end%Z.

(** The code points above ASCII for which [str.isprintable] does not hold,
    as ranges: the categories Cc, Cf, Cs, Co, Cn, Zl, Zp and Zs of the
    Unicode database 14.0 of Python 3.11. *)
Definition not_printable : list (Z * Z) :=
  [(128, 160); (173, 173); (888, 889); (896, 899); (907, 907); (909, 909);
   (930, 930); (1328, 1328); (1367, 1368); (1419, 1420); (1424, 1424);
   (1480, 1487); (1515, 1518); (1525, 1541); (1564, 1564); (1757, 1757);
   (1806, 1807); (1867, 1868); (1970, 1983); (2043, 2044); (2094, 2095);
   (2111, 2111); (2140, 2141); (2143, 2143); (2155, 2159); (2191, 2199);
   (2274, 2274); (2436, 2436); (2445, 2446); (2449, 2450); (2473, 2473);
   (2481, 2481); (2483, 2485); (2490, 2491); (2501, 2502); (2505, 2506);
   (2511, 2518); (2520, 2523); (2526, 2526); (2532, 2533); (2559, 2560);
   (2564, 2564); (2571, 2574); (2577, 2578); (2601, 2601); (2609, 2609);
   (2612, 2612); (2615, 2615); (2618, 2619); (2621, 2621); (2627, 2630);
   (2633, 2634); (2638, 2640); (2642, 2648); (2653, 2653); (2655, 2661);
   (2679, 2688); (2692, 2692); (2702, 2702); (2706, 2706); (2729, 2729);
   (2737, 2737); (2740, 2740); (2746, 2747); (2758, 2758); (2762, 2762);
   (2766, 2767); (2769, 2783); (2788, 2789); (2802, 2808); (2816, 2816);
   (2820, 2820); (2829, 2830); (2833, 2834); (2857, 2857); (2865, 2865);
   (2868, 2868); (2874, 2875); (2885, 2886); (2889, 2890); (2894, 2900);
   (2904, 2907); (2910, 2910); (2916, 2917); (2936, 2945); (2948, 2948);
   (2955, 2957); (2961, 2961); (2966, 2968); (2971, 2971); (2973, 2973);
   (2976, 2978); (2981, 2983); (2987, 2989); (3002, 3005); (3011, 3013);
   (3017, 3017); (3022, 3023); (3025, 3030); (3032, 3045); (3067, 3071);
   (3085, 3085); (3089, 3089); (3113, 3113); (3130, 3131); (3141, 3141);
   (3145, 3145); (3150, 3156); (3159, 3159); (3163, 3164); (3166, 3167);
   (3172, 3173); (3184, 3190); (3213, 3213); (3217, 3217); (3241, 3241);
   (3252, 3252); (3258, 3259); (3269, 3269); (3273, 3273); (3278, 3284);
   (3287, 3292); (3295, 3295); (3300, 3301); (3312, 3312); (3315, 3327);
   (3341, 3341); (3345, 3345); (3397, 3397); (3401, 3401); (3408, 3411);
   (3428, 3429); (3456, 3456); (3460, 3460); (3479, 3481); (3506, 3506);
   (3516, 3516); (3518, 3519); (3527, 3529); (3531, 3534); (3541, 3541);
   (3543, 3543); (3552, 3557); (3568, 3569); (3573, 3584); (3643, 3646);
   (3676, 3712); (3715, 3715); (3717, 3717); (3723, 3723); (3748, 3748);
   (3750, 3750); (3774, 3775); (3781, 3781); (3783, 3783); (3790, 3791);
   (3802, 3803); (3808, 3839); (3912, 3912); (3949, 3952); (3992, 3992);
   (4029, 4029); (4045, 4045); (4059, 4095); (4294, 4294); (4296, 4300);
   (4302, 4303); (4681, 4681); (4686, 4687); (4695, 4695); (4697, 4697);
   (4702, 4703); (4745, 4745); (4750, 4751); (4785, 4785); (4790, 4791);
   (4799, 4799); (4801, 4801); (4806, 4807); (4823, 4823); (4881, 4881);
   (4886, 4887); (4955, 4956); (4989, 4991); (5018, 5023); (5110, 5111);
   (5118, 5119); (5760, 5760); (5789, 5791); (5881, 5887); (5910, 5918);
   (5943, 5951); (5972, 5983); (5997, 5997); (6001, 6001); (6004, 6015);
   (6110, 6111); (6122, 6127); (6138, 6143); (6158, 6158); (6170, 6175);
   (6265, 6271); (6315, 6319); (6390, 6399); (6431, 6431); (6444, 6447);
   (6460, 6463); (6465, 6467); (6510, 6511); (6517, 6527); (6572, 6575);
   (6602, 6607); (6619, 6621); (6684, 6685); (6751, 6751); (6781, 6782);
   (6794, 6799); (6810, 6815); (6830, 6831); (6863, 6911); (6989, 6991);
   (7039, 7039); (7156, 7163); (7224, 7226); (7242, 7244); (7305, 7311);
   (7355, 7356); (7368, 7375); (7419, 7423); (7958, 7959); (7966, 7967);
   (8006, 8007); (8014, 8015); (8024, 8024); (8026, 8026); (8028, 8028);
   (8030, 8030); (8062, 8063); (8117, 8117); (8133, 8133); (8148, 8149);
   (8156, 8156); (8176, 8177); (8181, 8181); (8191, 8207); (8232, 8239);
   (8287, 8303); (8306, 8307); (8335, 8335); (8349, 8351); (8385, 8399);
   (8433, 8447); (8588, 8591); (9255, 9279); (9291, 9311); (11124, 11125);
   (11158, 11158); (11508, 11512); (11558, 11558); (11560, 11564);
   (11566, 11567); (11624, 11630); (11633, 11646); (11671, 11679);
   (11687, 11687); (11695, 11695); (11703, 11703); (11711, 11711);
   (11719, 11719); (11727, 11727); (11735, 11735); (11743, 11743);
   (11870, 11903); (11930, 11930); (12020, 12031); (12246, 12271);
   (12284, 12288); (12352, 12352); (12439, 12440); (12544, 12548);
   (12592, 12592); (12687, 12687); (12772, 12783); (12831, 12831);
   (42125, 42127); (42183, 42191); (42540, 42559); (42744, 42751);
   (42955, 42959); (42962, 42962); (42964, 42964); (42970, 42993);
   (43053, 43055); (43066, 43071); (43128, 43135); (43206, 43213);
   (43226, 43231); (43348, 43358); (43389, 43391); (43470, 43470);
   (43482, 43485); (43519, 43519); (43575, 43583); (43598, 43599);
   (43610, 43611); (43715, 43738); (43767, 43776); (43783, 43784);
   (43791, 43792); (43799, 43807); (43815, 43815); (43823, 43823);
   (43884, 43887); (44014, 44015); (44026, 44031); (55204, 55215);
   (55239, 55242); (55292, 63743); (64110, 64111); (64218, 64255);
   (64263, 64274); (64280, 64284); (64311, 64311); (64317, 64317);
   (64319, 64319); (64322, 64322); (64325, 64325); (64451, 64466);
   (64912, 64913); (64968, 64974); (64976, 65007); (65050, 65055);
   (65107, 65107); (65127, 65127); (65132, 65135); (65141, 65141);
   (65277, 65280); (65471, 65473); (65480, 65481); (65488, 65489);
   (65496, 65497); (65501, 65503); (65511, 65511); (65519, 65531);
   (65534, 65535); (65548, 65548); (65575, 65575); (65595, 65595);
   (65598, 65598); (65614, 65615); (65630, 65663); (65787, 65791);
   (65795, 65798); (65844, 65846); (65935, 65935); (65949, 65951);
   (65953, 65999); (66046, 66175); (66205, 66207); (66257, 66271);
   (66300, 66303); (66340, 66348); (66379, 66383); (66427, 66431);
   (66462, 66462); (66500, 66503); (66518, 66559); (66718, 66719);
   (66730, 66735); (66772, 66775); (66812, 66815); (66856, 66863);
   (66916, 66926); (66939, 66939); (66955, 66955); (66963, 66963);
   (66966, 66966); (66978, 66978); (66994, 66994); (67002, 67002);
   (67005, 67071); (67383, 67391); (67414, 67423); (67432, 67455);
   (67462, 67462); (67505, 67505); (67515, 67583); (67590, 67591);
   (67593, 67593); (67638, 67638); (67641, 67643); (67645, 67646);
   (67670, 67670); (67743, 67750); (67760, 67807); (67827, 67827);
   (67830, 67834); (67868, 67870); (67898, 67902); (67904, 67967);
   (68024, 68027); (68048, 68049); (68100, 68100); (68103, 68107);
   (68116, 68116); (68120, 68120); (68150, 68151); (68155, 68158);
   (68169, 68175); (68185, 68191); (68256, 68287); (68327, 68330);
   (68343, 68351); (68406, 68408); (68438, 68439); (68467, 68471);
   (68498, 68504); (68509, 68520); (68528, 68607); (68681, 68735);
   (68787, 68799); (68851, 68857); (68904, 68911); (68922, 69215);
   (69247, 69247); (69290, 69290); (69294, 69295); (69298, 69375);
   (69416, 69423); (69466, 69487); (69514, 69551); (69580, 69599);
   (69623, 69631); (69710, 69713); (69750, 69758); (69821, 69821);
   (69827, 69839); (69865, 69871); (69882, 69887); (69941, 69941);
   (69960, 69967); (70007, 70015); (70112, 70112); (70133, 70143);
   (70162, 70162); (70207, 70271); (70279, 70279); (70281, 70281);
   (70286, 70286); (70302, 70302); (70314, 70319); (70379, 70383);
   (70394, 70399); (70404, 70404); (70413, 70414); (70417, 70418);
   (70441, 70441); (70449, 70449); (70452, 70452); (70458, 70458);
   (70469, 70470); (70473, 70474); (70478, 70479); (70481, 70486);
   (70488, 70492); (70500, 70501); (70509, 70511); (70517, 70655);
   (70748, 70748); (70754, 70783); (70856, 70863); (70874, 71039);
   (71094, 71095); (71134, 71167); (71237, 71247); (71258, 71263);
   (71277, 71295); (71354, 71359); (71370, 71423); (71451, 71452);
   (71468, 71471); (71495, 71679); (71740, 71839); (71923, 71934);
   (71943, 71944); (71946, 71947); (71956, 71956); (71959, 71959);
   (71990, 71990); (71993, 71994); (72007, 72015); (72026, 72095);
   (72104, 72105); (72152, 72153); (72165, 72191); (72264, 72271);
   (72355, 72367); (72441, 72703); (72713, 72713); (72759, 72759);
   (72774, 72783); (72813, 72815); (72848, 72849); (72872, 72872);
   (72887, 72959); (72967, 72967); (72970, 72970); (73015, 73017);
   (73019, 73019); (73022, 73022); (73032, 73039); (73050, 73055);
   (73062, 73062); (73065, 73065); (73103, 73103); (73106, 73106);
   (73113, 73119); (73130, 73439); (73465, 73647); (73649, 73663);
   (73714, 73726); (74650, 74751); (74863, 74863); (74869, 74879);
   (75076, 77711); (77811, 77823); (78895, 82943); (83527, 92159);
   (92729, 92735); (92767, 92767); (92778, 92781); (92863, 92863);
   (92874, 92879); (92910, 92911); (92918, 92927); (92998, 93007);
   (93018, 93018); (93026, 93026); (93048, 93052); (93072, 93759);
   (93851, 93951); (94027, 94030); (94088, 94094); (94112, 94175);
   (94181, 94191); (94194, 94207); (100344, 100351); (101590, 101631);
   (101641, 110575); (110580, 110580); (110588, 110588); (110591, 110591);
   (110883, 110927); (110931, 110947); (110952, 110959); (111356, 113663);
   (113771, 113775); (113789, 113791); (113801, 113807); (113818, 113819);
   (113824, 118527); (118574, 118575); (118599, 118607); (118724, 118783);
   (119030, 119039); (119079, 119080); (119155, 119162); (119275, 119295);
   (119366, 119519); (119540, 119551); (119639, 119647); (119673, 119807);
   (119893, 119893); (119965, 119965); (119968, 119969); (119971, 119972);
   (119975, 119976); (119981, 119981); (119994, 119994); (119996, 119996);
   (120004, 120004); (120070, 120070); (120075, 120076); (120085, 120085);
   (120093, 120093); (120122, 120122); (120127, 120127); (120133, 120133);
   (120135, 120137); (120145, 120145); (120486, 120487); (120780, 120781);
   (121484, 121498); (121504, 121504); (121520, 122623); (122655, 122879);
   (122887, 122887); (122905, 122906); (122914, 122914); (122917, 122917);
   (122923, 123135); (123181, 123183); (123198, 123199); (123210, 123213);
   (123216, 123535); (123567, 123583); (123642, 123646); (123648, 124895);
   (124903, 124903); (124908, 124908); (124911, 124911); (124927, 124927);
   (125125, 125126); (125143, 125183); (125260, 125263); (125274, 125277);
   (125280, 126064); (126133, 126208); (126270, 126463); (126468, 126468);
   (126496, 126496); (126499, 126499); (126501, 126502); (126504, 126504);
   (126515, 126515); (126520, 126520); (126522, 126522); (126524, 126529);
   (126531, 126534); (126536, 126536); (126538, 126538); (126540, 126540);
   (126544, 126544); (126547, 126547); (126549, 126550); (126552, 126552);
   (126554, 126554); (126556, 126556); (126558, 126558); (126560, 126560);
   (126563, 126563); (126565, 126566); (126571, 126571); (126579, 126579);
   (126584, 126584); (126589, 126589); (126591, 126591); (126602, 126602);
   (126620, 126624); (126628, 126628); (126634, 126634); (126652, 126703);
   (126706, 126975); (127020, 127023); (127124, 127135); (127151, 127152);
   (127168, 127168); (127184, 127184); (127222, 127231); (127406, 127461);
   (127491, 127503); (127548, 127551); (127561, 127567); (127570, 127583);
   (127590, 127743); (128728, 128732); (128749, 128751); (128765, 128767);
   (128884, 128895); (128985, 128991); (129004, 129007); (129009, 129023);
   (129036, 129039); (129096, 129103); (129114, 129119); (129160, 129167);
   (129198, 129199); (129202, 129279); (129620, 129631); (129646, 129647);
   (129653, 129655); (129661, 129663); (129671, 129679); (129709, 129711);
   (129723, 129727); (129734, 129743); (129754, 129759); (129768, 129775);
   (129783, 129791); (129939, 129939); (129995, 130031); (130042, 131071);
   (173792, 173823); (177977, 177983); (178206, 178207); (183970, 183983);
   (191457, 194559); (195102, 196607); (201547, 917759); (918000, 1114111)]%Z.

Definition isprintable (cp : Z) : bool :=
  negb (existsb (fun r => (fst r <=? cp) && (cp <=? snd r))%Z not_printable).

(** The [n] hexadecimal digits of [cp], lower case. *)
Fixpoint hex (n : nat) (cp : Z) : string :=
  match n with
  | O => EmptyString
  | S k => hex k (cp / 16) ++ String (hex_digit (Z.to_nat (cp mod 16))) EmptyString
  end.

(** One character of [repr(s)], given by its UTF-8 bytes: a character
    outside ASCII that is not printable is written as [\xNN], [\uNNNN] or
    [\UNNNNNNNN]. *)
Definition repr_point (q : ascii) (ch : string) : string :=
  match ch with
  | String c EmptyString => repr_char q c
  | _ =>
      let cp := code_point ch in
      if isprintable cp then ch
      else if (cp <=? 255)%Z then escaped (String "x"%char (hex 2 cp))
      else if (cp <=? 65535)%Z then escaped (String "u"%char (hex 4 cp))
      else escaped (String "U"%char (hex 8 cp))
  end.

Fixpoint concat_all (l : list string) : string :=
  match l with
  | [] => EmptyString
  | x :: l' => x ++ concat_all l'
  end.

Definition repr_body (q : ascii) (s : string) : string :=
  concat_all (map (repr_point q) (chars s)).

(** [repr(s)] of a [str]: single quotes unless the text holds a single
    quote and no double quote. *)
Definition repr (s : string) : string :=
  let q := if str_in (String squote EmptyString) s
              && negb (str_in (String dquote EmptyString) s)
           then dquote else squote in
  String q (repr_body q s ++ String q EmptyString).

(** [str(n)] of an [int] *)
Definition of_Z (z : Z) : string := NilZero.string_of_int (Z.to_int z).

End PyString.

(* ================================================================== *)
(** ** Python values and exceptions *)

(** The values [json.loads] produces and the scripts build.  A [float] is
    kept as its [repr] text: the scripts only print numbers and test them for
    truth.  A [dict] is its items in insertion order; keys are [str]. *)
Inductive pyval : Type :=
| PNone
| PBool (b : bool)
| PInt (z : Z)
| PFloat (repr : string)
| PStr (s : string)
| PList (l : list pyval)
| PDict (items : list (string * pyval)).

Inductive pyexn : Type :=
| ExException (msg : string)                 (* raise Exception(msg) *)
| ExValueError (msg : string)
| ExTypeError (msg : string)
| ExAttributeError (type attr : string)
| ExKeyError (key : pyval)
| ExIndexError (msg : string)
| ExJSONDecodeError (msg : string)           (* json.JSONDecodeError *)
| ExHTTPError (code : Z) (reason body : string)  (* urllib.error.HTTPError *)
| ExURLError (reason : string)               (* urllib.error.URLError *)
| ExSystemExit (code : Z).                   (* sys.exit(code) *)

(** What a Python call comes to. *)
Inductive outcome (A : Type) : Type :=
| Ret (a : A)
| Raise (e : pyexn).
Arguments Ret {A} a.
Arguments Raise {A} e.

Definition obind {A B} (o : outcome A) (k : A -> outcome B) : outcome B :=
  match o with Ret a => k a | Raise e => Raise e end.

Notation "'let?' x ':=' o 'in' k" := (obind o (fun x => k))
  (at level 10, x name, o at level 100, k at level 200).

Module Py.
Import PyString.

Definition type_name (v : pyval) : string :=
  match v with
  | PNone => "NoneType" | PBool _ => "bool" | PInt _ => "int"
  | PFloat _ => "float" | PStr _ => "str" | PList _ => "list"
  | PDict _ => "dict"
  end.

(** [bool(v)] *)
Definition truthy (v : pyval) : bool :=
  match v with
  | PNone => false
  | PBool b => b
  | PInt z => negb (z =? 0)%Z
  | PFloat r => negb (String.eqb r "0.0" || String.eqb r "-0.0")
  | PStr s => negb (String.eqb s "")
  | PList l => match l with [] => false | _ => true end
  | PDict d => match d with [] => false | _ => true end
  end.

(** [repr(v)] *)
Fixpoint repr (v : pyval) : string :=
  match v with
  | PNone => "None"
  | PBool true => "True"
  | PBool false => "False"
  | PInt z => of_Z z
  | PFloat r => r
  | PStr s => PyString.repr s
  | PList l => "[" ++ join ", " (map repr l) ++ "]"
  | PDict d =>
      "{" ++ join ", "
               (map (fun kv => match kv with
                               | (k, x) => PyString.repr k ++ ": " ++ repr x
                               end) d) ++ "}"
  end.

(** [str(v)], also what an f-string field [{v}] expands to *)
Definition str (v : pyval) : string :=
  match v with
  | PStr s => s
  | _ => repr v
  end.

(** [f"{o}"] for a value that is a [str] or [None] *)
Definition fmt_opt (o : option string) : string :=
  match o with Some s => s | None => "None" end.

Definition of_opt (o : option string) : pyval :=
  match o with Some s => PStr s | None => PNone end.

(** [bool(o)] for a value that is a [str] or [None] *)
Definition truthy_opt (o : option string) : bool :=
  match o with Some s => negb (String.eqb s "") | None => false end.

(** [a or b] where [a] is a [str] or [None] and [b] a [str] *)
Definition or_else (a : option string) (b : string) : string :=
  if truthy_opt a then fmt_opt a else b.

(** [v == s] for a [str] literal [s] *)
Definition eq_str (v : pyval) (s : string) : bool :=
  match v with PStr t => String.eqb t s | _ => false end.

(** ** Dictionaries *)

Fixpoint lookup (k : string) (d : list (string * pyval)) : option pyval :=
  match d with
  | [] => None
  | (k', v) :: d' => if String.eqb k' k then Some v else lookup k d'
  end.

(** [d[k] = v] on the items: an existing key keeps its place. *)
Fixpoint set_item {V : Type} (k : string) (v : V) (d : list (string * V))
  : list (string * V) :=
  match d with
  | [] => [(k, v)]
  | (k', v') :: d' =>
      if String.eqb k' k then (k, v) :: d' else (k', v') :: set_item k v d'
  end.

(** [str(e)] *)
Definition exn_str (e : pyexn) : string :=
  match e with
  | ExException m | ExValueError m | ExTypeError m | ExIndexError m
  | ExJSONDecodeError m => m
  | ExAttributeError t a =>
      "'" ++ t ++ "' object has no attribute '" ++ a ++ "'"
  | ExKeyError k => repr k
  | ExHTTPError c r _ => "HTTP Error " ++ of_Z c ++ ": " ++ r
  | ExURLError r => "<urlopen error " ++ r ++ ">"
  | ExSystemExit c => of_Z c
  end.

(** [isinstance(e, Exception)]: [SystemExit] derives from [BaseException]
    only, every other one from [Exception]. *)
Definition is_Exception (e : pyexn) : bool :=
  match e with ExSystemExit _ => false | _ => true end.

Definition no_attribute {A} (v : pyval) (attr : string) : outcome A :=
  Raise (ExAttributeError (type_name v) attr).

(** [v.get(k, dflt)] *)
Definition get_or (v : pyval) (k : string) (dflt : pyval) : outcome pyval :=
  match v with
  | PDict d => Ret (match lookup k d with Some x => x | None => dflt end)
  | _ => no_attribute v "get"
  end.

(** [v.get(k)] *)
Definition get (v : pyval) (k : string) : outcome pyval := get_or v k PNone.

Definition not_subscriptable {A} (v : pyval) : outcome A :=
  Raise (ExTypeError ("'" ++ type_name v ++ "' object is not subscriptable")).

(** [v[k]] for a [str] key *)
Definition item (v : pyval) (k : string) : outcome pyval :=
  match v with
  | PDict d => match lookup k d with
               | Some x => Ret x
               | None => Raise (ExKeyError (PStr k))
               end
  | PList _ => Raise (ExTypeError "list indices must be integers or slices, not str")
  | PStr _ => Raise (ExTypeError "string indices must be integers, not 'str'")
  | _ => not_subscriptable v
  end.

(** [v[0]] *)
Definition item0 (v : pyval) : outcome pyval :=
  match v with
  | PList (x :: _) => Ret x
  | PList [] => Raise (ExIndexError "list index out of range")
  | PStr s => match chars s with
              | c :: _ => Ret (PStr c)
              | [] => Raise (ExIndexError "string index out of range")
              end
  | PDict _ => Raise (ExKeyError (PInt 0))
  | _ => not_subscriptable v
  end.

(** [len(v)] *)
Definition len (v : pyval) : outcome nat :=
  match v with
  | PList l => Ret (List.length l)
  | PDict d => Ret (List.length d)
  | PStr s => Ret (List.length (chars s))
  | _ => Raise (ExTypeError ("object of type '" ++ type_name v ++ "' has no len()"))
  end.

(** The items a [for] loop over [v] visits. *)
Definition iter (v : pyval) : outcome (list pyval) :=
  match v with
  | PList l => Ret l
  | PDict d => Ret (map (fun kv => PStr (fst kv)) d)
  | PStr s => Ret (map PStr (chars s))
  | _ => Raise (ExTypeError ("'" ++ type_name v ++ "' object is not iterable"))
  end.

(** [s in v] for a [str] literal [s] *)
Definition contains (v : pyval) (s : string) : outcome bool :=
  match v with
  | PStr t => Ret (str_in s t)
  | PList l => Ret (existsb (fun x => eq_str x s) l)
  | PDict d => Ret (match lookup s d with Some _ => true | None => false end)
  | _ => Raise (ExTypeError ("argument of type '" ++ type_name v
                              ++ "' is not iterable"))
  end.

(** [v.lower()] *)
Definition lower (v : pyval) : outcome string :=
  match v with
  | PStr s => Ret (PyString.lower s)
  | _ => no_attribute v "lower"
  end.

End Py.

(* ================================================================== *)
(** ** The platform and the world *)

(** A [urllib.request.Request]. *)
Record request : Type := {
  req_method : string;
  req_url : string;
  req_headers : list (string * string);
  req_data : option string
}.

(** What [urlopen] comes to: a 2xx reply with its text, an [HTTPError] for any
    other status, or no reply at all. *)
Inductive http_reply : Type :=
| Reply2xx (body : string)
| ReplyError (code : Z) (reason body : string)
| NoReply (reason : string).

(** An [xml.etree.ElementTree.Element]: tag, text, child elements. *)
Inductive element : Type :=
| Element (tag : string) (text : option string) (children : list element).

(** What [json.loads] raises on a text when it is not a [JSONDecodeError]:
    a [RecursionError] on a text nested too deep, a [ValueError] on an
    integer literal beyond the conversion limit. *)
Inductive loads_error : Type :=
| RecursionError (msg : string)
| ValueError (msg : string).

(** The library functions the scripts call and the servers they talk to.
    [json_loads] and [ET_fromstring] give [inl msg] where Python raises
    [JSONDecodeError] or [ParseError] with message [msg]; [json_dumps] takes
    the [indent] argument; [urlopen] sees the requests sent before.
    [utf8_decode] is [bytes.decode('utf-8')], with [inl msg] where it raises
    [UnicodeDecodeError] with message [msg]; [json_loads_other] tells where
    [json.loads] raises something else than a [JSONDecodeError]. *)
Class Platform : Type := {
  json_loads : string -> string + pyval;
  json_dumps : option nat -> pyval -> string;
  b64encode : string -> string;
  urlencode : list (string * string) -> string;
  ET_fromstring : string -> string + element;
  urlopen : list request -> request -> http_reply;
  utf8_decode : string -> string + string;
  json_loads_other : string -> option loads_error
}.

Record world : Type := {
  sent : list request;      (* requests handed to urlopen, oldest first *)
  stdout : list string      (* lines printed, oldest first *)
}.

Definition world0 : world := {| sent := []; stdout := [] |}.

(** Computations: state passing over the world, with exceptions. *)
Definition M (A : Type) : Type := world -> outcome A * world.

Definition ret {A} (a : A) : M A := fun w => (Ret a, w).

Definition raise {A} (e : pyexn) : M A := fun w => (Raise e, w).

Definition bind {A B} (m : M A) (k : A -> M B) : M B :=
  fun w => match m w with
           | (Ret a, w') => k a w'
           | (Raise e, w') => (Raise e, w')
           end.

Notation "x <- m ;; k" := (bind m (fun x => k))
  (at level 61, m at next level, right associativity).
Notation "m ;;; k" := (bind m (fun _ => k))
  (at level 61, right associativity).

Definition lift {A} (o : outcome A) : M A := fun w => (o, w).

(** The world once [req] has gone out. *)
Definition after_send (w : world) (req : request) : world :=
  {| sent := sent w ++ [req]%list; stdout := stdout w |}.

(** The world once [lines] have been printed. *)
Definition printed (w : world) (lines : list string) : world :=
  {| sent := sent w; stdout := (stdout w ++ lines)%list |}.

(** The f-string [f"Exotel API Error {e.code}: {body}"] of the three
    Exotel clients. *)
Definition api_error (code : Z) (body : string) : string :=
  "Exotel API Error " ++ PyString.of_Z code ++ ": " ++ body.

(** [print(line)] *)
Definition print (line : string) : M unit :=
  fun w => (Ret tt, {| sent := sent w; stdout := stdout w ++ [line]%list |}).

(** [sys.exit(code)] *)
Definition sys_exit {A} (code : Z) : M A := raise (ExSystemExit code).

(** [try: m  except <class> as e: h e]: [h] gives [None] for an exception
    that is not of the class. *)
Definition try_with {A} (m : M A) (h : pyexn -> option (M A)) : M A :=
  fun w => match m w with
           | (Ret a, w') => (Ret a, w')
           | (Raise e, w') => match h e with
                              | Some k => k w'
                              | None => (Raise e, w')
                              end
           end.

(** [except Exception as e] *)
Definition on_Exception {A} (h : pyexn -> M A) (e : pyexn) : option (M A) :=
  if Py.is_Exception e then Some (h e) else None.

(** [except urllib.error.HTTPError as e], with [e.code], [e.reason] and the
    text of [e.read()] *)
Definition on_HTTPError {A} (h : Z -> string -> string -> M A) (e : pyexn)
  : option (M A) :=
  match e with
  | ExHTTPError code reason body => Some (h code reason body)
  | _ => None
  end.

Section WithPlatform.
Context {P : Platform}.

(** [urllib.request.urlopen(req)] and reading the reply as text *)
Definition send (req : request) : M string :=
  fun w =>
    let w' := after_send w req in
    match urlopen (sent w) req with
    | Reply2xx body => (Ret body, w')
    | ReplyError code reason body => (Raise (ExHTTPError code reason body), w')
    | NoReply reason => (Raise (ExURLError reason), w')
    end.

(** [json.loads(text)] *)
Definition loads (text : string) : M pyval :=
  match json_loads text with
  | inr v => ret v
  | inl msg => raise (ExJSONDecodeError msg)
  end.

End WithPlatform.

(** Two [except] clauses in a row. *)
Definition or_handler {A} (h1 h2 : pyexn -> option (M A)) (e : pyexn)
  : option (M A) :=
  match h1 e with Some k => Some k | None => h2 e end.

(** The exit status of the interpreter after the main program. *)
Definition exit_status {A} (o : outcome A) : Z :=
  match o with
  | Ret _ => 0
  | Raise (ExSystemExit c) => c
  | Raise _ => 1
  end.

(** ['=' * n] *)
Fixpoint times (c : string) (n : nat) : string :=
  match n with O => EmptyString | S n' => c ++ times c n' end.

(* ================================================================== *)
(** ** src/vapi_exotel_integration.py: class VapiExotelIntegrator *)

Module VapiExotelIntegrator.
Import PyString.

(** [self.config] *)
Record config : Type := {
  auth_key : option string;
  auth_token : option string;
  domain : string;
  account_sid : option string;
  default_trunk : string
}.

(** [os.environ.get(name, dflt)] *)
Definition environ_get (environ : string -> option string) (name dflt : string)
  : string :=
  match environ name with Some v => v | None => dflt end.

Definition _load_config (environ : string -> option string) : config := {|
  auth_key := environ "EXO_AUTH_KEY";
  auth_token := environ "EXO_AUTH_TOKEN";
  domain := environ_get environ "EXO_SUBSCRIBIX_DOMAIN" "api.in.exotel.com";
  account_sid := environ "EXO_ACCOUNT_SID";
  default_trunk := environ_get environ "EXO_DEFAULT_TRUNK" "your_trunk_id_here"
|}.

(** [__init__]: [config or self._load_config()] *)
Definition init (cfg : option config) (environ : string -> option string)
  : config :=
  match cfg with Some c => c | None => _load_config environ end.

Definition base_url (self : config) : string :=
  "https://" ++ domain self ++ "/v2/accounts/" ++ Py.fmt_opt (account_sid self).

Definition missing_credentials : string :=
  "Missing required Exotel credentials. Set EXO_AUTH_KEY, EXO_AUTH_TOKEN, and EXO_ACCOUNT_SID environment variables.".

(** [all([auth_key, auth_token, account_sid])] *)
Definition has_credentials (self : config) : bool :=
  Py.truthy_opt (auth_key self) && Py.truthy_opt (auth_token self)
  && Py.truthy_opt (account_sid self).

Definition convert_vapi_fqdn (vapi_fqdn : string) : string :=
  if str_in "@" vapi_fqdn then str_replace "@" "." vapi_fqdn else vapi_fqdn.

Section WithPlatform.
Context {P : Platform}.

(** The [urllib.request.Request] that [_make_request] builds. *)
Definition request_for (self : config) (method endpoint : string)
           (payload : option pyval) : request :=
  let url := base_url self ++ endpoint in
  let credentials :=
    Py.fmt_opt (auth_key self) ++ ":" ++ Py.fmt_opt (auth_token self) in
  let encoded_credentials := b64encode credentials in
  let headers := [("Authorization", "Basic " ++ encoded_credentials);
                  ("Content-Type", "application/json")] in
  let data := match payload with
              | Some p => if Py.truthy p then Some (json_dumps None p) else None
              | None => None
              end in
  {| req_method := method; req_url := url;
     req_headers := headers; req_data := data |}.

Definition _make_request (self : config) (method endpoint : string)
           (payload : option pyval) : M pyval :=
  if negb (has_credentials self) then raise (ExValueError missing_credentials)
  else
    let req := request_for self method endpoint payload in
    try_with (body <- send req ;; loads body)
             (on_HTTPError (fun code _ error_msg =>
                raise (ExException (api_error code error_msg)))).

Definition sip_destination_of (converted_fqdn : string) : string :=
  converted_fqdn ++ ":5060;transport=tcp".

Definition destination_payload (sip_destination : string) : pyval :=
  PDict [("destinations", PList [PDict [("destination", PStr sip_destination)]])].

Definition failure (error : pyval) : pyval :=
  PDict [("success", PBool false); ("error", error)].

(** The body of the [try] of [add_vapi_destination], after the request. *)
Definition parse_destination_response (result : pyval)
           (sip_destination trunk_sid : string) : outcome pyval :=
  let? r := Py.get result "response" in
  let? nonempty :=
    (if Py.truthy r
     then let? r' := Py.item result "response" in
          let? n := Py.len r' in Ret (0 <? n)%nat
     else Ret false) in
  if nonempty : bool then
    let? r' := Py.item result "response" in
    let? response_item := Py.item0 r' in
    let? status := Py.get response_item "status" in
    if Py.eq_str status "success" then
      let? d1 := Py.item response_item "data" in
      let? id := Py.item d1 "id" in
      let? d2 := Py.item response_item "data" in
      let? dest := Py.item d2 "destination" in
      Ret (PDict [("success", PBool true);
                  ("destination_id", id);
                  ("destination", dest);
                  ("trunk_sid", PStr trunk_sid)])
    else
      let? ed := Py.get_or response_item "error_data" (PDict []) in
      if str_in "Duplicate resource" (Py.str ed) then
        Ret (PDict [("success", PBool true);
                    ("message", PStr "Destination already exists");
                    ("destination", PStr sip_destination);
                    ("trunk_sid", PStr trunk_sid)])
      else
        let? ed' := Py.get_or response_item "error_data" (PDict []) in
        let? msg := Py.get_or ed' "message" (PStr "Unknown error") in
        Ret (failure msg)
  else Ret (failure (PStr "Invalid API response format")).

Definition add_vapi_destination (self : config) (vapi_fqdn : string)
           (trunk_sid : option string) : M pyval :=
  let trunk_sid := Py.or_else trunk_sid (default_trunk self) in
  let converted_fqdn := convert_vapi_fqdn vapi_fqdn in
  let sip_destination := sip_destination_of converted_fqdn in
  let payload := destination_payload sip_destination in
  try_with
    (result <- _make_request self "POST"
                 ("/trunks/" ++ trunk_sid ++ "/destination-uris") (Some payload) ;;
     lift (parse_destination_response result sip_destination trunk_sid))
    (on_Exception (fun e => ret (failure (PStr (Py.exn_str e))))).

(** The body of the [try] of [map_phone_number], after the request. *)
Definition parse_phone_response (result : pyval) (phone_number trunk_sid : string)
  : outcome pyval :=
  let failed := Ret (failure (PStr "Phone number mapping failed")) in
  let? r := Py.get result "response" in
  if Py.truthy r then
    let? response := Py.item result "response" in
    let? status := Py.get response "status" in
    if Py.eq_str status "success" || str_in "Duplicate resource" (Py.str response)
    then Ret (PDict [("success", PBool true);
                     ("phone_number", PStr phone_number);
                     ("trunk_sid", PStr trunk_sid);
                     ("message", PStr "Phone number mapped successfully")])
    else failed
  else failed.

Definition map_phone_number (self : config) (phone_number : string)
           (trunk_sid : option string) : M pyval :=
  let trunk_sid := Py.or_else trunk_sid (default_trunk self) in
  let payload := PDict [("phone_number", PStr phone_number)] in
  try_with
    (result <- _make_request self "POST"
                 ("/trunks/" ++ trunk_sid ++ "/phone-numbers") (Some payload) ;;
     lift (parse_phone_response result phone_number trunk_sid))
    (on_Exception (fun e => ret (failure (PStr (Py.exn_str e))))).

(** [results['steps'][name] = value] *)
Definition set_step (name : string) (value : pyval)
           (results : list (string * pyval)) : outcome (list (string * pyval)) :=
  match Py.lookup "steps" results with
  | Some (PDict steps) =>
      Ret (Py.set_item "steps" (PDict (Py.set_item name value steps)) results)
  | Some v => Raise (ExTypeError ("'" ++ Py.type_name v
                                   ++ "' object does not support item assignment"))
  | None => Raise (ExKeyError (PStr "steps"))
  end.

Definition configure_vapi_integration (self : config)
           (vapi_fqdn phone_number : string) (trunk_sid : option string)
  : M pyval :=
  let results :=
    [("vapi_fqdn", PStr vapi_fqdn);
     ("phone_number", PStr phone_number);
     ("converted_fqdn", PStr (convert_vapi_fqdn vapi_fqdn));
     ("trunk_sid", PStr (Py.or_else trunk_sid (default_trunk self)));
     ("steps", PDict [])] in
  (* Step 1: Add Vapi destination *)
  dest_result <- add_vapi_destination self vapi_fqdn trunk_sid ;;
  results <- lift (set_step "destination" dest_result results) ;;
  dest_ok <- lift (Py.item dest_result "success") ;;
  if negb (Py.truthy dest_ok) then
    let results := Py.set_item "success" (PBool false) results in
    dest_error <- lift (Py.item dest_result "error") ;;
    let results :=
      Py.set_item "error"
        (PStr ("Failed to add destination: " ++ Py.str dest_error)) results in
    ret (PDict results)
  else
    (* Step 2: Map phone number *)
    phone_result <- map_phone_number self phone_number trunk_sid ;;
    results <- lift (set_step "phone_mapping" phone_result results) ;;
    phone_ok <- lift (Py.item phone_result "success") ;;
    if negb (Py.truthy phone_ok) then
      let results := Py.set_item "success" (PBool false) results in
      phone_error <- lift (Py.item phone_result "error") ;;
      let results :=
        Py.set_item "error"
          (PStr ("Failed to map phone number: " ++ Py.str phone_error)) results in
      ret (PDict results)
    else
      let results := Py.set_item "success" (PBool true) results in
      let results :=
        Py.set_item "message"
          (PStr "Vapi-Exotel integration configured successfully") results in
      ret (PDict results).

(** The one request of the attach step. *)
Definition attach_request (self : config) (vapi_fqdn : string)
           (trunk_sid : option string) : request :=
  request_for self "POST"
    ("/trunks/" ++ Py.or_else trunk_sid (default_trunk self) ++ "/destination-uris")
    (Some (destination_payload (sip_destination_of (convert_vapi_fqdn vapi_fqdn)))).

(** The one request of the mapping step. *)
Definition mapping_request (self : config) (phone_number : string)
           (trunk_sid : option string) : request :=
  request_for self "POST"
    ("/trunks/" ++ Py.or_else trunk_sid (default_trunk self) ++ "/phone-numbers")
    (Some (PDict [("phone_number", PStr phone_number)])).

(** [main()] after argument parsing: [--fqdn], [--phone] and the optional
    [--trunk]. *)
Definition main (environ : string -> option string)
           (fqdn phone : string) (trunk : option string) : M unit :=
  try_with
    (let integrator := init None environ in
     print "🎯 VAPI-EXOTEL INTEGRATION" ;;;
     print (times "=" 50) ;;;
     print ("FQDN: " ++ fqdn) ;;;
     print ("Phone: " ++ phone) ;;;
     print ("Trunk: " ++ Py.or_else trunk (default_trunk integrator)) ;;;
     print "" ;;;
     result <- configure_vapi_integration integrator fqdn phone trunk ;;
     ok <- lift (Py.item result "success") ;;
     if Py.truthy ok then
       print "✅ SUCCESS: Integration completed!" ;;;
       converted <- lift (Py.item result "converted_fqdn") ;;
       print ("   Converted FQDN: " ++ Py.str converted) ;;;
       print ("   SIP Destination: sip:" ++ Py.str converted ++ ":5060;transport=tcp") ;;;
       trunk_sid <- lift (Py.item result "trunk_sid") ;;
       print ("   Trunk: " ++ Py.str trunk_sid) ;;;
       print "" ;;;
       print "🧪 Ready for testing:" ;;;
       print ("   Call " ++ phone ++ " → Routes to " ++ Py.str converted) ;;;
       print "   Expected: 33-second+ call with NORMAL_CLEARING status"
     else
       print "❌ FAILED: Integration failed!" ;;;
       error <- lift (Py.get_or result "error" (PStr "Unknown error")) ;;
       print ("   Error: " ++ Py.str error) ;;;
       sys_exit 1)
    (on_Exception (fun e =>
       print ("❌ ERROR: " ++ Py.exn_str e) ;;; sys_exit 1)).

End WithPlatform.
End VapiExotelIntegrator.

(* ================================================================== *)
(** ** production_integration_script.py: class VapiExotelProductionIntegrator

    The integrator is taken after [load_configuration] has run; of
    [self.config] only the entries that the embedded methods read are kept. *)

Module VapiExotelProductionIntegrator.
Import PyString.

Record exotel_config : Type := {
  auth_key : option string;
  auth_token : option string;
  domain : string;
  account_sid : option string;
  base_url : option string
}.

Record integration_config : Type := {
  phone_number : option string;
  vapi_fqdn : option string
}.

Record config : Type := {
  exotel : exotel_config;
  integration : integration_config
}.

(** The last statement of [load_configuration]: the value of
    [config['exotel']['base_url']]. *)
Definition loaded_base_url (domain : string) (account_sid : option string)
  : option string :=
  if negb (String.eqb domain "") && Py.truthy_opt account_sid
  then Some ("https://" ++ domain ++ "/v2/accounts/" ++ Py.fmt_opt account_sid)
  else None.

Definition convert_vapi_fqdn (vapi_fqdn : string) : string :=
  str_replace "@" "." vapi_fqdn.

Definition failure (error : string) : pyval :=
  PDict [("success", PBool false); ("error", PStr error)].

Definition nl : string := String (ascii_of_nat 10) EmptyString.

Section WithPlatform.
Context {P : Platform}.

(** The [urllib.request.Request] that [make_exotel_request] builds. *)
Definition request_for (self : config) (method url : string)
           (payload : option pyval) : request :=
  let credentials := Py.fmt_opt (auth_key (exotel self)) ++ ":"
                     ++ Py.fmt_opt (auth_token (exotel self)) in
  let encoded_credentials := b64encode credentials in
  let headers := [("Authorization", "Basic " ++ encoded_credentials);
                  ("Content-Type", "application/json")] in
  let data := match payload with
              | Some p => if Py.truthy p then Some (json_dumps None p) else None
              | None => None
              end in
  {| req_method := method; req_url := url;
     req_headers := headers; req_data := data |}.

Definition make_exotel_request (self : config) (method endpoint : string)
           (payload : option pyval) : M pyval :=
  url <- match base_url (exotel self) with
         | Some b => ret (b ++ endpoint)
         | None => raise (ExTypeError
                      "unsupported operand type(s) for +: 'NoneType' and 'str'")
         end ;;
  let req := request_for self method url payload in
  try_with (body <- send req ;; loads body)
           (on_HTTPError (fun code _ error_response =>
              raise (ExException (api_error code error_response)))).

(** The [for] loop of [get_active_trunk]: [Some v] when it returns [v]. *)
Fixpoint find_active (items : list pyval) : M (option pyval) :=
  match items with
  | [] => ret None
  | trunk_response :: rest =>
      usable <- lift (let? status := Py.get trunk_response "status" in
                      if Py.eq_str status "success"
                      then let? d := Py.get trunk_response "data" in
                           Ret (Py.truthy d)
                      else Ret false) ;;
      if usable : bool then
        trunk <- lift (Py.item trunk_response "data") ;;
        status <- lift (let? st := Py.get_or trunk "status" (PStr "") in
                        Py.lower st) ;;
        if String.eqb status "active" then
          trunk_sid <- lift (Py.get trunk "trunk_sid") ;;
          trunk_name <- lift (Py.get_or trunk "trunk_name" (PStr "Unnamed")) ;;
          print ("✅ Found active trunk: " ++ Py.str trunk_name
                 ++ " (" ++ Py.str trunk_sid ++ ")") ;;;
          ret (Some trunk_sid)
        else find_active rest
      else find_active rest
  end.

Definition get_active_trunk (self : config) : M pyval :=
  print "🔍 Finding active Exotel trunk..." ;;;
  try_with
    (result <- make_exotel_request self "GET" "/trunks" None ;;
     listed <- lift (if Py.truthy result
                     then let? r := Py.get result "response" in Ret (Py.truthy r)
                     else Ret false) ;;
     found <- (if listed : bool
               then items <- lift (let? r := Py.item result "response" in
                                   Py.iter r) ;;
                    find_active items
               else ret None) ;;
     match found with
     | Some trunk_sid => ret trunk_sid
     | None => print "❌ No active trunk found" ;;; ret PNone
     end)
    (on_Exception (fun e =>
       print ("❌ Error finding trunk: " ++ Py.exn_str e) ;;; ret PNone)).

(** The first [try] of [setup_fqdn_integration]: [Some r] when the method
    returns [r] from inside it, [None] when control goes on. *)
Definition attach_destination (self : config) (trunk_sid : pyval)
           (sip_destination : string) : M (option pyval) :=
  try_with
    (let dest_payload :=
       PDict [("destinations",
               PList [PDict [("destination", PStr sip_destination)]])] in
     dest_result <- make_exotel_request self "POST"
                      ("/trunks/" ++ Py.str trunk_sid ++ "/destination-uris")
                      (Some dest_payload) ;;
     added <- lift (let? r := Py.get dest_result "response" in
                    if Py.truthy r
                    then let? r' := Py.item dest_result "response" in
                         let? first := Py.item0 r' in
                         let? status := Py.get first "status" in
                         Ret (Py.eq_str status "success")
                    else Ret false) ;;
     if added : bool then
       dest_data <- lift (let? r' := Py.item dest_result "response" in
                          let? first := Py.item0 r' in
                          Py.item first "data") ;;
       id <- lift (Py.get dest_data "id") ;;
       print ("✅ Destination added successfully! ID: " ++ Py.str id) ;;;
       ret None
     else
       error_data <- lift (let? r := Py.get_or dest_result "response"
                                         (PList [PDict []]) in
                           let? first := Py.item0 r in
                           Py.get_or first "error_data" (PDict [])) ;;
       duplicate <- lift (let? m := Py.get_or error_data "message" (PStr "") in
                          Py.contains m "Duplicate resource") ;;
       if duplicate : bool then
         print "✅ Destination already exists (OK)" ;;; ret None
       else
         message <- lift (Py.get error_data "message") ;;
         print ("❌ Failed to add destination: " ++ Py.str message) ;;;
         ret (Some (failure "Failed to add destination")))
    (on_Exception (fun e =>
       if str_in "Duplicate resource" (Py.exn_str e) then
         print "✅ Destination already exists (OK)" ;;; ret None
       else
         print ("❌ Error adding destination: " ++ Py.exn_str e) ;;;
         ret (Some (failure (Py.exn_str e))))).

(** The second [try] of [setup_fqdn_integration]. *)
Definition map_phone (self : config) (trunk_sid : pyval)
           (phone_number : option string) : M (option pyval) :=
  try_with
    (let phone_payload := PDict [("phone_number", Py.of_opt phone_number)] in
     _ <- make_exotel_request self "POST"
            ("/trunks/" ++ Py.str trunk_sid ++ "/phone-numbers")
            (Some phone_payload) ;;
     print "✅ Phone number mapped successfully!" ;;;
     ret None)
    (on_Exception (fun e =>
       if str_in "Duplicate resource" (Py.exn_str e) then
         print "✅ Phone number already mapped (OK)" ;;; ret None
       else
         print ("❌ Error mapping phone number: " ++ Py.exn_str e) ;;;
         ret (Some (failure (Py.exn_str e))))).

Definition setup_fqdn_integration (self : config) : M pyval :=
  print (nl ++ "🎯 SETTING UP FQDN-BASED INTEGRATION") ;;;
  print (times "=" 50) ;;;
  let vapi_fqdn := vapi_fqdn (integration self) in
  let phone_number := phone_number (integration self) in
  print "📋 Configuration:" ;;;
  print ("   FQDN: " ++ Py.fmt_opt vapi_fqdn) ;;;
  print ("   Phone: " ++ Py.fmt_opt phone_number) ;;;
  (* Convert FQDN format *)
  converted_fqdn <- match vapi_fqdn with
                    | Some s => ret (convert_vapi_fqdn s)
                    | None => lift (Py.no_attribute PNone "replace")
                    end ;;
  let sip_destination := converted_fqdn ++ ":5060;transport=tcp" in
  print ("   Converted: " ++ converted_fqdn) ;;;
  print ("   SIP Destination: " ++ sip_destination) ;;;
  print "" ;;;
  (* Get active trunk *)
  trunk_sid <- get_active_trunk self ;;
  if negb (Py.truthy trunk_sid) then ret (failure "No active trunk found")
  else
    (* Add Vapi destination *)
    print "🔄 Adding Vapi destination to trunk..." ;;;
    attached <- attach_destination self trunk_sid sip_destination ;;
    match attached with
    | Some r => ret r
    | None =>
        (* Map phone number *)
        print "🔄 Mapping phone number to trunk..." ;;;
        mapped <- map_phone self trunk_sid phone_number ;;
        match mapped with
        | Some r => ret r
        | None =>
            ret (PDict [("success", PBool true);
                        ("trunk_sid", trunk_sid);
                        ("fqdn", PStr converted_fqdn);
                        ("sip_destination", PStr sip_destination);
                        ("phone_number", Py.of_opt phone_number)])
        end
    end.

End WithPlatform.
End VapiExotelProductionIntegrator.

(* ================================================================== *)
(** ** src/exotel_outbound_calls.py: class ExotelOutboundCaller *)

Module ExotelOutboundCaller.
Import PyString.

Record config : Type := {
  api_key : option string;
  auth_token : option string;
  account_sid : option string;
  domain : option string;
  caller_id : option string
}.

Definition _load_config (environ : string -> option string) : config := {|
  api_key := environ "EXO_AUTH_KEY";
  auth_token := environ "EXO_AUTH_TOKEN";
  account_sid := environ "EXO_ACCOUNT_SID";
  domain := Some (match environ "EXO_SUBSCRIBIX_DOMAIN" with
                  | Some d => d | None => "api.in.exotel.com" end);
  caller_id :=
    Some (match environ "EXO_CALLER_ID" with
          | Some c => c
          | None => str_replace "+91" "0"
                      (match environ "PHONE_NUMBER" with
                       | Some p => p | None => "" end)
          end)
|}.

Definition _validate_config (self : config) : outcome unit :=
  let required := [("api_key", api_key self); ("auth_token", auth_token self);
                   ("account_sid", account_sid self); ("domain", domain self)] in
  let missing :=
    map fst (filter (fun kv => negb (Py.truthy_opt (snd kv))) required) in
  match missing with
  | _ :: _ => Raise (ExValueError
                       ("Missing required configuration: " ++ join ", " missing))
  | [] =>
      if negb (Py.truthy_opt (caller_id self))
      then Raise (ExValueError
                    "Missing caller_id - set EXO_CALLER_ID or PHONE_NUMBER")
      else Ret tt
  end.

Definition tag_of (e : element) : string :=
  match e with Element t _ _ => t end.

Definition text_of (e : element) : option string :=
  match e with Element _ t _ => t end.

Definition children_of (e : element) : list element :=
  match e with Element _ _ c => c end.

(** [elem.find(tag)]: the first child element with that tag *)
Definition find_child (tag : string) (e : element) : option element :=
  List.find (fun c => String.eqb (tag_of c) tag) (children_of e).

(** The loop [for child in call_elem: call_data[child.tag] = child.text] *)
Definition call_data_of (call_elem : element) : list (string * pyval) :=
  fold_left (fun call_data child =>
               Py.set_item (tag_of child) (Py.of_opt (text_of child)) call_data)
            (children_of call_elem) [].

(** [form_data[f"{key}[{i}]"] = str(item)] for the items of a list value,
    [i] counting from [i0] *)
Fixpoint add_indexed (key : string) (i0 : nat) (items : list pyval)
         (form_data : list (string * string)) : list (string * string) :=
  match items with
  | [] => form_data
  | item :: rest =>
      add_indexed key (S i0) rest
        (Py.set_item (key ++ "[" ++ of_Z (Z.of_nat i0) ++ "]") (Py.str item)
                     form_data)
  end.

(** The loop that prepares the form data *)
Definition form_data_of (data : list (string * pyval)) : list (string * string) :=
  fold_left (fun form_data kv =>
               match snd kv with
               | PList items => add_indexed (fst kv) 0 items form_data
               | value => Py.set_item (fst kv) (Py.str value) form_data
               end)
            data [].

Section WithPlatform.
Context {P : Platform}.

Definition _parse_xml_response (xml_data : string) : pyval :=
  match ET_fromstring xml_data with
  | inr root =>
      (* Find Call element *)
      match find_child "Call" root with
      | Some call_elem => PDict [("Call", PDict (call_data_of call_elem))]
      | None => PDict [("raw_xml", PStr xml_data); ("parsed", PBool true)]
      end
  | inl msg => PDict [("raw_xml", PStr xml_data); ("parse_error", PStr msg)]
  end.

(** What [_make_exotel_request] does with the text of a 2xx reply on which
    [json.loads] returns or raises [JSONDecodeError]. *)
Definition decode_response (response_data : string) : pyval :=
  match json_loads response_data with
  | inr v => v
  | inl _ =>
      if startswith (strip response_data) "<?xml"
      then _parse_xml_response response_data
      else PDict [("raw_response", PStr response_data);
                  ("status", PStr "success")]
  end.

(** The [urllib.request.Request] that [_make_exotel_request] builds. *)
Definition request_for (self : config) (endpoint : string)
           (data : list (string * pyval)) : request :=
  let base_url := "https://" ++ Py.fmt_opt (domain self) in
  let url := base_url ++ "/v1/Accounts/" ++ Py.fmt_opt (account_sid self)
             ++ "/" ++ endpoint in
  let credentials :=
    Py.fmt_opt (api_key self) ++ ":" ++ Py.fmt_opt (auth_token self) in
  let encoded_credentials := b64encode credentials in
  let encoded_data := urlencode (form_data_of data) in
  {| req_method := "POST"; req_url := url;
     req_headers :=
       [("Content-Type", "application/x-www-form-urlencoded");
        ("Authorization", "Basic " ++ encoded_credentials)];
     req_data := Some encoded_data |}.

(** [response.read().decode('utf-8')]: a [UnicodeDecodeError] is a
    [ValueError]. *)
Definition read_text (response_bytes : string) : outcome string :=
  match utf8_decode response_bytes with
  | inr text => Ret text
  | inl msg => Raise (ExValueError msg)
  end.

(** What escapes the [except json.JSONDecodeError] around [json.loads]; a
    [RecursionError] is here the [Exception] that it is. *)
Definition exn_of_loads_error (e : loads_error) : pyexn :=
  match e with
  | RecursionError msg => ExException msg
  | ValueError msg => ExValueError msg
  end.

Definition _make_exotel_request (self : config) (endpoint : string)
           (data : list (string * pyval)) : M pyval :=
  let req := request_for self endpoint data in
  try_with (response_bytes <- send req ;;
            response_data <- lift (read_text response_bytes) ;;
            (* Try to parse as JSON first, then XML, fallback to text *)
            match json_loads_other response_data with
            | Some e => raise (exn_of_loads_error e)
            | None => ret (decode_response response_data)
            end)
           (on_HTTPError (fun code _ error_response =>
              raise (ExException (api_error code error_response)))).

End WithPlatform.
End ExotelOutboundCaller.

(* ================================================================== *)
(** ** exotel-vsip-api/python/_client.py *)

Module Client.
Import PyString.

Definition missing_base : string :=
  "Error: Missing required environment variables (EXO_SUBSCRIBIX_DOMAIN, EXO_ACCOUNT_SID)".

Definition missing_auth : string :=
  "Error: Missing required environment variables (EXO_AUTH_KEY, EXO_AUTH_TOKEN)".

Section WithPlatform.
Context {P : Platform}.

Definition get_base_url (environ : string -> option string) : M string :=
  let domain := environ "EXO_SUBSCRIBIX_DOMAIN" in
  let account_sid := environ "EXO_ACCOUNT_SID" in
  if negb (Py.truthy_opt domain) || negb (Py.truthy_opt account_sid) then
    print missing_base ;;;
    sys_exit 1
  else
    let base_url := "https://" ++ Py.fmt_opt domain ++ "/v1/Accounts/"
                    ++ Py.fmt_opt account_sid in
    print ("DEBUG: Base URL: " ++ base_url) ;;;
    ret base_url.

Definition get_auth_header (environ : string -> option string) : M string :=
  let auth_key := environ "EXO_AUTH_KEY" in
  let auth_token := environ "EXO_AUTH_TOKEN" in
  if negb (Py.truthy_opt auth_key) || negb (Py.truthy_opt auth_token) then
    print missing_auth ;;;
    sys_exit 1
  else
    let credentials := Py.fmt_opt auth_key ++ ":" ++ Py.fmt_opt auth_token in
    let encoded_credentials := b64encode credentials in
    ret ("Basic " ++ encoded_credentials).

(** The [urllib.request.Request] that [post] builds. *)
Definition request_for (BASE path data auth_header : string) : request :=
  {| req_method := "POST"; req_url := BASE ++ path;
     req_headers := [("Content-Type", "application/json");
                     ("Authorization", auth_header)];
     req_data := Some data |}.

(** [post], with the module variable [BASE] as an argument *)
Definition post (BASE : string) (environ : string -> option string)
           (path : string) (payload : pyval) : M pyval :=
  try_with
    (let data := json_dumps None payload in
     auth_header <- get_auth_header environ ;;
     let req := request_for BASE path data auth_header in
     print ("DEBUG: Making request to: " ++ BASE ++ path) ;;;
     print ("DEBUG: Payload: " ++ json_dumps (Some 2) payload) ;;;
     body <- send req ;;
     print ("Response: " ++ body) ;;;
     loads body)
    (or_handler
       (on_HTTPError (fun code reason body =>
          print ("HTTP Error " ++ of_Z code ++ ": " ++ reason) ;;;
          print body ;;;
          sys_exit 1))
       (on_Exception (fun e =>
          print ("Error: " ++ Py.exn_str e) ;;;
          sys_exit 1))).

(** A program that imports the module, which sets [BASE = get_base_url()],
    and then calls [post] once. *)
Definition import_and_post (environ : string -> option string)
           (path : string) (payload : pyval) : M pyval :=
  BASE <- get_base_url environ ;;
  post BASE environ path payload.

End WithPlatform.
End Client.

(* ================================================================== *)
(** ** The specification's wording and its well-formed inputs *)

Module Spec.
Import PyString.

Definition at_sign : ascii := ascii_of_nat 64.
Definition dot : ascii := ascii_of_nat 46.

Definition at_to_dot (c : ascii) : ascii :=
  if Ascii.eqb c at_sign then dot else c.

(** The normalizer in the specification's words: "replaces the first/only
    [@] with [.]". *)
Fixpoint replace_first_at (s : string) : string :=
  match s with
  | EmptyString => EmptyString
  | String c s' =>
      if Ascii.eqb c at_sign then String dot s'
      else String c (replace_first_at s')
  end.

(** Every character replaced by its image, in place. *)
Fixpoint map_chars (f : ascii -> ascii) (s : string) : string :=
  match s with
  | EmptyString => EmptyString
  | String c s' => String (f c) (map_chars f s')
  end.

Fixpoint count_at (s : string) : nat :=
  match s with
  | EmptyString => 0
  | String c s' => (if Ascii.eqb c at_sign then 1 else 0) + count_at s'
  end.

(** An environment value that is present and not blank. *)
Definition provided (environ : string -> option string) (name : string) : bool :=
  Py.truthy_opt (environ name).

(** A trunk of the provider's trunk list. *)
Record trunk : Type := {
  trunk_status : string;
  trunk_sid : string;
  trunk_name : option string
}.

(** The data of a trunk in the list reply. *)
Definition trunk_data (t : trunk) : pyval :=
  PDict ([("trunk_sid", PStr (trunk_sid t));
          ("status", PStr (trunk_status t))]
         ++ match trunk_name t with
            | Some n => [("trunk_name", PStr n)]
            | None => []
            end)%list.

(** The entry of the list reply for a trunk, as the script reads it. *)
Definition trunk_entry (t : trunk) : pyval :=
  PDict [("status", PStr "success"); ("data", trunk_data t)].

(** The decoded reply to [GET /trunks]. *)
Definition trunk_list_response (ts : list trunk) : pyval :=
  PDict [("response", PList (map trunk_entry ts))].

(** [status == "active"], as the specification writes it *)
Definition status_is_active (t : trunk) : bool :=
  String.eqb (trunk_status t) "active".

(** [status.lower() == 'active'], as the script tests it *)
Definition is_active (t : trunk) : bool :=
  String.eqb (lower (trunk_status t)) "active".

(** How the scan of [get_active_trunk] takes an entry of the listing: it
    passes over the entry, returns the identifier of its trunk, or fails
    on it. *)
Inductive entry_kind : Type :=
| Passed
| Active (identifier : pyval)
| Malformed.

Definition value_of (k : string) (d : list (string * pyval)) : pyval :=
  match Py.lookup k d with Some v => v | None => PNone end.

(** An entry counts when it is a dictionary whose [status] is [success]
    and whose [data] is not empty; its trunk is active when the [status]
    of the data, lower-cased, is [active].  An entry that is no dictionary,
    data that are none, and a status of the data that is no text are
    malformed. *)
Definition kind_of (entry : pyval) : entry_kind :=
  match entry with
  | PDict e =>
      if Py.eq_str (value_of "status" e) "success"
         && Py.truthy (value_of "data" e)
      then match value_of "data" e with
           | PDict t =>
               match Py.lookup "status" t with
               | None => Passed
               | Some (PStr s) =>
                   if String.eqb (lower s) "active"
                   then Active (value_of "trunk_sid" t)
                   else Passed
               | Some _ => Malformed
               end
           | _ => Malformed
           end
      else Passed
  | _ => Malformed
  end.

(** The first entry that the scan does not pass over. *)
Fixpoint decisive (entries : list pyval) : entry_kind :=
  match entries with
  | [] => Passed
  | entry :: rest =>
      match kind_of entry with
      | Passed => decisive rest
      | kind => kind
      end
  end.

(** The trunk that a listing resolves to: the identifier of the first
    active trunk, unless a malformed entry comes before it. *)
Definition resolution (entries : list pyval) : pyval :=
  match decisive entries with
  | Active identifier => identifier
  | _ => PNone
  end.

(** The entries of a decoded listing reply: those under [response] when
    the reply is a dictionary and that entry a list; none otherwise. *)
Definition listing_of (reply : pyval) : list pyval :=
  match reply with
  | PDict d => match Py.lookup "response" d with
               | Some (PList entries) => entries
               | _ => []
               end
  | _ => []
  end.

(** The last of the elements [kids] that has the tag [tag]. *)
Fixpoint last_tagged (tag : string) (kids : list element) : option element :=
  match kids with
  | [] => None
  | c :: rest =>
      match last_tagged tag rest with
      | Some x => Some x
      | None => if String.eqb (ExotelOutboundCaller.tag_of c) tag
                then Some c else None
      end
  end.

(** The third stage of decoding in the specification's words: "the raw
    text tagged as an opaque success payload". *)
Definition opaque_success (text : string) : pyval :=
  PDict [("raw_response", PStr text); ("status", PStr "success")].

End Spec.

(* ================================================================== *)
(** ** A test double of the platform *)

Module Demo.
Import PyString.

Definition q : string := String dquote EmptyString.

(** Compact JSON text of a value; [indent] is ignored. *)
Fixpoint dumps (v : pyval) : string :=
  match v with
  | PNone => "null"
  | PBool true => "true"
  | PBool false => "false"
  | PInt z => of_Z z
  | PFloat r => r
  | PStr s => q ++ s ++ q
  | PList l => "[" ++ join ", " (map dumps l) ++ "]"
  | PDict d =>
      "{" ++ join ", "
               (map (fun kv => match kv with
                               | (k, x) => q ++ k ++ q ++ ": " ++ dumps x
                               end) d) ++ "}"
  end.

(** A decoder that knows the texts of the values in [known]. *)
Definition loads (known : list pyval) (text : string) : string + pyval :=
  match List.find (fun v => String.eqb (dumps v) text) known with
  | Some v => inr v
  | None => inl "Expecting value: line 1 column 1 (char 0)"
  end.

(** An XML parser that knows the documents in [known]. *)
Definition fromstring (known : list (string * element)) (text : string)
  : string + element :=
  match List.find (fun kv => String.eqb (fst kv) text) known with
  | Some kv => inr (snd kv)
  | None => inl "syntax error: line 1, column 0"
  end.

Definition platform (known : list pyval) (xml : list (string * element))
           (server : list request -> request -> http_reply) : Platform := {|
  json_loads := loads known;
  json_dumps := fun _ v => dumps v;
  b64encode := fun s => "base64(" ++ s ++ ")";
  urlencode := fun form =>
                 join "&" (map (fun kv => fst kv ++ "=" ++ snd kv) form);
  ET_fromstring := fromstring xml;
  urlopen := server;
  utf8_decode := inr;
  json_loads_other := fun _ => None
|}.

(** [s.endswith(suffix)] *)
Fixpoint endswith (s suffix : string) : bool :=
  if String.eqb s suffix then true
  else match s with
       | EmptyString => false
       | String _ s' => endswith s' suffix
       end.

Definition integrator : VapiExotelIntegrator.config := {|
  VapiExotelIntegrator.auth_key := Some "key";
  VapiExotelIntegrator.auth_token := Some "token";
  VapiExotelIntegrator.domain := "api.in.exotel.com";
  VapiExotelIntegrator.account_sid := Some "acme";
  VapiExotelIntegrator.default_trunk := "trmum1"
|}.

Definition environ (name : string) : option string :=
  if String.eqb name "EXO_AUTH_KEY" then Some "key"
  else if String.eqb name "EXO_AUTH_TOKEN" then Some "token"
  else if String.eqb name "EXO_ACCOUNT_SID" then Some "acme"
  else if String.eqb name "EXO_SUBSCRIBIX_DOMAIN" then Some "api.in.exotel.com"
  else None.

(** The environment without one variable. *)
Definition without (name : string) (env : string -> option string)
  : string -> option string :=
  fun n => if String.eqb n name then None else env n.

(** Replies of the telephony provider. *)
Definition destination_added : pyval :=
  PDict [("response",
          PList [PDict [("status", PStr "success");
                        ("data", PDict [("id", PStr "d42");
                                        ("destination",
                                         PStr "mybot.sip.vapi.ai:5060;transport=tcp")])]])].

Definition phone_mapped : pyval :=
  PDict [("response", PDict [("status", PStr "success")])].

Definition duplicate_resource : pyval :=
  PDict [("response",
          PDict [("status", PStr "failure");
                 ("error_data",
                  PDict [("code", PInt 1008);
                         ("description", PStr "Duplicate resource");
                         ("message", PStr "Conflict")])])].

(** A provider on which attach and mapping both succeed. *)
Definition happy_server (_ : list request) (r : request) : http_reply :=
  if endswith (req_url r) "/destination-uris" then Reply2xx (dumps destination_added)
  else Reply2xx (dumps phone_mapped).

Definition happy : Platform :=
  platform [destination_added; phone_mapped] [] happy_server.

(** A provider that is down. *)
Definition broken_server (_ : list request) (_ : request) : http_reply :=
  ReplyError 500 "Internal Server Error" "boom".

Definition broken : Platform := platform [] [] broken_server.

(** The production integrator after [load_configuration]. *)
Definition production : VapiExotelProductionIntegrator.config := {|
  VapiExotelProductionIntegrator.exotel := {|
    VapiExotelProductionIntegrator.auth_key := Some "key";
    VapiExotelProductionIntegrator.auth_token := Some "token";
    VapiExotelProductionIntegrator.domain := "api.in.exotel.com";
    VapiExotelProductionIntegrator.account_sid := Some "acme";
    VapiExotelProductionIntegrator.base_url :=
      VapiExotelProductionIntegrator.loaded_base_url "api.in.exotel.com" (Some "acme")
  |};
  VapiExotelProductionIntegrator.integration := {|
    VapiExotelProductionIntegrator.phone_number := Some "+1234567890";
    VapiExotelProductionIntegrator.vapi_fqdn := Some "mybot@sip.vapi.ai"
  |}
|}.

(** Trunk lists. *)
Definition one_active : list Spec.trunk :=
  [{| Spec.trunk_status := "inactive"; Spec.trunk_sid := "trsgp9";
      Spec.trunk_name := Some "spare" |};
   {| Spec.trunk_status := "active"; Spec.trunk_sid := "trmum1";
      Spec.trunk_name := Some "main" |}].

Definition none_active : list Spec.trunk :=
  [{| Spec.trunk_status := "inactive"; Spec.trunk_sid := "trsgp9";
      Spec.trunk_name := None |}].

Definition upper_case_first : list Spec.trunk :=
  [{| Spec.trunk_status := "ACTIVE"; Spec.trunk_sid := "trsgp9";
      Spec.trunk_name := Some "spare" |};
   {| Spec.trunk_status := "active"; Spec.trunk_sid := "trmum1";
      Spec.trunk_name := Some "main" |}].

(** A provider that lists [ts] and accepts attach and mapping. *)
Definition listing_server (ts : list Spec.trunk) (_ : list request) (r : request)
  : http_reply :=
  if endswith (req_url r) "/trunks" then Reply2xx (dumps (Spec.trunk_list_response ts))
  else if endswith (req_url r) "/destination-uris"
       then Reply2xx (dumps destination_added)
       else Reply2xx (dumps phone_mapped).

Definition listing (ts : list Spec.trunk) : Platform :=
  platform [Spec.trunk_list_response ts; destination_added; phone_mapped] []
           (listing_server ts).

(** A provider that lists [one_active] and on which the destination and
    the number exist already: it answers both POSTs 409 Conflict. *)
Definition conflict_server (_ : list request) (r : request) : http_reply :=
  if endswith (req_url r) "/trunks"
  then Reply2xx (dumps (Spec.trunk_list_response one_active))
  else ReplyError 409 "Conflict" (dumps duplicate_resource).

Definition conflict : Platform :=
  platform [Spec.trunk_list_response one_active; duplicate_resource] []
           conflict_server.

(** The outbound caller, and the replies of the call API. *)
Definition caller : ExotelOutboundCaller.config := {|
  ExotelOutboundCaller.api_key := Some "key";
  ExotelOutboundCaller.auth_token := Some "token";
  ExotelOutboundCaller.account_sid := Some "acme";
  ExotelOutboundCaller.domain := Some "api.in.exotel.com";
  ExotelOutboundCaller.caller_id := Some "01234567890"
|}.

Definition call_xml : string :=
  "<?xml version='1.0' encoding='UTF-8'?><TwilioResponse><Call><Sid>c1</Sid><Status>in-progress</Status><Sid>c2</Sid><Uri/></Call></TwilioResponse>".

Definition call_tree : element :=
  Element "TwilioResponse" None
    [Element "Call" None
       [Element "Sid" (Some "c1") [];
        Element "Status" (Some "in-progress") [];
        Element "Sid" (Some "c2") [];
        Element "Uri" None []]].

Definition no_call_xml : string :=
  "<?xml version='1.0'?><TwilioResponse><RestException/></TwilioResponse>".

Definition no_call_tree : element :=
  Element "TwilioResponse" None [Element "RestException" None []].

Definition truncated_xml : string := "<?xml version='1.0'?><TwilioResponse><Call>".

(** A document without the XML declaration. *)
Definition bare_xml : string :=
  "<TwilioResponse><Call><Sid>c1</Sid></Call></TwilioResponse>".

Definition bare_tree : element :=
  Element "TwilioResponse" None [Element "Call" None [Element "Sid" (Some "c1") []]].

(** A call API that answers every request 200 with [text]. *)
Definition replying (text : string) : Platform :=
  platform [PDict [("Call", PDict [("Sid", PStr "c1")])]]
           [(call_xml, call_tree); (no_call_xml, no_call_tree);
            (bare_xml, bare_tree)]
           (fun _ _ => Reply2xx text).

End Demo.

(* ================================================================== *)
(** ** The rest of the scripts

    What follows embeds the functions of the source files that the
    definitions above leave out.  Two more library facilities occur: the
    [requests] library, with which the production script talks to the voice
    assistant provider, and the wall clock; [argparse] prints the help text.
    They are the fields of the class [Runtime]. *)

(** A [requests.Response]: [status_code] and [text]. *)
Record response : Type := {
  status_code : Z;
  text : string
}.

(** [requests_send] gives [inl msg] where [requests] raises an exception
    with message [msg] (no connection); it sees the requests sent before.
    [strftime_now] is [datetime.now().strftime("%m%d%H%M")], read in a world.
    [help_text] is what [parser.print_help()] prints.  [int_of] is [int(s)]
    of a [str], with [inl msg] where it raises [ValueError] with message
    [msg]. *)
Class Runtime : Type := {
  requests_send : list request -> request -> string + response;
  strftime_now : world -> string;
  help_text : string;
  int_of : string -> string + Z
}.

(** More Python primitives. *)
Module PyMore.
Import PyString.

Definition upper_ascii (c : ascii) : ascii :=
  let n := nat_of_ascii c in
  if ((97 <=? n) && (n <=? 122))%nat then ascii_of_nat (n - 32) else c.

(** [s.upper()], on the method names the scripts pass *)
Fixpoint upper (s : string) : string :=
  match s with
  | EmptyString => EmptyString
  | String c s' => String (upper_ascii c) (upper s')
  end.

(** [s.lstrip(c)] for a one-character [c] *)
Fixpoint lstrip_char (c : ascii) (s : string) : string :=
  match s with
  | EmptyString => EmptyString
  | String x s' => if Ascii.eqb x c then lstrip_char c s' else s
  end.

(** [a or b] where both are a [str] or [None] *)
Definition or_opt (a b : option string) : option string :=
  if Py.truthy_opt a then a else b.

(** [v == o] where [o] is a [str] or [None] *)
Definition eq_opt (v : pyval) (o : option string) : bool :=
  match o with
  | Some s => Py.eq_str v s
  | None => match v with PNone => true | _ => false end
  end.

End PyMore.

(** An outcome that [except Exception] catches when it is an exception. *)
Definition catchable {A} (o : outcome A) : Prop :=
  forall e, o = Raise e -> Py.is_Exception e = true.

(** A computation that raises nothing but what [except Exception] catches. *)
Definition raises_only_exceptions {A} (m : M A) : Prop :=
  forall w e w', m w = (Raise e, w') -> Py.is_Exception e = true.

(** A step result as its readers take it: [success] is a [bool], and an
    [error] comes with [False]. *)
Definition step_result (r : pyval) : Prop :=
  Py.item r "success" = Ret (PBool true)
  \/ (Py.item r "success" = Ret (PBool false)
      /\ exists e, Py.item r "error" = Ret e).

(* ================================================================== *)
(** ** examples/example_usage.py *)

Module ExampleUsage.

Section WithPlatform.
Context {P : Platform}.

Definition main (environ : string -> option string) : M unit :=
  print "🎯 VAPI-EXOTEL INTEGRATION EXAMPLE" ;;;
  print (times "=" 50) ;;;
  (* Example configuration *)
  let vapi_fqdn := "mybot@sip.vapi.ai" in
  let phone_number := "+1234567890" in
  print "Setting up integration for:" ;;;
  print ("  FQDN: " ++ vapi_fqdn) ;;;
  print ("  Phone: " ++ phone_number) ;;;
  print "" ;;;
  try_with
    (let integrator := VapiExotelIntegrator.init None environ in
     result <- VapiExotelIntegrator.configure_vapi_integration
                 integrator vapi_fqdn phone_number None ;;
     ok <- lift (Py.item result "success") ;;
     if Py.truthy ok then
       print "✅ SUCCESS!" ;;;
       converted <- lift (Py.item result "converted_fqdn") ;;
       print ("   Converted FQDN: " ++ Py.str converted) ;;;
       trunk_sid <- lift (Py.item result "trunk_sid") ;;
       print ("   Trunk: " ++ Py.str trunk_sid) ;;;
       print "" ;;;
       print "🧪 Test your integration:" ;;;
       print ("   1. Call " ++ phone_number) ;;;
       print "   2. Expect Vapi assistant to answer" ;;;
       print "   3. Check call logs for NORMAL_CLEARING status"
     else
       print "❌ FAILED!" ;;;
       error <- lift (Py.get result "error") ;;
       print ("   Error: " ++ Py.str error))
    (on_Exception (fun e => print ("❌ ERROR: " ++ Py.exn_str e))).

End WithPlatform.
End ExampleUsage.

(* ================================================================== *)
(** ** production_integration_script.py: the rest of the class and [main]

    The integrator holds the entries of [self.config] that the methods
    read. *)

Module ProductionScript.
Import PyString VapiExotelProductionIntegrator.

Record integrator : Type := {
  settings : config;                 (* the entries read above *)
  private_key : option string;       (* config['vapi']['private_key'] *)
  assistant_id : option string;      (* config['vapi']['assistant_id'] *)
  exotel_gateway_ip : string;
  exotel_gateway_port : Z
}.

Definition vapi_base_url : string := "https://api.vapi.ai".

(** [if not value: missing.append(name)] *)
Definition note_missing (value : option string) (name : string)
           (missing : list string) : list string :=
  if negb (Py.truthy_opt value) then (missing ++ [name])%list else missing.

(** The list [missing] of [validate_configuration]. *)
Definition missing_variables (self : integrator) : list string :=
  let missing := [] in
  let missing := note_missing (auth_key (exotel (settings self))) "EXO_AUTH_KEY" missing in
  let missing := note_missing (auth_token (exotel (settings self))) "EXO_AUTH_TOKEN" missing in
  let missing := note_missing (account_sid (exotel (settings self))) "EXO_ACCOUNT_SID" missing in
  let missing := note_missing (private_key self) "VAPI_PRIVATE_KEY" missing in
  let missing := note_missing (assistant_id self) "VAPI_ASSISTANT_ID" missing in
  let missing := note_missing (phone_number (integration (settings self))) "PHONE_NUMBER" missing in
  let missing := note_missing (vapi_fqdn (integration (settings self))) "VAPI_FQDN" missing in
  missing.

Definition validate_configuration (self : integrator) : M bool :=
  let missing := missing_variables self in
  match missing with
  | _ :: _ =>
      print ("❌ Missing required environment variables: " ++ join ", " missing) ;;;
      ret false
  | [] => ret true
  end.

Definition success_only : pyval := PDict [("success", PBool true)].

Section WithPlatform.
Context {P : Platform} {R : Runtime}.

(** [requests.post], [requests.patch] and [requests.get] *)
Definition requests_call (verb url : string) (headers : list (string * string))
           (json : option pyval) : M response :=
  fun w =>
    let req := {| req_method := verb; req_url := url; req_headers := headers;
                  req_data := option_map (json_dumps None) json |} in
    match requests_send (sent w) req with
    | inr r => (Ret r, after_send w req)
    | inl msg => (Raise (ExException msg), after_send w req)
    end.

Definition make_vapi_request (self : integrator) (method endpoint : string)
           (payload : option pyval) : M response :=
  let url := vapi_base_url ++ endpoint in
  let headers := [("Content-Type", "application/json");
                  ("Authorization", "Bearer " ++ Py.fmt_opt (private_key self))] in
  if String.eqb (PyMore.upper method) "POST" then
    requests_call "POST" url headers payload
  else if String.eqb (PyMore.upper method) "PATCH" then
    requests_call "PATCH" url headers payload
  else if String.eqb (PyMore.upper method) "GET" then
    requests_call "GET" url headers None
  else raise (ExValueError ("Unsupported HTTP method: " ++ method)).

(** [response.json()] *)
Definition response_json (r : response) : M pyval := loads (text r).

Definition setup_byo_trunk (self : integrator) : M pyval :=
  print (nl ++ "🔄 SETTING UP BYO TRUNK INTEGRATION") ;;;
  print (times "=" 50) ;;;
  let phone_number := phone_number (integration (settings self)) in
  let assistant_id := assistant_id self in
  let gateway_ip := exotel_gateway_ip self in
  let gateway_port := exotel_gateway_port self in
  print "📋 Configuration:" ;;;
  print ("   Gateway: " ++ gateway_ip ++ ":" ++ of_Z gateway_port) ;;;
  print ("   Phone: " ++ Py.fmt_opt phone_number) ;;;
  print ("   Assistant: " ++ Py.fmt_opt assistant_id) ;;;
  print "" ;;;
  (* Create BYO credential *)
  print "🔄 Creating Vapi BYO credential..." ;;;
  stamp <- (fun w => (Ret (strftime_now w), w)) ;;
  let credential_payload :=
    PDict [("provider", PStr "byo-sip-trunk");
           ("name", PStr ("Exotel Gateway " ++ stamp));
           ("gateways",
            PList [PDict [("ip", PStr gateway_ip);
                          ("port", PInt gateway_port);
                          ("inboundEnabled", PBool true);
                          ("outboundEnabled", PBool true)]]);
           ("outboundLeadingPlusEnabled", PBool true)] in
  try_with
    (response <- make_vapi_request self "POST" "/credential"
                   (Some credential_payload) ;;
     if (status_code response =? 201)%Z then
       credential <- response_json response ;;
       credential_id <- lift (Py.get credential "id") ;;
       print ("✅ BYO credential created: " ++ Py.str credential_id) ;;;
       (* Create phone number resource *)
       print "🔄 Creating phone number resource..." ;;;
       stamp <- (fun w => (Ret (strftime_now w), w)) ;;
       let phone_payload :=
         PDict [("provider", PStr "byo-phone-number");
                ("name", PStr ("Exotel Number " ++ stamp));
                ("number", Py.of_opt phone_number);
                ("numberE164CheckEnabled", PBool false);
                ("credentialId", credential_id);
                ("assistantId", Py.of_opt assistant_id)] in
       phone_response <- make_vapi_request self "POST" "/phone-number"
                           (Some phone_payload) ;;
       if (status_code phone_response =? 201)%Z then
         phone_number_data <- response_json phone_response ;;
         phone_number_id <- lift (Py.get phone_number_data "id") ;;
         print ("✅ Phone number resource created: " ++ Py.str phone_number_id) ;;;
         ret (PDict [("success", PBool true);
                     ("credential_id", credential_id);
                     ("phone_number_id", phone_number_id);
                     ("gateway", PStr (gateway_ip ++ ":" ++ of_Z gateway_port));
                     ("phone_number", Py.of_opt phone_number)])
       else
         print ("❌ Failed to create phone number: "
                ++ of_Z (status_code phone_response)) ;;;
         print ("   Error: " ++ text phone_response) ;;;
         ret (failure "Failed to create phone number")
     else
       print ("❌ Failed to create credential: " ++ of_Z (status_code response)) ;;;
       print ("   Error: " ++ text response) ;;;
       ret (failure "Failed to create credential"))
    (on_Exception (fun e =>
       print ("❌ Error setting up BYO trunk: " ++ Py.exn_str e) ;;;
       ret (failure (Py.exn_str e)))).

(** The loop of [test_integration] that looks for our phone number: the
    resource at which it breaks, if any. *)
Fixpoint find_phone_resource (phone_number : option string) (items : list pyval)
  : outcome (option pyval) :=
  match items with
  | [] => Ret None
  | phone_resource :: rest =>
      let? number := Py.get phone_resource "number" in
      if PyMore.eq_opt number phone_number then Ret (Some phone_resource)
      else find_phone_resource phone_number rest
  end.

(** The body of the [try] of [test_integration]. *)
Definition test_outbound_call (self : integrator) : M unit :=
  let phone_number := phone_number (integration (settings self)) in
  (* Try to find existing phone number resource *)
  phone_list_response <- make_vapi_request self "GET" "/phone-number" None ;;
  if (status_code phone_list_response =? 200)%Z then
    phone_numbers <- response_json phone_list_response ;;
    (* Find our phone number *)
    our_phone_resource <- lift (let? items := Py.iter phone_numbers in
                                find_phone_resource phone_number items) ;;
    match our_phone_resource with
    | Some resource =>
        if Py.truthy resource then
          phone_number_id <- lift (Py.get resource "id") ;;
          (* Create test outbound call *)
          let call_payload :=
            PDict [("assistantId", Py.of_opt (assistant_id self));
                   ("customer",
                    PDict [("number", PStr "+1234567890");
                           ("numberE164CheckEnabled", PBool false)]);
                   ("phoneNumberId", phone_number_id)] in
          call_response <- make_vapi_request self "POST" "/call/phone"
                             (Some call_payload) ;;
          if (status_code call_response =? 201)%Z then
            call_data <- response_json call_response ;;
            call_id <- lift (Py.get call_data "id") ;;
            print ("✅ Test outbound call created: " ++ Py.str call_id) ;;;
            status <- lift (Py.get call_data "status") ;;
            print ("   Status: " ++ Py.str status)
          else
            print ("⚠️  Outbound call test failed: "
                   ++ of_Z (status_code call_response))
        else print "⚠️  No phone number resource found for outbound testing"
    | None => print "⚠️  No phone number resource found for outbound testing"
    end
  else print "⚠️  Could not retrieve phone number resources".

Definition test_integration (self : integrator) : M pyval :=
  print (nl ++ "🧪 TESTING INTEGRATION") ;;;
  print (times "=" 50) ;;;
  let phone_number := phone_number (integration (settings self)) in
  print "📞 Test Call Instructions:" ;;;
  print ("   1. Call " ++ Py.fmt_opt phone_number ++ " from any phone") ;;;
  print "   2. Expected: Vapi assistant should answer within 2-3 seconds" ;;;
  print "   3. Have a conversation (aim for 33+ seconds)" ;;;
  print "   4. Check call logs for NORMAL_CLEARING status" ;;;
  print "" ;;;
  (* Test outbound call creation (if BYO is set up) *)
  print "🔄 Testing outbound call creation..." ;;;
  try_with (test_outbound_call self)
           (on_Exception (fun e =>
              print ("⚠️  Error testing outbound calls: " ++ Py.exn_str e))) ;;;
  ret success_only.

Definition run_complete_setup (self : integrator) : M pyval :=
  print "🚀 VAPI-EXOTEL PRODUCTION INTEGRATION" ;;;
  print (times "=" 60) ;;;
  print "" ;;;
  (* Validate configuration *)
  valid <- validate_configuration self ;;
  if negb valid then ret (failure "Configuration validation failed")
  else
    print "✅ Configuration validated" ;;;
    print ("   Account: " ++ Py.fmt_opt (account_sid (exotel (settings self)))) ;;;
    print ("   Phone: " ++ Py.fmt_opt (phone_number (integration (settings self)))) ;;;
    print ("   FQDN: " ++ Py.fmt_opt (vapi_fqdn (integration (settings self)))) ;;;
    print ("   Assistant: " ++ Py.fmt_opt (assistant_id self)) ;;;
    let results := [] in
    (* Setup FQDN integration *)
    fqdn_result <- setup_fqdn_integration (settings self) ;;
    let results := Py.set_item "fqdn" fqdn_result results in
    fqdn_ok <- lift (Py.item fqdn_result "success") ;;
    if negb (Py.truthy fqdn_ok) then
      print (nl ++ "❌ FQDN setup failed, aborting") ;;;
      ret (PDict results)
    else
      (* Setup BYO trunk *)
      byo_result <- setup_byo_trunk self ;;
      let results := Py.set_item "byo" byo_result results in
      (* Test integration *)
      test_result <- test_integration self ;;
      let results := Py.set_item "test" test_result results in
      (* Summary *)
      print (nl ++ "🎯 INTEGRATION SETUP COMPLETE!") ;;;
      print (times "=" 60) ;;;
      fqdn_ok <- lift (Py.item fqdn_result "success") ;;
      (if Py.truthy fqdn_ok then
         print "✅ FQDN Integration: SUCCESS" ;;;
         trunk <- lift (Py.get fqdn_result "trunk_sid") ;;
         print ("   Trunk: " ++ Py.str trunk) ;;;
         destination <- lift (Py.get fqdn_result "sip_destination") ;;
         print ("   Destination: " ++ Py.str destination)
       else ret tt) ;;;
      byo_ok <- lift (Py.item byo_result "success") ;;
      (if Py.truthy byo_ok then
         print "✅ BYO Trunk Integration: SUCCESS" ;;;
         credential <- lift (Py.get byo_result "credential_id") ;;
         print ("   Credential: " ++ Py.str credential) ;;;
         number <- lift (Py.get byo_result "phone_number_id") ;;
         print ("   Phone Number: " ++ Py.str number)
       else ret tt) ;;;
      print "" ;;;
      print "🧪 READY FOR TESTING:" ;;;
      print ("   Call " ++ Py.fmt_opt (phone_number (integration (settings self)))
             ++ " right now!") ;;;
      print "   Expected: 33+ second calls with NORMAL_CLEARING" ;;;
      let results := Py.set_item "success" (PBool true) results in
      ret (PDict results).

(** The parsed command line. *)
Record arguments : Type := {
  setup_all : bool;
  setup_fqdn_only : bool;
  test_calls : bool;
  validate_config : bool
}.

Definition usage : list string :=
  ["🎯 Production Vapi-Exotel Integration Script";
   times "=" 60;
   "";
   "Required environment variables:";
   "  EXO_AUTH_KEY=your_exotel_api_key";
   "  EXO_AUTH_TOKEN=your_exotel_api_token";
   "  EXO_ACCOUNT_SID=your_exotel_account_sid";
   "  VAPI_PRIVATE_KEY=your_vapi_private_key";
   "  VAPI_ASSISTANT_ID=your_assistant_id";
   "  PHONE_NUMBER=+918XXXXXXXXX";
   "  VAPI_FQDN=yourbot@sip.vapi.ai";
   "";
   "Usage:";
   "  python production_integration_script.py --setup-all";
   "  python production_integration_script.py --setup-fqdn-only";
   "  python production_integration_script.py --test-calls";
   "  python production_integration_script.py --validate-config"].

(** [print] of each line in turn *)
Fixpoint print_lines (lines : list string) : M unit :=
  match lines with
  | [] => ret tt
  | line :: rest => print line ;;; print_lines rest
  end.

(** [load_configuration], run by the constructor: the configuration read
    from the environment, or the [ValueError] of [int] on the gateway port.
    The [transport] entry, which no method reads and whose computation
    cannot fail, is left out. *)
Definition load_configuration (environ : string -> option string)
  : outcome integrator :=
  let environ_get := VapiExotelIntegrator.environ_get environ in
  let domain := environ_get "EXO_SUBSCRIBIX_DOMAIN" "api.in.exotel.com" in
  let account_sid := environ "EXO_ACCOUNT_SID" in
  let? port := match int_of (environ_get "EXOTEL_GATEWAY_PORT" "5070") with
               | inr z => Ret z
               | inl msg => Raise (ExValueError msg)
               end in
  Ret {| settings :=
           {| exotel := {| auth_key := environ "EXO_AUTH_KEY";
                           auth_token := environ "EXO_AUTH_TOKEN";
                           domain := domain;
                           account_sid := account_sid;
                           (* Set Exotel base URL *)
                           base_url := loaded_base_url domain account_sid |};
              integration := {| phone_number := environ "PHONE_NUMBER";
                                vapi_fqdn := environ "VAPI_FQDN" |} |};
         private_key := environ "VAPI_PRIVATE_KEY";
         assistant_id := environ "VAPI_ASSISTANT_ID";
         exotel_gateway_ip := environ_get "EXOTEL_GATEWAY_IP" "129.154.231.198";
         exotel_gateway_port := port |}.

(** The branches of [main()] on the parsed arguments, once the integrator
    is constructed. *)
Definition dispatch (args : arguments) (integrator : integrator) : M unit :=
  if validate_config args then
    valid <- validate_configuration integrator ;;
    if valid : bool then print "✅ Configuration is valid"
    else print "❌ Configuration validation failed" ;;; sys_exit 1
  else if setup_fqdn_only args then
    result <- setup_fqdn_integration (settings integrator) ;;
    ok <- lift (Py.item result "success") ;;
    if Py.truthy ok then
      print (nl ++ "🎉 FQDN Integration complete!") ;;;
      _ <- test_integration integrator ;;
      ret tt
    else
      error <- lift (Py.get result "error") ;;
      print (nl ++ "❌ FQDN setup failed: " ++ Py.str error) ;;;
      sys_exit 1
  else if test_calls args then
    _ <- test_integration integrator ;;
    ret tt
  else if setup_all args then
    result <- run_complete_setup integrator ;;
    ok <- lift (Py.item result "success") ;;
    if negb (Py.truthy ok) then
      error <- lift (Py.get result "error") ;;
      print (nl ++ "❌ Setup failed: " ++ Py.str error) ;;;
      sys_exit 1
    else ret tt
  else print_lines usage.

(** [main()] on the parsed arguments [args]: the integrator is constructed
    from the environment first. *)
Definition main (environ : string -> option string) (args : arguments)
  : M unit :=
  integrator <- lift (load_configuration environ) ;;
  dispatch args integrator.

End WithPlatform.
End ProductionScript.

(* ================================================================== *)
(** ** src/exotel_outbound_calls.py: the rest of the class, the module
    function and [main] *)

Module OutboundCalls.
Import PyString ExotelOutboundCaller.

Definition failure (error : string) : pyval :=
  PDict [("success", PBool false); ("error", PStr error)].

(** [ExotelOutboundCaller(config)]: [config or self._load_config()], then
    [self._validate_config()] *)
Definition init (cfg : option config) (environ : string -> option string)
  : outcome config :=
  let self := match cfg with Some c => c | None => _load_config environ end in
  let? _ := _validate_config self in
  Ret self.

(** [if kwargs.get(name): api_params[key] = kwargs[name]] *)
Definition pass_keyword (kwargs : list (string * pyval)) (name key : string)
           (api_params : list (string * pyval)) : list (string * pyval) :=
  match Py.lookup name kwargs with
  | Some v => if Py.truthy v then Py.set_item key v api_params else api_params
  | None => api_params
  end.

(** [if value: api_params[key] = value] for a [str] or [None] *)
Definition pass_text (value : option string) (key : string)
           (api_params : list (string * pyval)) : list (string * pyval) :=
  if Py.truthy_opt value then Py.set_item key (Py.of_opt value) api_params
  else api_params.

(** [if value: api_params[key] = value] for an [int] or [None] *)
Definition pass_number (value : option Z) (key : string)
           (api_params : list (string * pyval)) : list (string * pyval) :=
  match value with
  | Some z => if negb (z =? 0)%Z then Py.set_item key (PInt z) api_params
              else api_params
  | None => api_params
  end.

(** The parameters that [connect_two_numbers] prepares. *)
Definition connect_params (self : config) (from_number : option string)
           (to_number : string) (caller_id : option string) (record : bool)
           (time_limit timeout : option Z)
           (status_callback custom_field wait_url : option string)
           (kwargs : list (string * pyval)) : list (string * pyval) :=
  let api_params :=
    [("From", Py.of_opt from_number);
     ("To", PStr to_number);
     ("CallerId",
      Py.of_opt (PyMore.or_opt caller_id (ExotelOutboundCaller.caller_id self)))] in
  (* Optional parameters *)
  let api_params :=
    if record then
      let api_params := Py.set_item "Record" (PStr "true") api_params in
      let api_params :=
        pass_keyword kwargs "recording_channels" "RecordingChannels" api_params in
      pass_keyword kwargs "recording_format" "RecordingFormat" api_params
    else api_params in
  let api_params := pass_number time_limit "TimeLimit" api_params in
  let api_params := pass_number timeout "TimeOut" api_params in
  let api_params := pass_text wait_url "WaitUrl" api_params in
  let api_params := pass_text custom_field "CustomField" api_params in
  let api_params :=
    if Py.truthy_opt status_callback then
      let api_params :=
        Py.set_item "StatusCallback" (Py.of_opt status_callback) api_params in
      let api_params :=
        pass_keyword kwargs "callback_events" "StatusCallbackEvents" api_params in
      pass_keyword kwargs "callback_content_type" "StatusCallbackContentType"
                   api_params
    else api_params in
  (* Additional optional parameters *)
  pass_keyword kwargs "call_type" "CallType" api_params.

(** The parameters that [connect_to_flow] prepares. *)
Definition flow_params (self : config) (to_number flow_id : string)
           (caller_id : option string) (record : bool)
           (custom_field status_callback : option string)
           (kwargs : list (string * pyval)) : list (string * pyval) :=
  let api_params :=
    [("From", PStr to_number);
     ("CallerId",
      Py.of_opt (PyMore.or_opt caller_id (ExotelOutboundCaller.caller_id self)));
     ("Url", PStr ("http://my.exotel.com/" ++ Py.fmt_opt (account_sid self)
                   ++ "/exoml/start_voice/" ++ flow_id))] in
  let api_params :=
    if record then Py.set_item "Record" (PStr "true") api_params else api_params in
  let api_params := pass_text custom_field "CustomField" api_params in
  let api_params := pass_text status_callback "StatusCallback" api_params in
  let api_params := pass_keyword kwargs "timeout" "TimeOut" api_params in
  pass_keyword kwargs "time_limit" "TimeLimit" api_params.

(** [api_params[key]] in an f-string *)
Definition shown (key : string) (api_params : list (string * pyval)) : outcome string :=
  let? v := Py.item (PDict api_params) key in Ret (Py.str v).

Section WithPlatform.
Context {P : Platform}.

Definition connect_two_numbers (self : config) (from_number : option string)
           (to_number : string) (caller_id : option string) (record : bool)
           (time_limit timeout : option Z)
           (status_callback custom_field wait_url : option string)
           (kwargs : list (string * pyval)) : M pyval :=
  let api_params :=
    connect_params self from_number to_number caller_id record time_limit timeout
                   status_callback custom_field wait_url kwargs in
  via <- lift (shown "CallerId" api_params) ;;
  print ("🔄 Connecting " ++ Py.fmt_opt from_number ++ " → " ++ to_number
         ++ " via " ++ via) ;;;
  try_with
    (result <- _make_exotel_request self "Calls/connect" api_params ;;
     call <- lift (Py.get result "Call") ;;
     if Py.truthy call then
       call_data <- lift (Py.item result "Call") ;;
       call_sid <- lift (Py.get call_data "Sid") ;;
       status <- lift (Py.get call_data "Status") ;;
       print "✅ Call initiated successfully!" ;;;
       print ("   Call SID: " ++ Py.str call_sid) ;;;
       print ("   Status: " ++ Py.str status) ;;;
       from <- lift (Py.get call_data "From") ;;
       print ("   From: " ++ Py.str from) ;;;
       to <- lift (Py.get call_data "To") ;;
       print ("   To: " ++ Py.str to) ;;;
       ret (PDict [("success", PBool true);
                   ("call_sid", call_sid);
                   ("status", status);
                   ("call_data", call_data)])
     else
       print ("⚠️  Unexpected response format: " ++ Py.str result) ;;;
       ret (PDict [("success", PBool false);
                   ("error", PStr "Unexpected response format");
                   ("response", result)]))
    (on_Exception (fun e =>
       print ("❌ Call failed: " ++ Py.exn_str e) ;;;
       ret (failure (Py.exn_str e)))).

Definition connect_to_flow (self : config) (to_number flow_id : string)
           (caller_id : option string) (record : bool)
           (custom_field status_callback : option string)
           (kwargs : list (string * pyval)) : M pyval :=
  let api_params :=
    flow_params self to_number flow_id caller_id record custom_field
                status_callback kwargs in
  print ("🔄 Connecting " ++ to_number ++ " to Exotel flow " ++ flow_id) ;;;
  url <- lift (shown "Url" api_params) ;;
  print ("   Flow URL: " ++ url) ;;;
  via <- lift (shown "CallerId" api_params) ;;
  print ("   Caller ID: " ++ via) ;;;
  try_with
    (result <- _make_exotel_request self "Calls/connect" api_params ;;
     call <- lift (Py.get result "Call") ;;
     if Py.truthy call then
       call_data <- lift (Py.item result "Call") ;;
       call_sid <- lift (Py.get call_data "Sid") ;;
       status <- lift (Py.get call_data "Status") ;;
       print "✅ Flow call initiated successfully!" ;;;
       print ("   Call SID: " ++ Py.str call_sid) ;;;
       print ("   Status: " ++ Py.str status) ;;;
       from <- lift (Py.get call_data "From") ;;
       print ("   To: " ++ Py.str from) ;;;
       print ("   Flow ID: " ++ flow_id) ;;;
       ret (PDict [("success", PBool true);
                   ("call_sid", call_sid);
                   ("status", status);
                   ("flow_id", PStr flow_id);
                   ("call_data", call_data)])
     else
       print ("⚠️  Unexpected response format: " ++ Py.str result) ;;;
       ret (PDict [("success", PBool false);
                   ("error", PStr "Unexpected response format");
                   ("response", result)]))
    (on_Exception (fun e =>
       print ("❌ Flow call failed: " ++ Py.exn_str e) ;;;
       ret (failure (Py.exn_str e)))).

Definition get_call_details (self : config) (call_sid : string) : M pyval :=
  try_with
    (result <- _make_exotel_request self ("Calls/" ++ call_sid) [] ;;
     ret (PDict [("success", PBool true); ("call_details", result)]))
    (on_Exception (fun e => ret (failure (Py.exn_str e)))).

Definition bulk_call_details (self : config) (date_created : option string)
  : M pyval :=
  let params := pass_text date_created "DateCreated" [] in
  try_with
    (result <- _make_exotel_request self "Calls" params ;;
     ret (PDict [("success", PBool true); ("calls", result)]))
    (on_Exception (fun e => ret (failure (Py.exn_str e)))).

(** The [from_phone] that [create_vapi_to_phone_call] calls from. *)
Definition source_phone (caller : config) (from_phone : option string)
  : option string :=
  if negb (Py.truthy_opt from_phone) then
    let from_phone := caller_id caller in
    match from_phone with
    | Some p =>
        if negb (String.eqb p "") && negb (startswith p "+")
        then Some ("+91" ++ PyMore.lstrip_char "0" p)
        else from_phone
    | None => from_phone
    end
  else from_phone.

Definition create_vapi_to_phone_call (environ : string -> option string)
           (vapi_assistant_id target_phone : string) (from_phone : option string)
           (record : bool) (custom_field : option string) : M pyval :=
  try_with
    (caller <- lift (init None environ) ;;
     (* Use configured phone number as 'from' if not specified *)
     let from_phone := source_phone caller from_phone in
     print "🤖 Initiating Vapi assistant call:" ;;;
     print ("   Assistant: " ++ vapi_assistant_id) ;;;
     print ("   Target: " ++ target_phone) ;;;
     print ("   From: " ++ Py.fmt_opt from_phone) ;;;
     (* Create the outbound call *)
     result <- connect_two_numbers caller from_phone target_phone None record
                 (Some 300%Z) None None
                 (Some ("vapi_assistant_" ++ vapi_assistant_id ++ "_"
                        ++ Py.or_else custom_field "outbound"))
                 None
                 [("callback_events", PList [PStr "terminal"; PStr "answered"]);
                  ("callback_content_type", PStr "application/json")] ;;
     ok <- lift (Py.item result "success") ;;
     (if Py.truthy ok then
        call_sid <- lift (Py.item result "call_sid") ;;
        print ("✅ Vapi outbound call initiated: " ++ Py.str call_sid)
      else
        error <- lift (Py.get result "error") ;;
        print ("❌ Vapi outbound call failed: " ++ Py.str error)) ;;;
     ret result)
    (on_Exception (fun e =>
       print ("❌ Error creating Vapi outbound call: " ++ Py.exn_str e) ;;;
       ret (failure (Py.exn_str e)))).

(** The parsed command line. *)
Record arguments : Type := {
  connect : option (string * string);
  arg_connect_to_flow : option (string * string);
  arg_record : bool;
  arg_timeout : option Z;
  arg_time_limit : option Z;
  arg_custom_field : option string;
  vapi_call : option (string * string);
  call_details : option string;
  list_calls : bool
}.

Context {R : Runtime}.

(** [main()] after argument parsing *)
Definition main (environ : string -> option string) (args : arguments) : M unit :=
  try_with
    (caller <- lift (init None environ) ;;
     match connect args with
     | Some (from_num, to_num) =>
         result <- connect_two_numbers caller (Some from_num) to_num None
                     (arg_record args) (arg_time_limit args) (arg_timeout args)
                     None (arg_custom_field args) None [] ;;
         print ("Result: " ++ json_dumps (Some 2) result)
     | None =>
     match arg_connect_to_flow args with
     | Some (phone_num, flow_id) =>
         result <- connect_to_flow caller phone_num flow_id None
                     (arg_record args) (arg_custom_field args) None [] ;;
         print ("Result: " ++ json_dumps (Some 2) result)
     | None =>
     match vapi_call args with
     | Some (assistant_id, target_phone) =>
         result <- create_vapi_to_phone_call environ assistant_id target_phone
                     None (arg_record args) (arg_custom_field args) ;;
         print ("Result: " ++ json_dumps (Some 2) result)
     | None =>
     if Py.truthy_opt (call_details args) then
       result <- get_call_details caller (Py.fmt_opt (call_details args)) ;;
       print ("Call Details: " ++ json_dumps (Some 2) result)
     else if list_calls args then
       result <- bulk_call_details caller None ;;
       print ("Recent Calls: " ++ json_dumps (Some 2) result)
     else print help_text
     end end end)
    (on_Exception (fun e => print ("❌ Error: " ++ Py.exn_str e))).

End WithPlatform.
End OutboundCalls.

(** A computation that sends no request. *)
Definition keeps_sent {A} (m : M A) : Prop :=
  forall w, sent (snd (m w)) = sent w.

(** A computation that always returns. *)
Definition returns {A} (m : M A) : Prop :=
  forall w, exists a w', m w = (Ret a, w').

(** What a computation returns, when it returns, satisfies [Q]. *)
Definition ensures {A} (Q : A -> Prop) (m : M A) : Prop :=
  forall w a w', m w = (Ret a, w') -> Q a.

(** A computation that always returns, and what it returns satisfies [Q]. *)
Definition yields {A} (Q : A -> Prop) (m : M A) : Prop :=
  forall w, exists a w', m w = (Ret a, w') /\ Q a.

(** A computation that sends at most [n] requests and withdraws none. *)
Definition sends_at_most {A} (n : nat) (m : M A) : Prop :=
  forall w, exists l, sent (snd (m w)) = (sent w ++ l)%list /\ length l <= n.

(* ================================================================== *)
(** ** More test doubles *)

Module Fixtures.
Import PyString.

(** A decoded 2xx reply that reports a duplicate destination. *)
Definition duplicate_item : pyval :=
  PDict [("response",
          PList [PDict [("status", PStr "failure");
                        ("error_data",
                         PDict [("code", PInt 1008);
                                ("description", PStr "Duplicate resource");
                                ("message", PStr "Conflict")])]])].

(** An attach reply that reports success and carries no data. *)
Definition success_without_data : pyval :=
  PDict [("response", PList [PDict [("status", PStr "success")]])].

(** A provider that answers every request 200 with the text of [v]. *)
Definition answering (v : pyval) : Platform :=
  Demo.platform [v] [] (fun _ _ => Reply2xx (Demo.dumps v)).

(** A provider that answers every request 200 with an empty body. *)
Definition silent : Platform :=
  Demo.platform [] [] (fun _ _ => Reply2xx "").

(** A trunk list whose first entry has a number for a status. *)
Definition numbered_status : pyval :=
  PDict [("response",
          PList [PDict [("status", PStr "success");
                        ("data", PDict [("trunk_sid", PStr "trsgp9");
                                        ("status", PInt 1)])];
                 Spec.trunk_entry
                   {| Spec.trunk_status := "active"; Spec.trunk_sid := "trmum1";
                      Spec.trunk_name := Some "main" |}])].

(** The production integrator without an account identifier, hence without
    a base URL. *)
Definition no_account : VapiExotelProductionIntegrator.config := {|
  VapiExotelProductionIntegrator.exotel := {|
    VapiExotelProductionIntegrator.auth_key := Some "key";
    VapiExotelProductionIntegrator.auth_token := Some "token";
    VapiExotelProductionIntegrator.domain := "api.in.exotel.com";
    VapiExotelProductionIntegrator.account_sid := None;
    VapiExotelProductionIntegrator.base_url :=
      VapiExotelProductionIntegrator.loaded_base_url "api.in.exotel.com" None
  |};
  VapiExotelProductionIntegrator.integration := {|
    VapiExotelProductionIntegrator.phone_number := Some "+1234567890";
    VapiExotelProductionIntegrator.vapi_fqdn := Some "mybot@sip.vapi.ai"
  |}
|}.

(** The voice assistant provider: it creates what is posted and lists one
    phone number resource. *)
Definition created : pyval := PDict [("id", PStr "res-1"); ("status", PStr "queued")].

Definition listed : pyval :=
  PList [PDict [("id", PStr "pn-7"); ("number", PStr "+1234567890")]].

Definition assistant_server (_ : list request) (r : request) : string + response :=
  if String.eqb (req_method r) "GET"
  then inr {| status_code := 200; text := Demo.dumps listed |}
  else inr {| status_code := 201; text := Demo.dumps created |}.


(** A voice assistant provider that cannot be reached. *)
Definition unreachable (_ : list request) (_ : request) : string + response :=
  inl "Connection refused".

Definition runtime (server : list request -> request -> string + response)
  : Runtime := {|
  requests_send := server;
  strftime_now := fun _ => "11031729";
  help_text := "usage: exotel_outbound_calls.py [-h]";
  int_of := fun s => if String.eqb s "5070" then inr 5070%Z
                     else inl ("invalid literal for int() with base 10: "
                               ++ PyString.repr s)
|}.

(** The environment of the production script, complete, and with a gateway
    port that is no number. *)
Definition production_environ (name : string) : option string :=
  if String.eqb name "VAPI_PRIVATE_KEY" then Some "vapi-key"
  else if String.eqb name "VAPI_ASSISTANT_ID" then Some "assistant-1"
  else if String.eqb name "PHONE_NUMBER" then Some "+1234567890"
  else if String.eqb name "VAPI_FQDN" then Some "mybot@sip.vapi.ai"
  else Demo.environ name.

(** A telephony provider without an active trunk. *)
Definition no_trunk : Platform :=
  Demo.platform [Spec.trunk_list_response Demo.none_active] []
                (Demo.listing_server Demo.none_active).

Definition script : ProductionScript.integrator := {|
  ProductionScript.settings := Demo.production;
  ProductionScript.private_key := Some "vapi-key";
  ProductionScript.assistant_id := Some "assistant-1";
  ProductionScript.exotel_gateway_ip := "129.154.231.198";
  ProductionScript.exotel_gateway_port := 5070
|}.


(** The environment that [address_only] is loaded from. *)
Definition address_environ (name : string) : option string :=
  if String.eqb name "EXO_ACCOUNT_SID" then Some "acme"
  else if String.eqb name "VAPI_FQDN" then Some "mybot@sip.vapi.ai"
  else None.

Definition setup_fqdn_alone : ProductionScript.arguments := {|
  ProductionScript.setup_all := false;
  ProductionScript.setup_fqdn_only := true;
  ProductionScript.test_calls := false;
  ProductionScript.validate_config := false
|}.

Definition setup_all_only : ProductionScript.arguments := {|
  ProductionScript.setup_all := true;
  ProductionScript.setup_fqdn_only := false;
  ProductionScript.test_calls := false;
  ProductionScript.validate_config := false
|}.

(** The environment with one more variable. *)
Definition with_value (name value : string) (env : string -> option string)
  : string -> option string :=
  fun n => if String.eqb n name then Some value else env n.

(** An environment with the credentials and an Indian phone number, and
    neither a domain nor a caller id. *)
Definition indian_environ : string -> option string :=
  Demo.without "EXO_SUBSCRIBIX_DOMAIN"
    (with_value "PHONE_NUMBER" "+919876543210" Demo.environ).

(** The keyword arguments of [create_vapi_to_phone_call], and some that ask
    for a recording format. *)
Definition callback_keywords : list (string * pyval) :=
  [("callback_events", PList [PStr "terminal"; PStr "answered"]);
   ("callback_content_type", PStr "application/json")].

Definition recording_keywords : list (string * pyval) :=
  [("recording_channels", PStr "dual"); ("recording_format", PStr "mp3")].

End Fixtures.

(* ================================================================== *)
(** ** Proof steps for runs *)

(** Case analysis on the scrutinee of a [match] of the goal or of a
    hypothesis. *)
Ltac destruct_match :=
  match goal with
  | |- context [match ?x with _ => _ end] => destruct x eqn:?
  | H : context [match ?x with _ => _ end] |- _ => destruct x eqn:?
  end.

Ltac inv_pairs :=
  repeat match goal with
         | H : (_, _) = (_, _) |- _ => inversion H; clear H; subst
         end.

(** Every path through a run, with the impossible ones closed. *)
Ltac all_paths :=
  repeat (destruct_match; try discriminate); inv_pairs; try discriminate.

(* ================================================================== *)
(** ** The address normalizer *)

Section Normalizer.
Import PyString Spec.

Lemma prefix_at (c : ascii) (s : string) :
  prefix "@" (String c s) = Ascii.eqb c at_sign.
Proof.
  cbn [prefix]. destruct (ascii_dec "@" c) as [E | N].
  - subst c. now destruct s.
  - symmetry. apply Ascii.eqb_neq. intro E. apply N. now rewrite E.
Qed.

Lemma at_to_dot_eq (c : ascii) :
  at_to_dot c = if Ascii.eqb c at_sign then dot else c.
Proof. reflexivity. Qed.

Lemma str_replace_at (s : string) :
  str_replace "@" "." s = map_chars at_to_dot s.
Proof.
  unfold str_replace.
  induction s as [| c s IH]; [reflexivity |].
  cbn [replace_from map_chars]. rewrite prefix_at, <- IH, at_to_dot_eq.
  destruct (Ascii.eqb c at_sign); reflexivity.
Qed.

Lemma str_in_at (s : string) :
  str_in "@" s = negb (count_at s =? 0)%nat.
Proof.
  induction s as [| c s IH]; [reflexivity |].
  cbn [str_in count_at]. rewrite prefix_at.
  destruct (Ascii.eqb c at_sign); [reflexivity | exact IH].
Qed.

Lemma map_chars_no_at (s : string) :
  count_at s = 0 -> map_chars at_to_dot s = s.
Proof.
  induction s as [| c s IH]; [reflexivity |].
  cbn [count_at map_chars]. rewrite at_to_dot_eq.
  destruct (Ascii.eqb c at_sign); [discriminate |].
  intro H. now rewrite IH.
Qed.

Lemma count_at_map_chars (s : string) :
  count_at (map_chars at_to_dot s) = 0.
Proof.
  induction s as [| c s IH]; [reflexivity |].
  cbn [count_at map_chars]. rewrite IH, at_to_dot_eq.
  destruct (Ascii.eqb c at_sign) eqn:E; [reflexivity |].
  now rewrite E.
Qed.

Lemma map_chars_first (s : string) :
  count_at s <= 1 -> map_chars at_to_dot s = replace_first_at s.
Proof.
  induction s as [| c s IH]; [reflexivity |].
  cbn [count_at map_chars replace_first_at]. rewrite at_to_dot_eq.
  destruct (Ascii.eqb c at_sign); intro H.
  - rewrite map_chars_no_at; [reflexivity | lia].
  - rewrite IH; [reflexivity | exact H].
Qed.

Lemma get_map_chars (f : ascii -> ascii) (s : string) (i : nat) :
  String.get i (map_chars f s) = option_map f (String.get i s).
Proof.
  revert i. induction s as [| c s IH]; intro i; [reflexivity |].
  destruct i; [reflexivity | apply IH].
Qed.

(** Both classes define the same normalizer. *)
Lemma convert_vapi_fqdn_map (s : string) :
  VapiExotelIntegrator.convert_vapi_fqdn s = map_chars at_to_dot s.
Proof.
  unfold VapiExotelIntegrator.convert_vapi_fqdn.
  rewrite str_in_at, str_replace_at.
  destruct (count_at s =? 0)%nat eqn:E; [| reflexivity].
  apply Nat.eqb_eq in E. symmetry. now apply map_chars_no_at.
Qed.

Lemma production_convert_vapi_fqdn (s : string) :
  VapiExotelProductionIntegrator.convert_vapi_fqdn s
  = VapiExotelIntegrator.convert_vapi_fqdn s.
Proof.
  unfold VapiExotelProductionIntegrator.convert_vapi_fqdn.
  now rewrite convert_vapi_fqdn_map, str_replace_at.
Qed.

(** C2, as stated, fails: on an address with two [@] the normalizer
    replaces both, not only the first. *)
Lemma convert_vapi_fqdn_not_first_only :
  VapiExotelIntegrator.convert_vapi_fqdn "a@b@c" = "a.b.c"
  /\ VapiExotelProductionIntegrator.convert_vapi_fqdn "a@b@c" = "a.b.c"
  /\ replace_first_at "a@b@c" = "a.b@c"
  /\ VapiExotelIntegrator.convert_vapi_fqdn "a@b@c" <> replace_first_at "a@b@c".
Proof.
  refine (conj eq_refl (conj eq_refl (conj eq_refl _))). discriminate.
Qed.

(** C2, amended: for every input string the normalizer of either class
    replaces every [@] with [.] and keeps every other character in place;
    it returns the input unchanged when no [@] is present, and replaces
    the first and only [@] when there is at most one; the two examples of
    the specification hold. *)
Theorem convert_vapi_fqdn_replaces_every_at (s : string) :
  (forall i, String.get i (VapiExotelIntegrator.convert_vapi_fqdn s)
             = option_map at_to_dot (String.get i s))
  /\ VapiExotelProductionIntegrator.convert_vapi_fqdn s
     = VapiExotelIntegrator.convert_vapi_fqdn s
  /\ (str_in "@" s = false -> VapiExotelIntegrator.convert_vapi_fqdn s = s)
  /\ (count_at s <= 1 ->
      VapiExotelIntegrator.convert_vapi_fqdn s = replace_first_at s)
  /\ VapiExotelIntegrator.convert_vapi_fqdn "bot@sip.example.ai"
     = "bot.sip.example.ai"
  /\ VapiExotelIntegrator.convert_vapi_fqdn "no-at-sign" = "no-at-sign".
Proof.
  refine (conj _ (conj _ (conj _ (conj _ (conj eq_refl eq_refl))))).
  - intro i. rewrite convert_vapi_fqdn_map. apply get_map_chars.
  - apply production_convert_vapi_fqdn.
  - rewrite str_in_at. intro H. rewrite convert_vapi_fqdn_map.
    apply map_chars_no_at. apply Nat.eqb_eq.
    now destruct (count_at s =? 0)%nat.
  - intro H. rewrite convert_vapi_fqdn_map. now apply map_chars_first.
Qed.

Lemma convert_vapi_fqdn_replaces_every_at_witness :
  VapiExotelIntegrator.convert_vapi_fqdn "bot@sip.example.ai"
  = replace_first_at "bot@sip.example.ai"
  /\ VapiExotelIntegrator.convert_vapi_fqdn "no-at-sign" = "no-at-sign".
Proof.
  split.
  - destruct (convert_vapi_fqdn_replaces_every_at "bot@sip.example.ai")
      as (_ & _ & _ & first_only & _).
    apply first_only. simpl. lia.
  - destruct (convert_vapi_fqdn_replaces_every_at "no-at-sign")
      as (_ & _ & unchanged & _).
    apply unchanged. reflexivity.
Defined.

(** C10: the normalizer is idempotent, because its output never contains
    an [@]; so for either class. *)
Theorem convert_vapi_fqdn_idempotent (s : string) :
  VapiExotelIntegrator.convert_vapi_fqdn (VapiExotelIntegrator.convert_vapi_fqdn s)
  = VapiExotelIntegrator.convert_vapi_fqdn s
  /\ str_in "@" (VapiExotelIntegrator.convert_vapi_fqdn s) = false
  /\ VapiExotelProductionIntegrator.convert_vapi_fqdn
       (VapiExotelProductionIntegrator.convert_vapi_fqdn s)
     = VapiExotelProductionIntegrator.convert_vapi_fqdn s
  /\ str_in "@" (VapiExotelProductionIntegrator.convert_vapi_fqdn s) = false.
Proof.
  rewrite !production_convert_vapi_fqdn.
  assert (N : str_in "@" (VapiExotelIntegrator.convert_vapi_fqdn s) = false).
  { rewrite convert_vapi_fqdn_map, str_in_at, count_at_map_chars. reflexivity. }
  assert (I : VapiExotelIntegrator.convert_vapi_fqdn
                (VapiExotelIntegrator.convert_vapi_fqdn s)
              = VapiExotelIntegrator.convert_vapi_fqdn s).
  { rewrite (convert_vapi_fqdn_map (VapiExotelIntegrator.convert_vapi_fqdn s)).
    apply map_chars_no_at. rewrite convert_vapi_fqdn_map.
    apply count_at_map_chars. }
  exact (conj I (conj N (conj I N))).
Qed.

End Normalizer.

(* ================================================================== *)
(** ** Substrings *)

Section Substrings.
Import PyString.








End Substrings.

(* ================================================================== *)
(** ** The request clients *)

Section RequestClients.
Context {P : Platform}.
Import PyString.

Lemma try_on_Exception {A} (m : M A) h w :
  try_with m (on_Exception h) w
  = match m w with
    | (Ret a, w') => (Ret a, w')
    | (Raise e, w') => if Py.is_Exception e then h e w' else (Raise e, w')
    end.
Proof.
  unfold try_with, on_Exception. destruct (m w) as [[a | e] w']; [reflexivity |].
  now destruct (Py.is_Exception e).
Qed.


(** [_make_request] of the integrator, case by case. *)
Lemma make_request_missing self method endpoint payload w :
  VapiExotelIntegrator.has_credentials self = false ->
  VapiExotelIntegrator._make_request self method endpoint payload w
  = (Raise (ExValueError VapiExotelIntegrator.missing_credentials), w).
Proof.
  intro H. unfold VapiExotelIntegrator._make_request. now rewrite H.
Qed.

Lemma make_request_error self method endpoint payload w code reason body :
  VapiExotelIntegrator.has_credentials self = true ->
  urlopen (sent w) (VapiExotelIntegrator.request_for self method endpoint payload)
  = ReplyError code reason body ->
  VapiExotelIntegrator._make_request self method endpoint payload w
  = (Raise (ExException (api_error code body)),
     after_send w (VapiExotelIntegrator.request_for self method endpoint payload)).
Proof.
  intros H U. unfold VapiExotelIntegrator._make_request.
  rewrite H. cbn [negb]. unfold try_with, bind, send. now rewrite U.
Qed.

Lemma make_request_reply self method endpoint payload w body :
  VapiExotelIntegrator.has_credentials self = true ->
  urlopen (sent w) (VapiExotelIntegrator.request_for self method endpoint payload)
  = Reply2xx body ->
  VapiExotelIntegrator._make_request self method endpoint payload w
  = (match json_loads body with
     | inr v => Ret v
     | inl msg => Raise (ExJSONDecodeError msg)
     end,
     after_send w (VapiExotelIntegrator.request_for self method endpoint payload)).
Proof.
  intros H U. unfold VapiExotelIntegrator._make_request.
  rewrite H. cbn [negb]. unfold try_with, bind, send, loads. rewrite U.
  now destruct (json_loads body).
Qed.

(** Whatever happens, [_make_request] sends nothing or its one request,
    and prints nothing. *)
Lemma make_request_world self method endpoint payload w :
  let w' := snd (VapiExotelIntegrator._make_request self method endpoint payload w) in
  w' = w
  \/ w' = after_send w (VapiExotelIntegrator.request_for self method endpoint payload).
Proof.
  cbv zeta. destruct (VapiExotelIntegrator.has_credentials self) eqn:H.
  - right. unfold VapiExotelIntegrator._make_request.
    rewrite H. cbn [negb]. unfold try_with, bind, send, loads.
    destruct (urlopen _ _); [destruct (json_loads body) | |]; reflexivity.
  - left. now rewrite make_request_missing.
Qed.


Lemma production_request_reply self method endpoint payload w b body :
  VapiExotelProductionIntegrator.base_url
    (VapiExotelProductionIntegrator.exotel self) = Some b ->
  urlopen (sent w)
    (VapiExotelProductionIntegrator.request_for self method (b ++ endpoint) payload)
  = Reply2xx body ->
  VapiExotelProductionIntegrator.make_exotel_request self method endpoint payload w
  = (match json_loads body with
     | inr v => Ret v
     | inl msg => Raise (ExJSONDecodeError msg)
     end,
     after_send w
       (VapiExotelProductionIntegrator.request_for self method (b ++ endpoint) payload)).
Proof.
  intros B U. unfold VapiExotelProductionIntegrator.make_exotel_request.
  rewrite B. unfold try_with, bind, ret, send, loads. rewrite U.
  now destruct (json_loads body).
Qed.


Lemma outbound_request_reply self endpoint data w bytes body :
  urlopen (sent w) (ExotelOutboundCaller.request_for self endpoint data)
  = Reply2xx bytes ->
  utf8_decode bytes = inr body ->
  json_loads_other body = None ->
  ExotelOutboundCaller._make_exotel_request self endpoint data w
  = (Ret (ExotelOutboundCaller.decode_response body),
     after_send w (ExotelOutboundCaller.request_for self endpoint data)).
Proof.
  intros U D J. unfold ExotelOutboundCaller._make_exotel_request.
  unfold try_with, bind, send, lift, ExotelOutboundCaller.read_text, ret.
  now rewrite U, D, J.
Qed.

(** A 2xx reply that does not decode: the exception reaches the caller. *)
Lemma outbound_request_undecodable self endpoint data w bytes :
  urlopen (sent w) (ExotelOutboundCaller.request_for self endpoint data)
  = Reply2xx bytes ->
  ExotelOutboundCaller._make_exotel_request self endpoint data w
  = (match utf8_decode bytes with
     | inl msg => Raise (ExValueError msg)
     | inr body =>
         match json_loads_other body with
         | Some e => Raise (ExotelOutboundCaller.exn_of_loads_error e)
         | None => Ret (ExotelOutboundCaller.decode_response body)
         end
     end,
     after_send w (ExotelOutboundCaller.request_for self endpoint data)).
Proof.
  intros U. unfold ExotelOutboundCaller._make_exotel_request.
  unfold try_with, bind, send, lift, ExotelOutboundCaller.read_text, ret, raise.
  rewrite U. destruct (utf8_decode bytes) as [msg | body]; [reflexivity |].
  destruct (json_loads_other body) as [[m | m] |]; reflexivity.
Qed.

End RequestClients.

Section ClientModule.
Context {P : Platform}.
Import PyString Spec.


Lemma get_auth_header_missing environ w :
  provided environ "EXO_AUTH_KEY" && provided environ "EXO_AUTH_TOKEN" = false ->
  Client.get_auth_header environ w
  = (Raise (ExSystemExit 1), printed w [Client.missing_auth]).
Proof.
  unfold provided, Client.get_auth_header. intro H.
  apply andb_false_iff in H.
  destruct (Py.truthy_opt (environ "EXO_AUTH_KEY")),
           (Py.truthy_opt (environ "EXO_AUTH_TOKEN"));
    try reflexivity.
  destruct H; discriminate.
Qed.

Lemma get_base_url_missing environ w :
  provided environ "EXO_SUBSCRIBIX_DOMAIN" && provided environ "EXO_ACCOUNT_SID"
  = false ->
  Client.get_base_url environ w
  = (Raise (ExSystemExit 1), printed w [Client.missing_base]).
Proof.
  unfold provided, Client.get_base_url. intro H.
  apply andb_false_iff in H.
  destruct (Py.truthy_opt (environ "EXO_SUBSCRIBIX_DOMAIN")),
           (Py.truthy_opt (environ "EXO_ACCOUNT_SID"));
    try reflexivity.
  destruct H; discriminate.
Qed.

Lemma get_base_url_present environ w :
  provided environ "EXO_SUBSCRIBIX_DOMAIN" = true ->
  provided environ "EXO_ACCOUNT_SID" = true ->
  exists base line,
    Client.get_base_url environ w = (Ret base, printed w [line]).
Proof.
  unfold provided, Client.get_base_url. intros D A. rewrite D, A.
  eexists. eexists. reflexivity.
Qed.

Lemma post_missing_auth BASE environ path payload w :
  provided environ "EXO_AUTH_KEY" && provided environ "EXO_AUTH_TOKEN" = false ->
  Client.post BASE environ path payload w
  = (Raise (ExSystemExit 1), printed w [Client.missing_auth]).
Proof.
  intro H. unfold Client.post, try_with, bind.
  now rewrite (get_auth_header_missing _ _ H).
Qed.


End ClientModule.

(* ================================================================== *)
(** ** The orchestrator of vapi_exotel_integration.py *)

Section Orchestrator.
Context {P : Platform}.
Import PyString VapiExotelIntegrator.

Lemma add_vapi_destination_world self fqdn trunk w :
  snd (add_vapi_destination self fqdn trunk w) = w
  \/ snd (add_vapi_destination self fqdn trunk w)
     = after_send w (attach_request self fqdn trunk).
Proof.
  pose proof (make_request_world self "POST"
                ("/trunks/" ++ Py.or_else trunk (default_trunk self)
                 ++ "/destination-uris")
                (Some (destination_payload
                         (sip_destination_of (convert_vapi_fqdn fqdn)))) w) as W.
  cbv zeta in W. unfold attach_request.
  unfold add_vapi_destination, try_with, bind, lift, on_Exception, ret.
  destruct (_make_request _ _ _ _ w) as [[v | e] w1]; cbn [snd] in *.
  - destruct (parse_destination_response _ _ _) as [r | e];
      [| destruct (Py.is_Exception e)]; exact W.
  - destruct (Py.is_Exception e); exact W.
Qed.

Lemma add_vapi_destination_missing self fqdn trunk w :
  has_credentials self = false ->
  add_vapi_destination self fqdn trunk w
  = (Ret (failure (PStr missing_credentials)), w).
Proof.
  intro H. unfold add_vapi_destination, try_with, bind.
  now rewrite (make_request_missing _ _ _ _ _ H).
Qed.

Lemma add_vapi_destination_http_error self fqdn trunk w code reason body :
  has_credentials self = true ->
  urlopen (sent w) (attach_request self fqdn trunk) = ReplyError code reason body ->
  add_vapi_destination self fqdn trunk w
  = (Ret (failure (PStr (api_error code body))),
     after_send w (attach_request self fqdn trunk)).
Proof.
  intros H U. unfold attach_request in *.
  unfold add_vapi_destination, try_with, bind.
  now rewrite (make_request_error _ _ _ _ _ H U).
Qed.

Lemma map_phone_number_http_error self phone trunk w code reason body :
  has_credentials self = true ->
  urlopen (sent w) (mapping_request self phone trunk) = ReplyError code reason body ->
  map_phone_number self phone trunk w
  = (Ret (failure (PStr (api_error code body))),
     after_send w (mapping_request self phone trunk)).
Proof.
  intros H U. unfold mapping_request in *.
  unfold map_phone_number, try_with, bind.
  now rewrite (make_request_error _ _ _ _ _ H U).
Qed.

(** What [configure_vapi_integration] returns when the attach step fails. *)
Lemma configure_after_failed_attach self fqdn phone trunk w dest_result ok err w1 :
  add_vapi_destination self fqdn trunk w = (Ret dest_result, w1) ->
  Py.item dest_result "success" = Ret ok ->
  Py.truthy ok = false ->
  Py.item dest_result "error" = Ret err ->
  configure_vapi_integration self fqdn phone trunk w
  = (Ret (PDict [("vapi_fqdn", PStr fqdn);
                 ("phone_number", PStr phone);
                 ("converted_fqdn", PStr (convert_vapi_fqdn fqdn));
                 ("trunk_sid", PStr (Py.or_else trunk (default_trunk self)));
                 ("steps", PDict [("destination", dest_result)]);
                 ("success", PBool false);
                 ("error", PStr ("Failed to add destination: " ++ Py.str err))]),
     w1).
Proof.
  intros A S T E.
  unfold configure_vapi_integration, bind. rewrite A.
  unfold lift at 1. cbn [set_step Py.lookup String.eqb Ascii.eqb Bool.eqb].
  unfold lift. rewrite S, T. cbn [negb]. rewrite E.
  reflexivity.
Qed.

(** What [configure_vapi_integration] returns when both steps succeed. *)
Lemma configure_after_both_steps self fqdn phone trunk w
      dest_result ok1 w1 phone_result ok2 w2 :
  add_vapi_destination self fqdn trunk w = (Ret dest_result, w1) ->
  Py.item dest_result "success" = Ret ok1 ->
  Py.truthy ok1 = true ->
  map_phone_number self phone trunk w1 = (Ret phone_result, w2) ->
  Py.item phone_result "success" = Ret ok2 ->
  Py.truthy ok2 = true ->
  configure_vapi_integration self fqdn phone trunk w
  = (Ret (PDict [("vapi_fqdn", PStr fqdn);
                 ("phone_number", PStr phone);
                 ("converted_fqdn", PStr (convert_vapi_fqdn fqdn));
                 ("trunk_sid", PStr (Py.or_else trunk (default_trunk self)));
                 ("steps", PDict [("destination", dest_result);
                                  ("phone_mapping", phone_result)]);
                 ("success", PBool true);
                 ("message",
                  PStr "Vapi-Exotel integration configured successfully")]),
     w2).
Proof.
  intros A S1 T1 M S2 T2.
  unfold configure_vapi_integration, bind. rewrite A.
  unfold lift at 1. cbn [set_step Py.lookup String.eqb Ascii.eqb Bool.eqb].
  unfold lift at 1. rewrite S1, T1. cbn [negb]. rewrite M.
  unfold lift. rewrite S2, T2.
  reflexivity.
Qed.

End Orchestrator.

(* ================================================================== *)
(** ** Claims about the orchestrator and the clients *)

Section OrchestratorClaims.
Import PyString VapiExotelIntegrator.

(** C1, as stated, fails: when the provider is down the attach step
    fails with an error that is no duplicate, and the error of the
    aggregate result is not the attach step's error: it carries the prefix
    [Failed to add destination: ]. *)
Lemma aggregate_error_is_not_the_attach_error :
  exists dest_result err w1 results aggregate_error,
    @add_vapi_destination Demo.broken Demo.integrator "mybot@sip.vapi.ai" None world0
    = (Ret dest_result, w1)
    /\ Py.item dest_result "success" = Ret (PBool false)
    /\ Py.item dest_result "error" = Ret err
    /\ str_in "Duplicate resource" (Py.str err) = false
    /\ @configure_vapi_integration Demo.broken Demo.integrator
         "mybot@sip.vapi.ai" "+1234567890" None world0
       = (Ret (PDict results), w1)
    /\ Py.lookup "error" results = Some aggregate_error
    /\ err = PStr "Exotel API Error 500: boom"
    /\ aggregate_error
       = PStr "Failed to add destination: Exotel API Error 500: boom"
    /\ aggregate_error <> err.
Proof.
  do 5 eexists.
  refine (conj eq_refl (conj eq_refl (conj eq_refl (conj eq_refl
           (conj eq_refl (conj eq_refl (conj eq_refl (conj eq_refl _)))))))).
  discriminate.
Qed.

(** C1, amended: if the attach step returns a failure, the orchestrator
    does not run the phone-mapping step (the world is the one the attach
    step left, in which at most the attach request has been sent, and the
    steps of the aggregate hold the attach result only), the aggregate has
    success=false, and its error message is [Failed to add destination: ]
    followed by the attach step's error message. *)
Theorem failed_attach_stops_the_orchestrator
        {P : Platform} self fqdn phone trunk w dest_result ok err w1 :
  add_vapi_destination self fqdn trunk w = (Ret dest_result, w1) ->
  Py.item dest_result "success" = Ret ok ->
  Py.truthy ok = false ->
  Py.item dest_result "error" = Ret err ->
  exists results,
    configure_vapi_integration self fqdn phone trunk w = (Ret (PDict results), w1)
    /\ Py.lookup "success" results = Some (PBool false)
    /\ Py.lookup "error" results
       = Some (PStr ("Failed to add destination: " ++ Py.str err))
    /\ Py.lookup "steps" results = Some (PDict [("destination", dest_result)])
    /\ (w1 = w \/ w1 = after_send w (attach_request self fqdn trunk)).
Proof.
  intros A S T E. eexists.
  split; [exact (configure_after_failed_attach _ _ phone _ _ A S T E) |].
  refine (conj eq_refl (conj eq_refl (conj eq_refl _))).
  pose proof (add_vapi_destination_world self fqdn trunk w) as W.
  now rewrite A in W.
Qed.

Lemma failed_attach_stops_the_orchestrator_witness :
  exists results,
    @configure_vapi_integration Demo.broken Demo.integrator
      "mybot@sip.vapi.ai" "+1234567890" None world0
    = (Ret (PDict results),
       after_send world0
         (@attach_request Demo.broken Demo.integrator "mybot@sip.vapi.ai" None))
    /\ Py.lookup "success" results = Some (PBool false)
    /\ Py.lookup "error" results
       = Some (PStr "Failed to add destination: Exotel API Error 500: boom").
Proof.
  destruct (@failed_attach_stops_the_orchestrator Demo.broken Demo.integrator
              "mybot@sip.vapi.ai" "+1234567890" None world0
              (failure (PStr "Exotel API Error 500: boom")) (PBool false)
              (PStr "Exotel API Error 500: boom")
              (after_send world0
                 (@attach_request Demo.broken Demo.integrator
                    "mybot@sip.vapi.ai" None))
              eq_refl eq_refl eq_refl eq_refl)
    as (results & C & S & E & _).
  exists results. exact (conj C (conj S E)).
Defined.

(** C6: for the address [mybot@sip.vapi.ai] and the phone [+1234567890], as
    for every address and phone, when the attach and the mapping step both
    succeed the aggregate result has success=true, its converted-address
    field is the normalized address, [mybot.sip.vapi.ai] here, and its
    phone-number field is the input phone number unchanged. *)
Theorem both_steps_succeed_aggregate
        {P : Platform} self fqdn phone trunk w
        dest_result ok1 w1 phone_result ok2 w2 :
  add_vapi_destination self fqdn trunk w = (Ret dest_result, w1) ->
  Py.item dest_result "success" = Ret ok1 ->
  Py.truthy ok1 = true ->
  map_phone_number self phone trunk w1 = (Ret phone_result, w2) ->
  Py.item phone_result "success" = Ret ok2 ->
  Py.truthy ok2 = true ->
  exists results,
    configure_vapi_integration self fqdn phone trunk w = (Ret (PDict results), w2)
    /\ Py.lookup "success" results = Some (PBool true)
    /\ Py.lookup "converted_fqdn" results = Some (PStr (convert_vapi_fqdn fqdn))
    /\ Py.lookup "phone_number" results = Some (PStr phone)
    /\ convert_vapi_fqdn "mybot@sip.vapi.ai" = "mybot.sip.vapi.ai".
Proof.
  intros A S1 T1 M S2 T2. eexists.
  split; [exact (configure_after_both_steps _ _ _ _ _ A S1 T1 M S2 T2) |].
  exact (conj eq_refl (conj eq_refl (conj eq_refl eq_refl))).
Qed.

Lemma both_steps_succeed_aggregate_witness :
  exists results w2,
    @configure_vapi_integration Demo.happy Demo.integrator
      "mybot@sip.vapi.ai" "+1234567890" None world0
    = (Ret (PDict results), w2)
    /\ Py.lookup "success" results = Some (PBool true)
    /\ Py.lookup "converted_fqdn" results = Some (PStr "mybot.sip.vapi.ai")
    /\ Py.lookup "phone_number" results = Some (PStr "+1234567890").
Proof.
  pose (w1 := after_send world0
                (@attach_request Demo.happy Demo.integrator
                   "mybot@sip.vapi.ai" None)).
  pose (w2 := after_send w1
                (@mapping_request Demo.happy Demo.integrator "+1234567890" None)).
  destruct (@both_steps_succeed_aggregate Demo.happy Demo.integrator
              "mybot@sip.vapi.ai" "+1234567890" None world0
              (PDict [("success", PBool true);
                      ("destination_id", PStr "d42");
                      ("destination", PStr "mybot.sip.vapi.ai:5060;transport=tcp");
                      ("trunk_sid", PStr "trmum1")])
              (PBool true) w1
              (PDict [("success", PBool true);
                      ("phone_number", PStr "+1234567890");
                      ("trunk_sid", PStr "trmum1");
                      ("message", PStr "Phone number mapped successfully")])
              (PBool true) w2
              eq_refl eq_refl eq_refl eq_refl eq_refl eq_refl)
    as (results & C & S & F & N & _).
  exists results, w2. exact (conj C (conj S (conj F N))).
Defined.

(** C3 at its failing input: the provider answers the attach and the
    mapping request 409 Conflict with a body that reports
    [Duplicate resource].  Both steps of [VapiExotelIntegrator] return
    success=false, and the orchestration fails; the same replies are taken
    as success by [setup_fqdn_integration] of the production script. *)
Theorem duplicate_conflict_fails_the_step :
  str_in "Duplicate resource" (Demo.dumps Demo.duplicate_resource) = true
  /\ fst (@add_vapi_destination Demo.conflict Demo.integrator
            "mybot@sip.vapi.ai" None world0)
     = Ret (failure (PStr (api_error 409 (Demo.dumps Demo.duplicate_resource))))
  /\ fst (@map_phone_number Demo.conflict Demo.integrator "+1234567890" None world0)
     = Ret (failure (PStr (api_error 409 (Demo.dumps Demo.duplicate_resource))))
  /\ (exists results,
        fst (@configure_vapi_integration Demo.conflict Demo.integrator
               "mybot@sip.vapi.ai" "+1234567890" None world0)
        = Ret (PDict results)
        /\ Py.lookup "success" results = Some (PBool false))
  /\ (exists result,
        fst (@VapiExotelProductionIntegrator.setup_fqdn_integration
               Demo.conflict Demo.production world0)
        = Ret result
        /\ Py.item result "success" = Ret (PBool true)).
Proof.
  refine (conj eq_refl (conj eq_refl (conj eq_refl (conj _ _))));
    eexists; split; vm_compute; reflexivity.
Qed.

End OrchestratorClaims.

Section ClientClaims.
Import PyString Spec.

Lemma last_app_cons {A} (l : list A) (x : A) (l' : list A) (d : A) :
  last (l ++ x :: l') d = last (x :: l') d.
Proof.
  induction l as [| y l IH]; [reflexivity |].
  cbn [app]. rewrite <- IH. cbn [last].
  now destruct (l ++ x :: l')%list eqn:E; [destruct l; discriminate |].
Qed.

Lemma main_missing {P : Platform} environ fqdn phone trunk w :
  VapiExotelIntegrator.has_credentials (VapiExotelIntegrator._load_config environ)
  = false ->
  VapiExotelIntegrator.main environ fqdn phone trunk w
  = (Raise (ExSystemExit 1),
     printed w
       ["🎯 VAPI-EXOTEL INTEGRATION";
        times "=" 50;
        "FQDN: " ++ fqdn;
        "Phone: " ++ phone;
        "Trunk: " ++ Py.or_else trunk
                       (VapiExotelIntegrator.default_trunk
                          (VapiExotelIntegrator._load_config environ));
        "";
        "❌ FAILED: Integration failed!";
        "   Error: Failed to add destination: "
          ++ VapiExotelIntegrator.missing_credentials]).
Proof.
  intro H. unfold VapiExotelIntegrator.main, VapiExotelIntegrator.init.
  rewrite try_on_Exception.
  unfold bind, print. cbn [sent stdout].
  erewrite configure_after_failed_attach;
    [| apply add_vapi_destination_missing; exact H
     | reflexivity | reflexivity | reflexivity].
  unfold lift, sys_exit, raise, printed.
  cbn -[times VapiExotelIntegrator.missing_credentials append].
  rewrite <- !app_assoc. reflexivity.
Qed.

Lemma import_and_post_missing {P : Platform} environ path payload w :
  provided environ "EXO_SUBSCRIBIX_DOMAIN" && provided environ "EXO_ACCOUNT_SID"
  && provided environ "EXO_AUTH_KEY" && provided environ "EXO_AUTH_TOKEN" = false ->
  exists lines line,
    Client.import_and_post environ path payload w
    = (Raise (ExSystemExit 1), printed w (lines ++ [line]))
    /\ (line = Client.missing_base \/ line = Client.missing_auth).
Proof.
  intro H. unfold Client.import_and_post, bind.
  destruct (provided environ "EXO_SUBSCRIBIX_DOMAIN"
            && provided environ "EXO_ACCOUNT_SID") eqn:B.
  - apply andb_true_iff in B. destruct B as [D A].
    destruct (get_base_url_present environ w D A) as (base & line & G).
    rewrite G. rewrite post_missing_auth.
    + exists [line], Client.missing_auth. split; [| now right].
      unfold printed. cbn [sent stdout]. now rewrite <- app_assoc.
    + cbn [andb] in H. exact H.
  - rewrite (get_base_url_missing _ _ B).
    exists [], Client.missing_base. split; [reflexivity | now left].
Qed.




End ClientClaims.

(* ================================================================== *)
(** ** The production script *)

Section Production.
Context {P : Platform}.
Import PyString Spec VapiExotelProductionIntegrator.

(** When the first [try] of [setup_fqdn_integration] makes the method
    return, it returns a failure; so for the second. *)
Lemma attach_destination_returns self t sip w r w' :
  attach_destination self t sip w = (Ret (Some r), w') ->
  exists e, r = failure e.
Proof.
  unfold attach_destination. rewrite try_on_Exception.
  unfold bind, lift, ret, print. intro H.
  all_paths; eexists; reflexivity.
Qed.

Lemma map_phone_returns self t phone w r w' :
  map_phone self t phone w = (Ret (Some r), w') ->
  exists e, r = failure e.
Proof.
  unfold map_phone. rewrite try_on_Exception.
  unfold bind, lift, ret, print. intro H.
  all_paths; eexists; reflexivity.
Qed.

Lemma setup_success_fields self fqdn w r w' :
  vapi_fqdn (integration self) = Some fqdn ->
  setup_fqdn_integration self w = (Ret r, w') ->
  Py.item r "success" = Ret (PBool true) ->
  Py.item r "sip_destination"
  = Ret (PStr (convert_vapi_fqdn fqdn ++ ":5060;transport=tcp"))
  /\ Py.item r "fqdn" = Ret (PStr (convert_vapi_fqdn fqdn)).
Proof.
  intros F H S. unfold setup_fqdn_integration in H. rewrite F in H.
  unfold bind, print, ret in H. cbn [sent stdout] in H.
  all_paths.
  all: try match goal with
           | H : attach_destination _ _ _ _ = (Ret (Some _), _) |- _ =>
               apply attach_destination_returns in H; destruct H; subst; discriminate
           | H : map_phone _ _ _ _ = (Ret (Some _), _) |- _ =>
               apply map_phone_returns in H; destruct H; subst; discriminate
           end.
  split; reflexivity.
Qed.

Lemma find_first_of_only {A} (f : A -> bool) (l : list A) (x : A) :
  filter f l = [x] -> List.find f l = Some x.
Proof.
  induction l as [| y l IH]; [discriminate |].
  cbn [filter List.find]. destruct (f y).
  - intro E. now inversion E.
  - exact IH.
Qed.

Lemma find_none_of_none {A} (f : A -> bool) (l : list A) :
  filter f l = [] -> List.find f l = None.
Proof.
  induction l as [| y l IH]; [reflexivity |].
  cbn [filter List.find]. destruct (f y); [discriminate | exact IH].
Qed.

End Production.

(* ================================================================== *)
(** ** Claims about the SIP destination and the trunk resolution *)

Section DestinationClaims.
Import PyString Spec.

Lemma add_vapi_destination_sends {P : Platform} self fqdn trunk w :
  VapiExotelIntegrator.has_credentials self = true ->
  snd (VapiExotelIntegrator.add_vapi_destination self fqdn trunk w)
  = after_send w (VapiExotelIntegrator.attach_request self fqdn trunk).
Proof.
  intro H.
  assert (W : snd (VapiExotelIntegrator._make_request self "POST"
                     ("/trunks/"
                      ++ Py.or_else trunk (VapiExotelIntegrator.default_trunk self)
                      ++ "/destination-uris")
                     (Some (VapiExotelIntegrator.destination_payload
                              (VapiExotelIntegrator.sip_destination_of
                                 (VapiExotelIntegrator.convert_vapi_fqdn fqdn)))) w)
              = after_send w (VapiExotelIntegrator.attach_request self fqdn trunk)).
  { unfold VapiExotelIntegrator._make_request, VapiExotelIntegrator.attach_request.
    rewrite H. cbn [negb]. unfold try_with, bind, send, loads.
    destruct (urlopen _ _); [destruct (json_loads body) | |]; reflexivity. }
  unfold VapiExotelIntegrator.add_vapi_destination.
  rewrite try_on_Exception. unfold bind, lift, ret.
  destruct (VapiExotelIntegrator._make_request _ _ _ _ w) as [[v | e] w1];
    cbn [snd] in *.
  - destruct (VapiExotelIntegrator.parse_destination_response _ _ _) as [r | e];
      [| destruct (Py.is_Exception e)]; exact W.
  - destruct (Py.is_Exception e); exact W.
Qed.

(** C7: the SIP destination built from a normalized address is the
    normalized address followed by [:5060;transport=tcp].  The attach step
    of [VapiExotelIntegrator] sends exactly one request, whose body is the
    JSON text of [{'destinations': [{'destination': <normalized address>
    :5060;transport=tcp}]}]; a successful [setup_fqdn_integration] of the
    production script reports the normalized address and, as SIP
    destination, that address followed by the suffix. *)
Theorem sip_destination_is_address_plus_suffix {P : Platform} :
  (forall self fqdn trunk w,
      VapiExotelIntegrator.has_credentials self = true ->
      sent (snd (VapiExotelIntegrator.add_vapi_destination self fqdn trunk w))
      = (sent w ++ [VapiExotelIntegrator.attach_request self fqdn trunk])%list
      /\ req_data (VapiExotelIntegrator.attach_request self fqdn trunk)
         = Some (json_dumps None
                   (PDict [("destinations",
                            PList [PDict [("destination",
                                           PStr (VapiExotelIntegrator.convert_vapi_fqdn fqdn
                                                 ++ ":5060;transport=tcp"))]])])))
  /\ (forall self fqdn w r w',
         VapiExotelProductionIntegrator.vapi_fqdn
           (VapiExotelProductionIntegrator.integration self) = Some fqdn ->
         VapiExotelProductionIntegrator.setup_fqdn_integration self w = (Ret r, w') ->
         Py.item r "success" = Ret (PBool true) ->
         Py.item r "fqdn"
         = Ret (PStr (VapiExotelProductionIntegrator.convert_vapi_fqdn fqdn))
         /\ Py.item r "sip_destination"
            = Ret (PStr (VapiExotelProductionIntegrator.convert_vapi_fqdn fqdn
                         ++ ":5060;transport=tcp"))).
Proof.
  split.
  - intros self fqdn trunk w H.
    rewrite (add_vapi_destination_sends self fqdn trunk w H).
    split; reflexivity.
  - intros self fqdn w r w' F R S.
    destruct (setup_success_fields self w F R S) as [D N].
    exact (conj N D).
Qed.

Lemma sip_destination_is_address_plus_suffix_witness :
  req_data (@VapiExotelIntegrator.attach_request Demo.happy Demo.integrator
              "mybot@sip.vapi.ai" None)
  = Some (Demo.dumps
            (PDict [("destinations",
                     PList [PDict [("destination",
                                    PStr "mybot.sip.vapi.ai:5060;transport=tcp")]])]))
  /\ Py.item (PDict [("success", PBool true); ("trunk_sid", PStr "trmum1");
                     ("fqdn", PStr "mybot.sip.vapi.ai");
                     ("sip_destination", PStr "mybot.sip.vapi.ai:5060;transport=tcp");
                     ("phone_number", PStr "+1234567890")])
             "sip_destination"
     = Ret (PStr "mybot.sip.vapi.ai:5060;transport=tcp").
Proof.
  split.
  - exact (proj2 (proj1 (@sip_destination_is_address_plus_suffix Demo.happy)
                    Demo.integrator "mybot@sip.vapi.ai" None world0 eq_refl)).
  - exact (proj2 (proj2 (@sip_destination_is_address_plus_suffix
                           (Demo.listing Demo.one_active))
                    Demo.production "mybot@sip.vapi.ai" world0 _ _
                    eq_refl eq_refl eq_refl)).
Defined.

(** C4, as stated, fails: in this trunk list exactly one trunk has the
    status [active], the second one, and the resolution returns the
    identifier of the first, whose status is [ACTIVE]. *)
Lemma resolution_ignores_letter_case :
  filter status_is_active Demo.upper_case_first
  = [{| trunk_status := "active"; trunk_sid := "trmum1";
        trunk_name := Some "main" |}]
  /\ json_loads (Platform := Demo.listing Demo.upper_case_first)
       (Demo.dumps (trunk_list_response Demo.upper_case_first))
     = inr (trunk_list_response Demo.upper_case_first)
  /\ fst (@VapiExotelProductionIntegrator.get_active_trunk
            (Demo.listing Demo.upper_case_first) Demo.production world0)
     = Ret (PStr "trsgp9")
  /\ PStr "trsgp9" <> PStr "trmum1".
Proof.
  refine (conj eq_refl (conj eq_refl (conj eq_refl _))). discriminate.
Qed.

End DestinationClaims.

(* ================================================================== *)
(** ** Claims about the decoding of replies *)

Section DecodingClaims.
Import PyString Spec ExotelOutboundCaller.

Lemma lookup_set_item (k k' : string) (v : pyval) (d : list (string * pyval)) :
  Py.lookup k (Py.set_item k' v d)
  = if String.eqb k' k then Some v else Py.lookup k d.
Proof.
  induction d as [| [k0 v0] d IH]; cbn [Py.set_item Py.lookup].
  - reflexivity.
  - destruct (String.eqb k0 k') eqn:E0; cbn [Py.lookup].
    + apply String.eqb_eq in E0. subst k0.
      now destruct (String.eqb k' k).
    + destruct (String.eqb k0 k) eqn:E1.
      * apply String.eqb_eq in E1. subst k0.
        rewrite String.eqb_sym, E0. reflexivity.
      * exact IH.
Qed.

Lemma fold_children_lookup (tag : string) (kids : list element)
      (acc : list (string * pyval)) :
  Py.lookup tag
    (fold_left (fun call_data child =>
                  Py.set_item (tag_of child) (Py.of_opt (text_of child)) call_data)
               kids acc)
  = match last_tagged tag kids with
    | Some c => Some (Py.of_opt (text_of c))
    | None => Py.lookup tag acc
    end.
Proof.
  revert acc. induction kids as [| c kids IH]; intro acc; [reflexivity |].
  cbn [fold_left last_tagged]. rewrite IH.
  destruct (last_tagged tag kids); [reflexivity |].
  rewrite lookup_set_item. now destruct (String.eqb (tag_of c) tag).
Qed.

(** The decoded call data is flat: under each tag, the text of the last
    child element with that tag. *)
Lemma call_data_is_flat (call_elem : element) (tag : string) :
  Py.lookup tag (call_data_of call_elem)
  = option_map (fun c => Py.of_opt (text_of c))
               (last_tagged tag (children_of call_elem)).
Proof.
  unfold call_data_of. rewrite fold_children_lookup.
  now destruct (last_tagged tag (children_of call_elem)).
Qed.

(** C8, as stated, fails twice.  A reply that starts with the XML
    declaration and does not parse is returned under [raw_xml] with a
    [parse_error], not tagged as a success; and a reply without the
    declaration is never given to the XML decoder, although it parses and
    has a [Call] element. *)
Lemma failed_xml_is_not_tagged_success :
  json_loads (Platform := Demo.replying Demo.truncated_xml) Demo.truncated_xml
  = inl "Expecting value: line 1 column 1 (char 0)"
  /\ ET_fromstring (Platform := Demo.replying Demo.truncated_xml) Demo.truncated_xml
     = inl "syntax error: line 1, column 0"
  /\ fst (@_make_exotel_request (Demo.replying Demo.truncated_xml) Demo.caller
            "Calls/connect" [("From", PStr "+1234567890")] world0)
     = Ret (PDict [("raw_xml", PStr Demo.truncated_xml);
                   ("parse_error", PStr "syntax error: line 1, column 0")])
  /\ PDict [("raw_xml", PStr Demo.truncated_xml);
            ("parse_error", PStr "syntax error: line 1, column 0")]
     <> opaque_success Demo.truncated_xml
  /\ ET_fromstring (Platform := Demo.replying Demo.bare_xml) Demo.bare_xml
     = inr Demo.bare_tree
  /\ find_child "Call" Demo.bare_tree
     = Some (Element "Call" None [Element "Sid" (Some "c1") []])
  /\ fst (@_make_exotel_request (Demo.replying Demo.bare_xml) Demo.caller
            "Calls/connect" [("From", PStr "+1234567890")] world0)
     = Ret (opaque_success Demo.bare_xml).
Proof.
  refine (conj eq_refl (conj eq_refl (conj eq_refl (conj _
           (conj eq_refl (conj eq_refl eq_refl)))))).
  discriminate.
Qed.

(** C8, amended: a 2xx reply whose bytes are not UTF-8 leaves the client
    as the [UnicodeDecodeError], a [ValueError], of the decoding, and a text on which
    [json.loads] raises something else than a [JSONDecodeError] leaves it as
    that exception.  For every other 2xx reply the client returns a value.
    It first attempts JSON decoding.  If that fails and the text, stripped
    of surrounding white space, starts with the XML declaration, it
    attempts the XML decode: with a [Call] child of the root it returns
    under [Call] the flat mapping from the tag of each child of that
    element to its text; without one it returns the raw text under
    [raw_xml] marked [parsed]; if the XML does not parse it returns the raw
    text under [raw_xml] with the [parse_error].  If JSON decoding fails and
    the text does not start with the XML declaration, it returns the raw
    text tagged as an opaque success payload. *)
Theorem reply_decoding_falls_back
        {P : Platform} self endpoint data w (bytes : string) :
  urlopen (sent w) (request_for self endpoint data) = Reply2xx bytes ->
  match utf8_decode bytes with
  | inl msg =>
      fst (_make_exotel_request self endpoint data w) = Raise (ExValueError msg)
  | inr body =>
      match json_loads_other body with
      | Some e =>
          fst (_make_exotel_request self endpoint data w)
          = Raise (exn_of_loads_error e)
      | None =>
          exists v,
            fst (_make_exotel_request self endpoint data w) = Ret v
            /\ (forall j, json_loads body = inr j -> v = j)
            /\ (forall m, json_loads body = inl m ->
                          startswith (strip body) "<?xml" = false ->
                          v = opaque_success body)
            /\ (forall m, json_loads body = inl m ->
                          startswith (strip body) "<?xml" = true ->
                          (forall root call_elem,
                              ET_fromstring body = inr root ->
                              find_child "Call" root = Some call_elem ->
                              exists call_data,
                                v = PDict [("Call", PDict call_data)]
                                /\ forall tag,
                                    Py.lookup tag call_data
                                    = option_map (fun c => Py.of_opt (text_of c))
                                        (last_tagged tag (children_of call_elem)))
                          /\ (forall root,
                                 ET_fromstring body = inr root ->
                                 find_child "Call" root = None ->
                                 v = PDict [("raw_xml", PStr body);
                                            ("parsed", PBool true)])
                          /\ (forall msg,
                                 ET_fromstring body = inl msg ->
                                 v = PDict [("raw_xml", PStr body);
                                            ("parse_error", PStr msg)]))
      end
  end.
Proof.
  intro U. rewrite (outbound_request_undecodable self endpoint data w U).
  destruct (utf8_decode bytes) as [msg | body]; [reflexivity |].
  destruct (json_loads_other body) as [e |]; [reflexivity |].
  exists (decode_response body).
  split; [reflexivity |]. unfold decode_response.
  refine (conj _ (conj _ _)).
  - intros j J. now rewrite J.
  - intros m J X. now rewrite J, X.
  - intros m J X. rewrite J, X. unfold _parse_xml_response.
    refine (conj _ (conj _ _)).
    + intros root call_elem E C. rewrite E, C.
      exists (call_data_of call_elem). split; [reflexivity |].
      intro tag. apply call_data_is_flat.
    + intros root E C. now rewrite E, C.
    + intros msg E. now rewrite E.
Qed.

Lemma reply_decoding_falls_back_witness :
  exists v,
    fst (@_make_exotel_request (Demo.replying Demo.call_xml) Demo.caller
           "Calls/connect" [("From", PStr "+1234567890")] world0)
    = Ret v
    /\ exists call_data,
        v = PDict [("Call", PDict call_data)]
        /\ Py.lookup "Sid" call_data = Some (PStr "c2")
        /\ Py.lookup "Uri" call_data = Some PNone
        /\ Py.lookup "From" call_data = None.
Proof.
  destruct (@reply_decoding_falls_back (Demo.replying Demo.call_xml) Demo.caller
              "Calls/connect" [("From", PStr "+1234567890")] world0
              Demo.call_xml eq_refl)
    as (v & R & _ & _ & X).
  exists v. split; [exact R |].
  destruct (X _ eq_refl eq_refl) as (with_call & _ & _).
  destruct (with_call Demo.call_tree
              (Element "Call" None
                 [Element "Sid" (Some "c1") [];
                  Element "Status" (Some "in-progress") [];
                  Element "Sid" (Some "c2") [];
                  Element "Uri" None []])
              eq_refl eq_refl)
    as (call_data & V & flat).
  exists call_data. split; [exact V |].
  refine (conj _ (conj _ _)); rewrite flat; reflexivity.
Defined.

End DecodingClaims.

(* ================================================================== *)
(** ** Exceptions that the steps catch *)

Section Catchable.
Import PyString.

Lemma catchable_Ret {A} (a : A) : catchable (Ret a).
Proof. intros e H. discriminate. Qed.

Lemma catchable_obind {A B} (o : outcome A) (k : A -> outcome B) :
  catchable o -> (forall a, catchable (k a)) -> catchable (obind o k).
Proof.
  intros Ho Hk e. destruct o as [a | e']; cbn [obind].
  - apply Hk.
  - intro H. inversion H; subst. now apply Ho.
Qed.

Lemma catchable_if {A} (b : bool) (o1 o2 : outcome A) :
  catchable o1 -> catchable o2 -> catchable (if b then o1 else o2).
Proof. now destruct b. Qed.

Lemma catchable_get_or v k d : catchable (Py.get_or v k d).
Proof. destruct v; intros e H; inversion H; reflexivity. Qed.

Lemma catchable_get v k : catchable (Py.get v k).
Proof. apply catchable_get_or. Qed.

Lemma catchable_item v k : catchable (Py.item v k).
Proof.
  destruct v; intros e H; cbn [Py.item Py.not_subscriptable] in H;
    try (inversion H; reflexivity).
  destruct (Py.lookup k items); inversion H; reflexivity.
Qed.

Lemma catchable_item0 v : catchable (Py.item0 v).
Proof.
  destruct v; intros e H; cbn [Py.item0 Py.not_subscriptable] in H;
    try (inversion H; reflexivity).
  - destruct (chars s); inversion H; reflexivity.
  - destruct l; inversion H; reflexivity.
Qed.

Lemma catchable_len v : catchable (Py.len v).
Proof. destruct v; intros e H; inversion H; reflexivity. Qed.

Lemma catchable_iter v : catchable (Py.iter v).
Proof. destruct v; intros e H; inversion H; reflexivity. Qed.

Lemma catchable_lower v : catchable (Py.lower v).
Proof. destruct v; intros e H; inversion H; reflexivity. Qed.

Lemma catchable_contains v s : catchable (Py.contains v s).
Proof. destruct v; intros e H; inversion H; reflexivity. Qed.

End Catchable.

Create HintDb catchable.

#[export] Hint Resolve catchable_Ret catchable_get_or catchable_get catchable_item
  catchable_item0 catchable_len catchable_iter catchable_lower catchable_contains
  : catchable.

(** Through the binds and branches of a pure computation. *)
Ltac catchable_steps :=
  repeat first
    [ solve [auto with catchable]
    | match goal with
      | |- catchable (obind _ _) => apply catchable_obind; [| intro]
      | |- catchable (if _ then _ else _) => apply catchable_if
      end ].

(** The exception of a run that raised is one that [except Exception]
    catches: rewrite the test. *)
Ltac caught_by L H :=
  match goal with
  | |- context [Py.is_Exception ?e] =>
      replace (Py.is_Exception e) with true by (symmetry; eapply L; exact H)
  end.

(* ================================================================== *)
(** ** vapi_exotel_integration.py: the steps never raise *)

Section Steps.
Context {P : Platform}.
Import PyString VapiExotelIntegrator.

Lemma parse_destination_catchable result sip t :
  catchable (parse_destination_response result sip t).
Proof. unfold parse_destination_response. catchable_steps. Qed.

Lemma parse_phone_catchable result p t :
  catchable (parse_phone_response result p t).
Proof. unfold parse_phone_response. catchable_steps. Qed.

Lemma parse_destination_step result sip t r :
  parse_destination_response result sip t = Ret r -> step_result r.
Proof.
  unfold parse_destination_response, obind. intro H.
  repeat (destruct_match; try discriminate);
    inversion H; subst; unfold step_result; cbn; eauto.
Qed.

Lemma parse_phone_step result p t r :
  parse_phone_response result p t = Ret r -> step_result r.
Proof.
  unfold parse_phone_response, obind. intro H.
  repeat (destruct_match; try discriminate);
    inversion H; subst; unfold step_result; cbn; eauto.
Qed.

Lemma make_request_raises self method endpoint payload :
  raises_only_exceptions (_make_request self method endpoint payload).
Proof.
  intros w e w'. destruct (has_credentials self) eqn:C.
  - destruct (urlopen (sent w) (request_for self method endpoint payload)) eqn:U.
    + rewrite (make_request_reply _ _ _ _ _ C U).
      destruct (json_loads body); intro H; inversion H; reflexivity.
    + rewrite (make_request_error _ _ _ _ _ C U).
      intro H; inversion H; reflexivity.
    + unfold _make_request. rewrite C. cbn [negb]. cbv zeta.
      unfold try_with, bind, send. rewrite U.
      intro H; inversion H; reflexivity.
  - rewrite (make_request_missing _ _ _ _ _ C).
    intro H; inversion H; reflexivity.
Qed.

Lemma failure_is_step_result (e : pyval) : step_result (failure e).
Proof. right. cbn. eauto. Qed.

Lemma add_vapi_destination_total self fqdn trunk w :
  exists r w1,
    add_vapi_destination self fqdn trunk w = (Ret r, w1) /\ step_result r.
Proof.
  unfold add_vapi_destination. rewrite try_on_Exception. unfold bind, lift, ret.
  destruct (_make_request _ _ _ _ w) as [[v | e] w1] eqn:R.
  - destruct (parse_destination_response _ _ _) as [r | e] eqn:Q.
    + exists r, w1. split; [reflexivity | eapply parse_destination_step; exact Q].
    + caught_by parse_destination_catchable Q.
      eexists _, _. split; [reflexivity | apply failure_is_step_result].
  - caught_by make_request_raises R.
    eexists _, _. split; [reflexivity | apply failure_is_step_result].
Qed.

Lemma map_phone_number_total self phone trunk w :
  exists r w1,
    map_phone_number self phone trunk w = (Ret r, w1) /\ step_result r.
Proof.
  unfold map_phone_number. rewrite try_on_Exception. unfold bind, lift, ret.
  destruct (_make_request _ _ _ _ w) as [[v | e] w1] eqn:R.
  - destruct (parse_phone_response _ _ _) as [r | e] eqn:Q.
    + exists r, w1. split; [reflexivity | eapply parse_phone_step; exact Q].
    + caught_by parse_phone_catchable Q.
      eexists _, _. split; [reflexivity | apply failure_is_step_result].
  - caught_by make_request_raises R.
    eexists _, _. split; [reflexivity | apply failure_is_step_result].
Qed.

Lemma map_phone_number_sends self phone trunk w :
  has_credentials self = true ->
  snd (map_phone_number self phone trunk w)
  = after_send w (mapping_request self phone trunk).
Proof.
  intro H.
  assert (W : snd (_make_request self "POST"
                     ("/trunks/" ++ Py.or_else trunk (default_trunk self)
                      ++ "/phone-numbers")
                     (Some (PDict [("phone_number", PStr phone)])) w)
              = after_send w (mapping_request self phone trunk)).
  { unfold _make_request, mapping_request.
    rewrite H. cbn [negb]. unfold try_with, bind, send, loads.
    destruct (urlopen _ _); [destruct (json_loads body) | |]; reflexivity. }
  unfold map_phone_number.
  rewrite try_on_Exception. unfold bind, lift, ret.
  destruct (_make_request _ _ _ _ w) as [[v | e] w1]; cbn [snd] in *.
  - destruct (parse_phone_response _ _ _) as [r | e];
      [| destruct (Py.is_Exception e)]; exact W.
  - destruct (Py.is_Exception e); exact W.
Qed.

Lemma configure_after_failed_mapping self fqdn phone trunk w
      dest_result ok1 w1 phone_result ok2 err w2 :
  add_vapi_destination self fqdn trunk w = (Ret dest_result, w1) ->
  Py.item dest_result "success" = Ret ok1 ->
  Py.truthy ok1 = true ->
  map_phone_number self phone trunk w1 = (Ret phone_result, w2) ->
  Py.item phone_result "success" = Ret ok2 ->
  Py.truthy ok2 = false ->
  Py.item phone_result "error" = Ret err ->
  configure_vapi_integration self fqdn phone trunk w
  = (Ret (PDict [("vapi_fqdn", PStr fqdn);
                 ("phone_number", PStr phone);
                 ("converted_fqdn", PStr (convert_vapi_fqdn fqdn));
                 ("trunk_sid", PStr (Py.or_else trunk (default_trunk self)));
                 ("steps", PDict [("destination", dest_result);
                                  ("phone_mapping", phone_result)]);
                 ("success", PBool false);
                 ("error", PStr ("Failed to map phone number: " ++ Py.str err))]),
     w2).
Proof.
  intros A S1 T1 M S2 T2 E.
  unfold configure_vapi_integration, bind. rewrite A.
  unfold lift at 1. cbn [set_step Py.lookup String.eqb Ascii.eqb Bool.eqb].
  unfold lift at 1. rewrite S1, T1. cbn [negb]. rewrite M.
  unfold lift. rewrite S2, T2. cbn [negb]. rewrite E.
  reflexivity.
Qed.

(** The three ways [configure_vapi_integration] ends. *)
Lemma configure_cases self fqdn phone trunk w :
  exists results w',
    configure_vapi_integration self fqdn phone trunk w = (Ret (PDict results), w')
    /\ Py.lookup "vapi_fqdn" results = Some (PStr fqdn)
    /\ Py.lookup "phone_number" results = Some (PStr phone)
    /\ Py.lookup "converted_fqdn" results = Some (PStr (convert_vapi_fqdn fqdn))
    /\ Py.lookup "trunk_sid" results
       = Some (PStr (Py.or_else trunk (default_trunk self)))
    /\ ((Py.lookup "success" results = Some (PBool true)
         /\ w' = snd (map_phone_number self phone trunk
                        (snd (add_vapi_destination self fqdn trunk w))))
        \/ (Py.lookup "success" results = Some (PBool false)
            /\ (exists msg, Py.lookup "error" results = Some (PStr msg))
            /\ (w' = snd (add_vapi_destination self fqdn trunk w)
                \/ w' = snd (map_phone_number self phone trunk
                               (snd (add_vapi_destination self fqdn trunk w)))))).
Proof.
  destruct (add_vapi_destination_total self fqdn trunk w)
    as (d & w1 & A & [S1 | [S1 [e1 E1]]]); rewrite A; cbn [snd].
  - destruct (map_phone_number_total self phone trunk w1)
      as (p & w2 & M & [S2 | [S2 [e2 E2]]]); rewrite M; cbn [snd].
    + rewrite (configure_after_both_steps _ _ _ _ _ A S1 eq_refl M S2 eq_refl).
      eexists _, _. split; [reflexivity |].
      refine (conj eq_refl (conj eq_refl (conj eq_refl (conj eq_refl _)))).
      left. split; reflexivity.
    + rewrite (configure_after_failed_mapping _ _ _ _ _ A S1 eq_refl M S2 eq_refl E2).
      eexists _, _. split; [reflexivity |].
      refine (conj eq_refl (conj eq_refl (conj eq_refl (conj eq_refl _)))).
      right. cbn. eauto 6.
  - rewrite (configure_after_failed_attach _ _ phone _ _ A S1 eq_refl E1).
    eexists _, _. split; [reflexivity |].
    refine (conj eq_refl (conj eq_refl (conj eq_refl (conj eq_refl _)))).
    right. cbn. eauto 6.
Qed.

(** X1: [configure_vapi_integration] never raises.  Whatever the provider
    answers, it returns a dictionary that echoes the two inputs and whose
    [success] is [True], or [False] together with an [error] text. *)
Theorem configure_never_raises self fqdn phone trunk w :
  exists results,
    fst (configure_vapi_integration self fqdn phone trunk w) = Ret (PDict results)
    /\ Py.lookup "vapi_fqdn" results = Some (PStr fqdn)
    /\ Py.lookup "phone_number" results = Some (PStr phone)
    /\ (Py.lookup "success" results = Some (PBool true)
        \/ (Py.lookup "success" results = Some (PBool false)
            /\ exists msg, Py.lookup "error" results = Some (PStr msg))).
Proof.
  destruct (configure_cases self fqdn phone trunk w)
    as (results & w' & C & F & N & _ & _ & [[S _] | [S [E _]]]);
    exists results; rewrite C; auto 6.
Qed.

(** X2: [configure_vapi_integration] prints nothing and sends at most two
    requests, the attach request and then the mapping request; without
    credentials it sends none, and it reports success only after it has
    sent both. *)
Theorem configure_requests_in_order self fqdn phone trunk w :
  let run := configure_vapi_integration self fqdn phone trunk w in
  stdout (snd run) = stdout w
  /\ (sent (snd run) = sent w
      \/ sent (snd run) = (sent w ++ [attach_request self fqdn trunk])%list
      \/ sent (snd run)
         = (sent w ++ [attach_request self fqdn trunk;
                       mapping_request self phone trunk])%list)
  /\ (has_credentials self = false -> sent (snd run) = sent w)
  /\ (forall results,
         fst run = Ret (PDict results) ->
         Py.lookup "success" results = Some (PBool true) ->
         sent (snd run)
         = (sent w ++ [attach_request self fqdn trunk;
                       mapping_request self phone trunk])%list).
Proof.
  cbv zeta.
  destruct (configure_cases self fqdn phone trunk w)
    as (results & w' & C & _ & _ & _ & _ & W).
  rewrite C. cbn [fst snd].
  destruct (has_credentials self) eqn:H.
  - rewrite (add_vapi_destination_sends self fqdn trunk w H) in W.
    rewrite (map_phone_number_sends self phone trunk _ H) in W.
    assert (Both : sent (after_send (after_send w (attach_request self fqdn trunk))
                           (mapping_request self phone trunk))
                   = (sent w ++ [attach_request self fqdn trunk;
                                 mapping_request self phone trunk])%list).
    { cbn [sent after_send]. now rewrite <- app_assoc. }
    destruct W as [[S W] | [S [_ [W | W]]]]; subst w'.
    + split; [reflexivity |]. split; [now right; right |].
      split; [discriminate | intros; exact Both].
    + split; [reflexivity |]. split; [now right; left |].
      split; [discriminate |].
      intros r R T. inversion R; subst. congruence.
    + split; [reflexivity |]. split; [now right; right |].
      split; [discriminate | intros; exact Both].
  - pose proof (add_vapi_destination_missing self fqdn trunk w H) as A.
    rewrite (configure_after_failed_attach _ _ phone _ _ A eq_refl eq_refl eq_refl) in C.
    inversion C; subst.
    split; [reflexivity |]. split; [now left |].
    split; [reflexivity | intros r R T; inversion R; subst; discriminate].
Qed.

End Steps.

(* ================================================================== *)
(** ** vapi_exotel_integration.py: how the steps read a reply *)

Section Replies.
Context {P : Platform}.
Import PyString VapiExotelIntegrator.

Lemma eq_str_false (v : pyval) (s : string) :
  v <> PStr s -> Py.eq_str v s = false.
Proof.
  destruct v; try reflexivity. intro N. cbn [Py.eq_str].
  destruct (String.eqb s0 s) eqn:E; [| reflexivity].
  apply String.eqb_eq in E. subst. now elim N.
Qed.

Lemma add_vapi_destination_reply self fqdn trunk w body result :
  has_credentials self = true ->
  urlopen (sent w) (attach_request self fqdn trunk) = Reply2xx body ->
  json_loads body = inr result ->
  fst (add_vapi_destination self fqdn trunk w)
  = match parse_destination_response result
            (sip_destination_of (convert_vapi_fqdn fqdn))
            (Py.or_else trunk (default_trunk self)) with
    | Ret r => Ret r
    | Raise e => Ret (failure (PStr (Py.exn_str e)))
    end.
Proof.
  intros H U J. unfold attach_request in U.
  unfold add_vapi_destination. rewrite try_on_Exception. unfold bind, lift, ret.
  rewrite (make_request_reply _ _ _ _ _ H U), J.
  destruct (parse_destination_response _ _ _) as [r | e] eqn:Q; [reflexivity |].
  caught_by parse_destination_catchable Q. reflexivity.
Qed.

Lemma map_phone_number_reply self phone trunk w body result :
  has_credentials self = true ->
  urlopen (sent w) (mapping_request self phone trunk) = Reply2xx body ->
  json_loads body = inr result ->
  fst (map_phone_number self phone trunk w)
  = match parse_phone_response result phone
            (Py.or_else trunk (default_trunk self)) with
    | Ret r => Ret r
    | Raise e => Ret (failure (PStr (Py.exn_str e)))
    end.
Proof.
  intros H U J. unfold mapping_request in U.
  unfold map_phone_number. rewrite try_on_Exception. unfold bind, lift, ret.
  rewrite (make_request_reply _ _ _ _ _ H U), J.
  destruct (parse_phone_response _ _ _) as [r | e] eqn:Q; [reflexivity |].
  caught_by parse_phone_catchable Q. reflexivity.
Qed.

(** X3: a duplicate that the provider reports in a decoded 2xx reply is a
    success.  For the attach step: the first item of the [response] list is
    no success and the text of its [error_data] holds [Duplicate resource];
    the result then names the SIP destination.  For the mapping step: the
    text of the [response] dictionary holds [Duplicate resource]. *)
Theorem duplicate_in_reply_is_success self w body d :
  has_credentials self = true ->
  json_loads body = inr (PDict d) ->
  (forall fqdn trunk item rest,
      urlopen (sent w) (attach_request self fqdn trunk) = Reply2xx body ->
      Py.lookup "response" d = Some (PList (PDict item :: rest)) ->
      Py.lookup "status" item <> Some (PStr "success") ->
      str_in "Duplicate resource"
             (Py.str match Py.lookup "error_data" item with
                     | Some error_data => error_data
                     | None => PDict []
                     end) = true ->
      fst (add_vapi_destination self fqdn trunk w)
      = Ret (PDict [("success", PBool true);
                    ("message", PStr "Destination already exists");
                    ("destination",
                     PStr (convert_vapi_fqdn fqdn ++ ":5060;transport=tcp"));
                    ("trunk_sid", PStr (Py.or_else trunk (default_trunk self)))]))
  /\ (forall phone trunk response,
         urlopen (sent w) (mapping_request self phone trunk) = Reply2xx body ->
         Py.lookup "response" d = Some (PDict response) ->
         str_in "Duplicate resource" (Py.str (PDict response)) = true ->
         fst (map_phone_number self phone trunk w)
         = Ret (PDict [("success", PBool true);
                       ("phone_number", PStr phone);
                       ("trunk_sid", PStr (Py.or_else trunk (default_trunk self)));
                       ("message", PStr "Phone number mapped successfully")])).
Proof.
  intros H J. split.
  - intros fqdn trunk item rest U R S D.
    rewrite (add_vapi_destination_reply self fqdn trunk w H U J).
    unfold parse_destination_response.
    cbn [Py.get Py.get_or Py.item obind]. rewrite R.
    cbn [Py.truthy Py.len obind List.length Nat.ltb Nat.leb Py.item0
         Py.get Py.get_or].
    rewrite eq_str_false.
    + cbn [obind]. rewrite D. reflexivity.
    + destruct (Py.lookup "status" item) as [v |]; [| discriminate].
      intro E. apply S. now rewrite E.
  - intros phone trunk response U R D.
    rewrite (map_phone_number_reply self phone trunk w H U J).
    unfold parse_phone_response.
    cbn [Py.get Py.get_or Py.item obind]. rewrite R.
    destruct response as [| kv response]; [discriminate |].
    cbn [Py.truthy obind Py.get Py.get_or]. rewrite D, orb_true_r. reflexivity.
Qed.

(** X4: a 2xx reply whose body is not JSON fails the step, with the
    decoder's message as the error, although the provider accepted the
    request. *)
Theorem undecodable_reply_fails_the_step self w body msg :
  has_credentials self = true ->
  json_loads body = inl msg ->
  (forall fqdn trunk,
      urlopen (sent w) (attach_request self fqdn trunk) = Reply2xx body ->
      fst (add_vapi_destination self fqdn trunk w) = Ret (failure (PStr msg)))
  /\ (forall phone trunk,
         urlopen (sent w) (mapping_request self phone trunk) = Reply2xx body ->
         fst (map_phone_number self phone trunk w) = Ret (failure (PStr msg))).
Proof.
  intros H J. split.
  - intros fqdn trunk U. unfold attach_request in U.
    unfold add_vapi_destination. rewrite try_on_Exception. unfold bind.
    now rewrite (make_request_reply _ _ _ _ _ H U), J.
  - intros phone trunk U. unfold mapping_request in U.
    unfold map_phone_number. rewrite try_on_Exception. unfold bind.
    now rewrite (make_request_reply _ _ _ _ _ H U), J.
Qed.

(** X5: an attach reply whose first item reports success and has no [data]
    fails the step: the [KeyError] is caught and the error text is the
    quoted key. *)
Theorem success_without_data_fails self fqdn trunk w body d item rest :
  has_credentials self = true ->
  urlopen (sent w) (attach_request self fqdn trunk) = Reply2xx body ->
  json_loads body = inr (PDict d) ->
  Py.lookup "response" d = Some (PList (PDict item :: rest)) ->
  Py.lookup "status" item = Some (PStr "success") ->
  Py.lookup "data" item = None ->
  fst (add_vapi_destination self fqdn trunk w) = Ret (failure (PStr "'data'")).
Proof.
  intros H U J R S D.
  rewrite (add_vapi_destination_reply self fqdn trunk w H U J).
  unfold parse_destination_response.
  cbn [Py.get Py.get_or Py.item obind]. rewrite R.
  cbn [Py.truthy Py.len obind List.length Nat.ltb Nat.leb Py.item0
       Py.get Py.get_or Py.item].
  rewrite S. cbn [Py.eq_str String.eqb Ascii.eqb Bool.eqb obind].
  rewrite D. reflexivity.
Qed.

End Replies.

Section ReplyWitnesses.
Import PyString VapiExotelIntegrator.

Lemma duplicate_in_reply_is_success_witness :
  fst (@add_vapi_destination (Fixtures.answering Fixtures.duplicate_item)
         Demo.integrator "mybot@sip.vapi.ai" None world0)
  = Ret (PDict [("success", PBool true);
                ("message", PStr "Destination already exists");
                ("destination", PStr "mybot.sip.vapi.ai:5060;transport=tcp");
                ("trunk_sid", PStr "trmum1")])
  /\ fst (@map_phone_number (Fixtures.answering Demo.duplicate_resource)
            Demo.integrator "+1234567890" None world0)
     = Ret (PDict [("success", PBool true);
                   ("phone_number", PStr "+1234567890");
                   ("trunk_sid", PStr "trmum1");
                   ("message", PStr "Phone number mapped successfully")]).
Proof.
  split.
  - refine (proj1 (@duplicate_in_reply_is_success
                     (Fixtures.answering Fixtures.duplicate_item)
                     Demo.integrator world0
                     (Demo.dumps Fixtures.duplicate_item) _ eq_refl eq_refl)
              "mybot@sip.vapi.ai" None _ _ eq_refl eq_refl _ eq_refl).
    discriminate.
  - exact (proj2 (@duplicate_in_reply_is_success
                    (Fixtures.answering Demo.duplicate_resource)
                    Demo.integrator world0
                    (Demo.dumps Demo.duplicate_resource) _ eq_refl eq_refl)
             "+1234567890" None _ eq_refl eq_refl eq_refl).
Defined.

Lemma undecodable_reply_fails_the_step_witness :
  fst (@add_vapi_destination Fixtures.silent Demo.integrator
         "mybot@sip.vapi.ai" None world0)
  = Ret (failure (PStr "Expecting value: line 1 column 1 (char 0)"))
  /\ fst (@map_phone_number Fixtures.silent Demo.integrator
            "+1234567890" None world0)
     = Ret (failure (PStr "Expecting value: line 1 column 1 (char 0)")).
Proof.
  destruct (@undecodable_reply_fails_the_step Fixtures.silent Demo.integrator
              world0 "" _ eq_refl eq_refl) as [A M].
  split.
  - exact (A "mybot@sip.vapi.ai" None eq_refl).
  - exact (M "+1234567890" None eq_refl).
Defined.

Lemma success_without_data_fails_witness :
  fst (@add_vapi_destination (Fixtures.answering Fixtures.success_without_data)
         Demo.integrator "mybot@sip.vapi.ai" None world0)
  = Ret (failure (PStr "'data'")).
Proof.
  exact (@success_without_data_fails
           (Fixtures.answering Fixtures.success_without_data)
           Demo.integrator "mybot@sip.vapi.ai" None world0
           (Demo.dumps Fixtures.success_without_data) _ _ _
           eq_refl eq_refl eq_refl eq_refl eq_refl eq_refl).
Defined.

End ReplyWitnesses.

(* ================================================================== *)
(** ** The command lines of vapi_exotel_integration.py and of the example,
    and [post] of _client.py *)

Section CommandLines.
Context {P : Platform}.
Import PyString.

Lemma item_of_lookup (d : list (string * pyval)) (k : string) (v : pyval) :
  Py.lookup k d = Some v -> Py.item (PDict d) k = Ret v.
Proof. intro H. cbn [Py.item]. now rewrite H. Qed.

Lemma get_of_lookup (d : list (string * pyval)) (k : string) (v : pyval) :
  Py.lookup k d = Some v -> Py.get (PDict d) k = Ret v.
Proof. intro H. cbn [Py.get Py.get_or]. now rewrite H. Qed.

(** X6: [main] of vapi_exotel_integration.py ends with status 0 when the
    aggregate result is a success and with status 1 otherwise; no exception
    escapes it. *)
Theorem main_exit_status environ fqdn phone trunk w :
  exists w1 results,
    sent w1 = sent w
    /\ fst (VapiExotelIntegrator.configure_vapi_integration
              (VapiExotelIntegrator._load_config environ) fqdn phone trunk w1)
       = Ret (PDict results)
    /\ fst (VapiExotelIntegrator.main environ fqdn phone trunk w)
       = match Py.lookup "success" results with
         | Some (PBool true) => Ret tt
         | _ => Raise (ExSystemExit 1)
         end
    /\ (exit_status (fst (VapiExotelIntegrator.main environ fqdn phone trunk w)) = 0%Z
        \/ exit_status (fst (VapiExotelIntegrator.main environ fqdn phone trunk w))
           = 1%Z).
Proof.
  unfold VapiExotelIntegrator.main, VapiExotelIntegrator.init.
  rewrite try_on_Exception. unfold bind, print. cbn [sent stdout].
  match goal with
  | |- context [VapiExotelIntegrator.configure_vapi_integration _ _ _ _ ?w1] =>
      exists w1;
      destruct (configure_cases (VapiExotelIntegrator._load_config environ)
                  fqdn phone trunk w1)
        as (results & w' & C & _ & _ & F & T & [[S _] | [S [[msg E] _]]])
  end; exists results; rewrite C; cbn [fst snd]; unfold lift;
    rewrite (item_of_lookup _ _ S), S; cbn [Py.truthy].
  - rewrite (item_of_lookup _ _ F), (item_of_lookup _ _ T).
    cbn [fst exit_status]. auto.
  - cbn [Py.get_or]. rewrite E.
    cbn [fst exit_status Py.is_Exception]. auto.
Qed.

(** X7: the example never ends with a failure status: whatever the
    environment and the provider, its [main] returns normally, so the
    interpreter exits with status 0, also when the integration failed. *)
Theorem example_always_exits_zero environ w :
  fst (ExampleUsage.main environ w) = Ret tt
  /\ exit_status (fst (ExampleUsage.main environ w)) = 0%Z.
Proof.
  assert (R : fst (ExampleUsage.main environ w) = Ret tt).
  { unfold ExampleUsage.main, VapiExotelIntegrator.init.
    unfold bind at 1 2 3 4 5 6, print at 1 2 3 4 5 6. cbn [sent stdout].
    rewrite try_on_Exception. unfold bind, print. cbn [sent stdout].
    match goal with
    | |- context [VapiExotelIntegrator.configure_vapi_integration ?c ?f ?p ?t ?w1] =>
        destruct (configure_cases c f p t w1)
          as (results & w' & C & _ & _ & F & T & [[S _] | [S [[msg E] _]]])
    end; rewrite C; cbn [fst snd]; unfold lift;
      rewrite (item_of_lookup _ _ S); cbn [Py.truthy].
    - now rewrite (item_of_lookup _ _ F), (item_of_lookup _ _ T).
    - now rewrite (get_of_lookup _ _ E). }
  now rewrite R.
Qed.


End CommandLines.

Section CommandLineWitnesses.
Import PyString.


End CommandLineWitnesses.

(* ================================================================== *)
(** ** Reasoning about runs *)

Section Runs.

Lemma keeps_ret {A} (a : A) : keeps_sent (ret a).
Proof. intro w. reflexivity. Qed.

Lemma keeps_raise {A} (e : pyexn) : keeps_sent (raise (A := A) e).
Proof. intro w. reflexivity. Qed.

Lemma keeps_sys_exit {A} (status : Z) : keeps_sent (sys_exit (A := A) status).
Proof. intro w. reflexivity. Qed.

Lemma keeps_lift {A} (o : outcome A) : keeps_sent (lift o).
Proof. intro w. reflexivity. Qed.

Lemma keeps_print (line : string) : keeps_sent (print line).
Proof. intro w. reflexivity. Qed.

Lemma keeps_bind {A B} (m : M A) (k : A -> M B) :
  keeps_sent m -> (forall a, keeps_sent (k a)) -> keeps_sent (bind m k).
Proof.
  intros Hm Hk w. unfold bind. specialize (Hm w).
  destruct (m w) as [[a | e] w1]; cbn [snd] in *.
  - now rewrite Hk.
  - exact Hm.
Qed.

Lemma keeps_try {A} (m : M A) (h : pyexn -> M A) :
  keeps_sent m -> (forall e, keeps_sent (h e)) ->
  keeps_sent (try_with m (on_Exception h)).
Proof.
  intros Hm Hh w. unfold try_with, on_Exception. specialize (Hm w).
  destruct (m w) as [[a | e] w1]; cbn [snd] in *; [exact Hm |].
  destruct (Py.is_Exception e); cbn [snd]; [now rewrite Hh | exact Hm].
Qed.

(** After a [try] whose body sends only in its first call, what has been
    sent is what that call sent. *)
Lemma sent_try_after {A B} (m : M A) (k : A -> M B) (h : pyexn -> M B) w :
  (forall a, keeps_sent (k a)) -> (forall e, keeps_sent (h e)) ->
  sent (snd (try_with (bind m k) (on_Exception h) w)) = sent (snd (m w)).
Proof.
  intros Hk Hh. rewrite try_on_Exception. unfold bind.
  destruct (m w) as [[a | e] w1]; cbn [snd].
  - specialize (Hk a w1). destruct (k a w1) as [[b | e] w2]; cbn [snd] in *.
    + exact Hk.
    + destruct (Py.is_Exception e); cbn [snd]; [now rewrite Hh | exact Hk].
  - destruct (Py.is_Exception e); cbn [snd]; [now rewrite Hh | reflexivity].
Qed.

Lemma roe_ret {A} (a : A) : raises_only_exceptions (ret a).
Proof. intros w e w' H. discriminate. Qed.

Lemma roe_print (line : string) : raises_only_exceptions (print line).
Proof. intros w e w' H. discriminate. Qed.

Lemma roe_lift {A} (o : outcome A) :
  catchable o -> raises_only_exceptions (lift o).
Proof. intros C w e w' H. inversion H. now apply C. Qed.

Lemma roe_raise {A} (e : pyexn) :
  Py.is_Exception e = true -> raises_only_exceptions (raise (A := A) e).
Proof. intros C w e' w' H. inversion H. now subst. Qed.

Lemma roe_bind {A B} (m : M A) (k : A -> M B) :
  raises_only_exceptions m -> (forall a, raises_only_exceptions (k a)) ->
  raises_only_exceptions (bind m k).
Proof.
  intros Hm Hk w e w'. unfold bind.
  destruct (m w) as [[a | e1] w1] eqn:R.
  - apply Hk.
  - intro H. inversion H; subst. eapply Hm. exact R.
Qed.

Lemma roe_returns {A} (m : M A) : returns m -> raises_only_exceptions m.
Proof.
  intros T w e w' H. destruct (T w) as (a & w1 & R). rewrite R in H. discriminate.
Qed.

Lemma returns_ret {A} (a : A) : returns (ret a).
Proof. intro w. now exists a, w. Qed.

Lemma returns_print (line : string) : returns (print line).
Proof. intro w. eexists _, _. reflexivity. Qed.

Lemma returns_bind {A B} (m : M A) (k : A -> M B) :
  returns m -> (forall a, returns (k a)) -> returns (bind m k).
Proof.
  intros Hm Hk w. unfold bind. destruct (Hm w) as (a & w1 & R). rewrite R.
  apply Hk.
Qed.

(** A [try] with [except Exception] around a computation that raises only
    exceptions returns when its handler does. *)
Lemma returns_try {A} (m : M A) (h : pyexn -> M A) :
  raises_only_exceptions m -> (forall e, returns (h e)) ->
  returns (try_with m (on_Exception h)).
Proof.
  intros Hm Hh w. rewrite try_on_Exception.
  destruct (m w) as [[a | e] w1] eqn:R.
  - now exists a, w1.
  - rewrite (Hm _ _ _ R). apply Hh.
Qed.

Lemma print_printed (line : string) (w : world) :
  print line w = (Ret tt, printed w [line]).
Proof. reflexivity. Qed.

Lemma printed_printed (w : world) (a b : list string) :
  printed (printed w a) b = printed w (a ++ b).
Proof. unfold printed. cbn [sent stdout]. now rewrite app_assoc. Qed.

End Runs.

Create HintDb keeps.
Create HintDb runs.

#[export] Hint Resolve keeps_ret keeps_raise keeps_sys_exit keeps_lift keeps_print
  : keeps.
#[export] Hint Resolve roe_ret roe_print returns_ret returns_print : runs.

(** Through the binds and branches of a computation that sends nothing. *)
Ltac keeps_steps :=
  repeat first
    [ solve [auto with keeps]
    | match goal with
      | |- keeps_sent (bind _ _) => apply keeps_bind; [| intro]
      | |- keeps_sent (try_with _ _) => apply keeps_try; [| intro]
      | |- keeps_sent (if ?b then _ else _) => destruct b
      | |- keeps_sent (match ?x with _ => _ end) => destruct x
      end ].

(** Through the binds and branches of a computation that raises nothing but
    exceptions. *)
Ltac roe_steps :=
  repeat first
    [ solve [auto with runs]
    | match goal with
      | |- raises_only_exceptions (bind _ _) => apply roe_bind; [| intro]
      | |- raises_only_exceptions (lift _) => apply roe_lift; catchable_steps
      | |- raises_only_exceptions (if ?b then _ else _) => destruct b
      | |- raises_only_exceptions (match ?x with _ => _ end) => destruct x
      end ].

(* ================================================================== *)
(** ** production_integration_script.py: validation and trunk resolution *)

Section ProductionRuns.
Context {P : Platform}.
Import PyString VapiExotelProductionIntegrator.

Lemma note_missing_filter (v : option string) (n : string)
      (l : list (option string * string)) :
  ProductionScript.note_missing v n
    (map snd (filter (fun p => negb (Py.truthy_opt (fst p))) l))
  = map snd (filter (fun p => negb (Py.truthy_opt (fst p))) (l ++ [(v, n)])).
Proof.
  rewrite filter_app, map_app. unfold ProductionScript.note_missing.
  cbn [filter fst snd map]. destruct (Py.truthy_opt v); cbn [negb map].
  - now rewrite app_nil_r.
  - reflexivity.
Qed.

Lemma missing_variables_filter (self : ProductionScript.integrator) :
  ProductionScript.missing_variables self
  = map snd
      (filter (fun p => negb (Py.truthy_opt (fst p)))
         [(auth_key (exotel (ProductionScript.settings self)), "EXO_AUTH_KEY");
          (auth_token (exotel (ProductionScript.settings self)), "EXO_AUTH_TOKEN");
          (account_sid (exotel (ProductionScript.settings self)), "EXO_ACCOUNT_SID");
          (ProductionScript.private_key self, "VAPI_PRIVATE_KEY");
          (ProductionScript.assistant_id self, "VAPI_ASSISTANT_ID");
          (phone_number (integration (ProductionScript.settings self)),
           "PHONE_NUMBER");
          (vapi_fqdn (integration (ProductionScript.settings self)), "VAPI_FQDN")]).
Proof.
  unfold ProductionScript.missing_variables. cbv zeta.
  change (@nil string)
    with (map snd (filter (fun p : option string * string =>
                             negb (Py.truthy_opt (fst p))) [])) at 1.
  rewrite !note_missing_filter. reflexivity.
Qed.

Lemma match_missing {A} (l : list (option string * string)) (a : A)
      (b : list string -> A) :
  match map snd (filter (fun p => negb (Py.truthy_opt (fst p))) l) with
  | _ :: _ => b (map snd (filter (fun p => negb (Py.truthy_opt (fst p))) l))
  | [] => a
  end
  = if forallb (fun p => Py.truthy_opt (fst p)) l then a
    else b (map snd (filter (fun p => negb (Py.truthy_opt (fst p))) l)).
Proof.
  induction l as [| [v n] l IH]; [reflexivity |].
  cbn [filter forallb fst]. destruct (Py.truthy_opt v); cbn [negb andb].
  - exact IH.
  - reflexivity.
Qed.

(** X9: [validate_configuration] returns [True] exactly when the seven
    required values are all present and not blank; otherwise it prints the
    names of exactly the missing ones, in the order of the checks, and
    returns [False].  It sends nothing. *)
Theorem validation_names_what_is_missing (self : ProductionScript.integrator) w :
  let required :=
    [(auth_key (exotel (ProductionScript.settings self)), "EXO_AUTH_KEY");
     (auth_token (exotel (ProductionScript.settings self)), "EXO_AUTH_TOKEN");
     (account_sid (exotel (ProductionScript.settings self)), "EXO_ACCOUNT_SID");
     (ProductionScript.private_key self, "VAPI_PRIVATE_KEY");
     (ProductionScript.assistant_id self, "VAPI_ASSISTANT_ID");
     (phone_number (integration (ProductionScript.settings self)), "PHONE_NUMBER");
     (vapi_fqdn (integration (ProductionScript.settings self)), "VAPI_FQDN")] in
  let missing := map snd (filter (fun p => negb (Py.truthy_opt (fst p))) required) in
  ProductionScript.validate_configuration self w
  = (if forallb (fun p => Py.truthy_opt (fst p)) required
     then (Ret true, w)
     else (Ret false,
           printed w ["❌ Missing required environment variables: "
                        ++ join ", " missing])).
Proof.
  cbv zeta. unfold ProductionScript.validate_configuration.
  rewrite missing_variables_filter.
  rewrite (match_missing _ (ret true)
             (fun missing =>
                print ("❌ Missing required environment variables: "
                       ++ join ", " missing) ;;; ret false)).
  now destruct (forallb _ _).
Qed.

Lemma production_request_raises self method endpoint payload :
  raises_only_exceptions (make_exotel_request self method endpoint payload).
Proof.
  intros w e w'. unfold make_exotel_request.
  destruct (base_url (exotel self)) as [b |] eqn:B.
  - unfold bind at 1, ret at 1.
    unfold try_with, bind, send, loads, on_HTTPError, ret, raise.
    destruct (urlopen _ _); [destruct (json_loads body) | |];
      intro H; inversion H; reflexivity.
  - unfold bind, raise. intro H; inversion H; reflexivity.
Qed.

Lemma production_request_world self method endpoint payload w :
  snd (make_exotel_request self method endpoint payload w)
  = match base_url (exotel self) with
    | Some b => after_send w (request_for self method (b ++ endpoint) payload)
    | None => w
    end.
Proof.
  unfold make_exotel_request.
  destruct (base_url (exotel self)) as [b |]; [| reflexivity].
  unfold bind at 1, ret at 1.
  unfold try_with, bind, send, loads, on_HTTPError, ret, raise.
  destruct (urlopen _ _); [destruct (json_loads body) | |]; reflexivity.
Qed.

Lemma find_active_keeps (items : list pyval) : keeps_sent (find_active items).
Proof.
  induction items as [| item items IH]; cbn [find_active]; [auto with keeps |].
  keeps_steps; exact IH.
Qed.

Lemma find_active_raises (items : list pyval) :
  raises_only_exceptions (find_active items).
Proof.
  induction items as [| item items IH]; cbn [find_active]; [auto with runs |].
  roe_steps; exact IH.
Qed.

Lemma get_active_trunk_world self w :
  sent (snd (get_active_trunk self w))
  = match base_url (exotel self) with
    | Some b => (sent w ++ [request_for self "GET" (b ++ "/trunks") None])%list
    | None => sent w
    end.
Proof.
  unfold get_active_trunk. unfold bind at 1, print at 1.
  rewrite sent_try_after.
  - rewrite production_request_world. now destruct (base_url (exotel self)).
  - intro result. keeps_steps. apply find_active_keeps.
  - intro e. keeps_steps.
Qed.

#[local] Hint Resolve production_request_raises find_active_raises : runs.
#[local] Hint Resolve find_active_keeps : keeps.

Lemma get_active_trunk_returns self : returns (get_active_trunk self).
Proof.
  unfold get_active_trunk.
  apply returns_bind; [auto with runs | intros _].
  apply returns_try.
  - roe_steps.
  - intro e. apply returns_bind; auto with runs.
Qed.

(** X10: [get_active_trunk] never raises: whatever the provider answers it
    returns a trunk identifier or [None].  It sends the listing request and
    nothing else; without a base URL it sends nothing and returns [None]. *)
Theorem get_active_trunk_never_raises self w :
  (exists trunk_sid, fst (get_active_trunk self w) = Ret trunk_sid)
  /\ sent (snd (get_active_trunk self w))
     = match base_url (exotel self) with
       | Some b => (sent w ++ [request_for self "GET" (b ++ "/trunks") None])%list
       | None => sent w
       end
  /\ (base_url (exotel self) = None -> fst (get_active_trunk self w) = Ret PNone).
Proof.
  refine (conj _ (conj _ _)).
  - destruct (get_active_trunk_returns self w) as (v & w' & R).
    exists v. now rewrite R.
  - apply get_active_trunk_world.
  - intro B. unfold get_active_trunk. unfold bind at 1, print at 1.
    rewrite try_on_Exception. unfold bind at 1.
    unfold make_exotel_request. rewrite B. reflexivity.
Qed.

End ProductionRuns.

Section ProductionReplies.
Context {P : Platform}.
Import PyString VapiExotelProductionIntegrator.

Lemma find_active_malformed item rest data status w :
  Py.lookup "status" item = Some (PStr "success") ->
  Py.lookup "data" item = Some (PDict data) ->
  Py.lookup "status" data = Some status ->
  (forall s, status <> PStr s) ->
  find_active (PDict item :: rest) w
  = (Raise (ExAttributeError (Py.type_name status) "lower"), w).
Proof.
  intros S D T N.
  assert (NE : Py.truthy (PDict data) = true).
  { destruct data; [discriminate | reflexivity]. }
  cbn [find_active]. unfold bind, lift.
  cbn [Py.get Py.get_or obind Py.item]. rewrite S.
  cbn [Py.eq_str]. rewrite String.eqb_refl, D. cbn [obind]. rewrite NE.
  cbn [Py.get_or obind]. rewrite T.
  destruct status; try reflexivity. now elim (N s).
Qed.

(** X11: a trunk entry whose status is not a string ends the resolution:
    the [AttributeError] of [.lower()] is caught and the resolution returns
    [None], whatever the entries after it are. *)
Theorem malformed_status_ends_resolution
        self b body d item data status rest w :
  base_url (exotel self) = Some b ->
  urlopen (sent w) (request_for self "GET" (b ++ "/trunks") None) = Reply2xx body ->
  json_loads body = inr (PDict d) ->
  Py.lookup "response" d = Some (PList (PDict item :: rest)) ->
  Py.lookup "status" item = Some (PStr "success") ->
  Py.lookup "data" item = Some (PDict data) ->
  Py.lookup "status" data = Some status ->
  (forall s, status <> PStr s) ->
  fst (get_active_trunk self w) = Ret PNone.
Proof.
  intros B U J R S D T N.
  unfold get_active_trunk. unfold bind at 1, print at 1.
  rewrite try_on_Exception. unfold bind at 1.
  fold (printed w ["🔍 Finding active Exotel trunk..."]).
  rewrite (production_request_reply self "GET" "/trunks" None
             (printed w ["🔍 Finding active Exotel trunk..."]) B U).
  rewrite J. unfold bind at 1, lift at 1.
  assert (NEd : Py.truthy (PDict d) = true).
  { destruct d; [discriminate | reflexivity]. }
  rewrite NEd. cbn [Py.get Py.get_or obind]. rewrite R. cbn [Py.truthy].
  unfold bind at 1. unfold bind at 1. unfold lift at 1.
  cbn [Py.item obind]. rewrite R. cbn [Py.iter obind].
  erewrite find_active_malformed; [reflexivity | eassumption ..].
Qed.

(** X12: on a decoded 2xx reply the production script looks for the
    duplicate in the [message] of the [error_data] only: a first item that is
    no success and whose message does not hold [Duplicate resource] makes
    [setup_fqdn_integration] give up with [Failed to add destination],
    whatever the other fields of the [error_data] say. *)
Theorem production_attach_reads_message_only
        self trunk_sid sip w b body d item rest error_data message :
  base_url (exotel self) = Some b ->
  urlopen (sent w)
    (request_for self "POST"
       (b ++ "/trunks/" ++ Py.str trunk_sid ++ "/destination-uris")
       (Some (PDict [("destinations",
                      PList [PDict [("destination", PStr sip)]])])))
  = Reply2xx body ->
  json_loads body = inr (PDict d) ->
  Py.lookup "response" d = Some (PList (PDict item :: rest)) ->
  Py.lookup "status" item <> Some (PStr "success") ->
  Py.lookup "error_data" item = Some (PDict error_data) ->
  Py.lookup "message" error_data = Some (PStr message) ->
  str_in "Duplicate resource" message = false ->
  fst (attach_destination self trunk_sid sip w)
  = Ret (Some (failure "Failed to add destination")).
Proof.
  intros B U J R S E M D.
  unfold attach_destination. rewrite try_on_Exception. unfold bind at 1.
  rewrite (production_request_reply self "POST" _ _ w B U).
  rewrite J. unfold bind at 1, lift at 1.
  cbn [Py.get Py.get_or Py.item obind]. rewrite R.
  cbn [Py.truthy obind Py.item0 Py.get Py.get_or].
  rewrite eq_str_false.
  2:{ destruct (Py.lookup "status" item) as [v |]; [| discriminate].
      intro X. apply S. now rewrite X. }
  unfold bind at 1, lift at 1.
  cbn [Py.get_or obind Py.item0]. rewrite E.
  unfold bind at 1, lift at 1. cbn [Py.get_or obind]. rewrite M.
  cbn [Py.contains]. rewrite D.
  unfold bind at 1, lift at 1. cbn [Py.get Py.get_or]. rewrite M.
  reflexivity.
Qed.

Lemma attach_destination_world self t sip w :
  sent (snd (attach_destination self t sip w))
  = match base_url (exotel self) with
    | Some b =>
        (sent w
         ++ [request_for self "POST"
               (b ++ "/trunks/" ++ Py.str t ++ "/destination-uris")
               (Some (PDict [("destinations",
                              PList [PDict [("destination", PStr sip)]])]))])%list
    | None => sent w
    end.
Proof.
  unfold attach_destination. rewrite sent_try_after.
  - rewrite production_request_world. now destruct (base_url (exotel self)).
  - intro result. keeps_steps.
  - intro e. keeps_steps.
Qed.

Lemma map_phone_world self t phone w :
  sent (snd (map_phone self t phone w))
  = match base_url (exotel self) with
    | Some b =>
        (sent w
         ++ [request_for self "POST"
               (b ++ "/trunks/" ++ Py.str t ++ "/phone-numbers")
               (Some (PDict [("phone_number", Py.of_opt phone)]))])%list
    | None => sent w
    end.
Proof.
  unfold map_phone. rewrite sent_try_after.
  - rewrite production_request_world. now destruct (base_url (exotel self)).
  - intro result. keeps_steps.
  - intro e. keeps_steps.
Qed.

(** X13: a successful [setup_fqdn_integration] has sent exactly three
    requests, in this order: the trunk listing, the attach request and the
    mapping request, the last two to the trunk that it reports. *)
Theorem setup_fqdn_sends_three_requests self fqdn w r w' :
  vapi_fqdn (integration self) = Some fqdn ->
  setup_fqdn_integration self w = (Ret r, w') ->
  Py.item r "success" = Ret (PBool true) ->
  exists b trunk_sid,
    base_url (exotel self) = Some b
    /\ Py.item r "trunk_sid" = Ret trunk_sid
    /\ sent w'
       = (sent w
          ++ [request_for self "GET" (b ++ "/trunks") None;
              request_for self "POST"
                (b ++ "/trunks/" ++ Py.str trunk_sid ++ "/destination-uris")
                (Some (PDict [("destinations",
                               PList [PDict [("destination",
                                              PStr (convert_vapi_fqdn fqdn
                                                    ++ ":5060;transport=tcp"))]])]));
              request_for self "POST"
                (b ++ "/trunks/" ++ Py.str trunk_sid ++ "/phone-numbers")
                (Some (PDict [("phone_number",
                               Py.of_opt (phone_number (integration self)))]))])%list.
Proof.
  intros F H S. unfold setup_fqdn_integration in H. rewrite F in H.
  unfold bind, print, ret in H. cbn [sent stdout] in H.
  all_paths.
  all: try match goal with
           | H : attach_destination _ _ _ _ = (Ret (Some _), _) |- _ =>
               apply attach_destination_returns in H; destruct H; subst; discriminate
           | H : map_phone _ _ _ _ = (Ret (Some _), _) |- _ =>
               apply map_phone_returns in H; destruct H; subst; discriminate
           end.
  match goal with
  | G : get_active_trunk self ?w1 = (Ret ?t, ?w2),
    A : attach_destination self ?t ?sip ?w3 = (_, ?w4),
    M : map_phone self ?t ?ph ?w5 = (_, ?w6) |- _ =>
      pose proof (get_active_trunk_world self w1) as WG;
      pose proof (proj2 (proj2 (get_active_trunk_never_raises self w1))) as NG;
      pose proof (attach_destination_world self t sip w3) as WA;
      pose proof (map_phone_world self t ph w5) as WM;
      rewrite G in WG, NG; rewrite A in WA; rewrite M in WM;
      cbn [fst snd sent] in *
  end.
  destruct (base_url (exotel self)) as [b |].
  - eexists b, _. split; [reflexivity |]. split; [reflexivity |].
    rewrite WM, WA, WG. now rewrite <- !app_assoc.
  - specialize (NG eq_refl). inversion NG; subst. discriminate.
Qed.

End ProductionReplies.

Section ProductionWitnesses.
Import PyString VapiExotelProductionIntegrator.

Lemma get_active_trunk_never_raises_witness :
  fst (@get_active_trunk Demo.happy Fixtures.no_account world0) = Ret PNone.
Proof.
  exact (proj2 (proj2 (@get_active_trunk_never_raises Demo.happy
                         Fixtures.no_account world0)) eq_refl).
Defined.

Lemma malformed_status_ends_resolution_witness :
  fst (@get_active_trunk (Fixtures.answering Fixtures.numbered_status)
         Demo.production world0) = Ret PNone.
Proof.
  refine (@malformed_status_ends_resolution
            (Fixtures.answering Fixtures.numbered_status) Demo.production
            "https://api.in.exotel.com/v2/accounts/acme"
            (Demo.dumps Fixtures.numbered_status) _ _ _ (PInt 1) _ world0
            eq_refl eq_refl eq_refl eq_refl eq_refl eq_refl eq_refl _).
  intros s. discriminate.
Defined.

Lemma production_attach_reads_message_only_witness :
  fst (@attach_destination (Fixtures.answering Fixtures.duplicate_item)
         Demo.production (PStr "trmum1") "mybot.sip.vapi.ai:5060;transport=tcp"
         world0)
  = Ret (Some (failure "Failed to add destination")).
Proof.
  refine (@production_attach_reads_message_only
            (Fixtures.answering Fixtures.duplicate_item) Demo.production
            (PStr "trmum1") "mybot.sip.vapi.ai:5060;transport=tcp" world0
            "https://api.in.exotel.com/v2/accounts/acme"
            (Demo.dumps Fixtures.duplicate_item) _ _ _ _ "Conflict"
            eq_refl eq_refl eq_refl eq_refl _ eq_refl eq_refl eq_refl).
  discriminate.
Defined.

Lemma setup_fqdn_sends_three_requests_witness :
  exists b trunk_sid,
    base_url (exotel Demo.production) = Some b
    /\ trunk_sid = PStr "trmum1"
    /\ List.length
         (sent (snd (@setup_fqdn_integration (Demo.listing Demo.one_active)
                       Demo.production world0))) = 3.
Proof.
  pose proof (surjective_pairing
                (@setup_fqdn_integration (Demo.listing Demo.one_active)
                   Demo.production world0)) as R.
  assert (F : fst (@setup_fqdn_integration (Demo.listing Demo.one_active)
                     Demo.production world0)
              = Ret (PDict [("success", PBool true);
                            ("trunk_sid", PStr "trmum1");
                            ("fqdn", PStr "mybot.sip.vapi.ai");
                            ("sip_destination",
                             PStr "mybot.sip.vapi.ai:5060;transport=tcp");
                            ("phone_number", PStr "+1234567890")]))
    by (vm_compute; reflexivity).
  rewrite F in R.
  destruct (@setup_fqdn_sends_three_requests (Demo.listing Demo.one_active)
              Demo.production "mybot@sip.vapi.ai" world0 _ _
              eq_refl R eq_refl) as (b & t & B & T & S).
  exists b, t. split; [exact B |]. split; [now inversion T |].
  rewrite S. reflexivity.
Defined.

End ProductionWitnesses.

(* ================================================================== *)
(** ** Results and request counts of runs *)

Section Ensures.

Lemma ensures_ret {A} (Q : A -> Prop) (a : A) : Q a -> ensures Q (ret a).
Proof. intros H w a' w' E. inversion E. now subst. Qed.

Lemma ensures_bind {A B} (Q : B -> Prop) (m : M A) (k : A -> M B) :
  (forall a, ensures Q (k a)) -> ensures Q (bind m k).
Proof.
  intros Hk w b w'. unfold bind. destruct (m w) as [[a | e] w1].
  - apply Hk.
  - discriminate.
Qed.

Lemma ensures_after {A B} (Q : A -> Prop) (Q' : B -> Prop) (m : M A)
      (k : A -> M B) :
  ensures Q m -> (forall a, Q a -> ensures Q' (k a)) -> ensures Q' (bind m k).
Proof.
  intros Hm Hk w b w'. unfold bind. destruct (m w) as [[a | e] w1] eqn:R.
  - apply Hk. eapply Hm. exact R.
  - discriminate.
Qed.

Lemma ensures_try {A} (Q : A -> Prop) (m : M A) (h : pyexn -> M A) :
  ensures Q m -> (forall e, ensures Q (h e)) ->
  ensures Q (try_with m (on_Exception h)).
Proof.
  intros Hm Hh w a w'. rewrite try_on_Exception.
  destruct (m w) as [[a1 | e] w1] eqn:R.
  - intro E. inversion E; subst. eapply Hm. exact R.
  - destruct (Py.is_Exception e); [apply Hh | discriminate].
Qed.

Lemma yields_of {A} (Q : A -> Prop) (m : M A) :
  returns m -> ensures Q m -> yields Q m.
Proof.
  intros T E w. destruct (T w) as (a & w' & R). exists a, w'.
  split; [exact R | eapply E; exact R].
Qed.

Lemma yields_returns {A} (Q : A -> Prop) (m : M A) : yields Q m -> returns m.
Proof. intros Y w. destruct (Y w) as (a & w' & R & _). now exists a, w'. Qed.

Lemma yields_ensures {A} (Q : A -> Prop) (m : M A) : yields Q m -> ensures Q m.
Proof.
  intros Y w a w' R. destruct (Y w) as (a1 & w1 & R1 & H).
  rewrite R1 in R. inversion R. now subst.
Qed.

Lemma yields_ret {A} (Q : A -> Prop) (a : A) : Q a -> yields Q (ret a).
Proof. intros H w. now exists a, w. Qed.

Lemma yields_bind {A B} (Q : A -> Prop) (Q' : B -> Prop) (m : M A)
      (k : A -> M B) :
  yields Q m -> (forall a, Q a -> yields Q' (k a)) -> yields Q' (bind m k).
Proof.
  intros Hm Hk w. unfold bind. destruct (Hm w) as (a & w1 & R & H). rewrite R.
  now apply Hk.
Qed.

Lemma yields_then {A B} (Q : B -> Prop) (m : M A) (k : A -> M B) :
  returns m -> (forall a, yields Q (k a)) -> yields Q (bind m k).
Proof.
  intros Hm Hk w. unfold bind. destruct (Hm w) as (a & w1 & R). rewrite R.
  apply Hk.
Qed.

Lemma yields_weaken {A} (Q Q' : A -> Prop) (m : M A) :
  (forall a, Q a -> Q' a) -> yields Q m -> yields Q' m.
Proof.
  intros I Y w. destruct (Y w) as (a & w' & R & H). exists a, w'. auto.
Qed.

Lemma sends_keeps {A} (n : nat) (m : M A) : keeps_sent m -> sends_at_most n m.
Proof.
  intros K w. exists []. rewrite K, app_nil_r. split; [reflexivity | cbn; lia].
Qed.

Lemma sends_bind {A B} (n n' : nat) (m : M A) (k : A -> M B) :
  sends_at_most n m -> (forall a, sends_at_most n' (k a)) ->
  sends_at_most (n + n') (bind m k).
Proof.
  intros Sm Sk w. unfold bind. destruct (Sm w) as (l & E & L).
  destruct (m w) as [[a | e] w1]; cbn [snd] in *.
  - destruct (Sk a w1) as (l' & E' & L'). exists (l ++ l')%list.
    rewrite E', E, app_assoc, length_app. split; [reflexivity | lia].
  - exists l. split; [exact E | lia].
Qed.

Lemma sends_first {A B} (n : nat) (m : M A) (k : A -> M B) :
  sends_at_most 1 m -> (forall a, sends_at_most n (k a)) ->
  sends_at_most (S n) (bind m k).
Proof. apply (sends_bind (n := 1)). Qed.

Lemma sends_after {A B} (n : nat) (m : M A) (k : A -> M B) :
  keeps_sent m -> (forall a, sends_at_most n (k a)) ->
  sends_at_most n (bind m k).
Proof. intros K. apply (sends_bind (n := 0)). now apply sends_keeps. Qed.

Lemma sends_before {A B} (n : nat) (m : M A) (k : A -> M B) :
  sends_at_most n m -> (forall a, keeps_sent (k a)) ->
  sends_at_most n (bind m k).
Proof.
  intros Sm Kk w. unfold bind. destruct (Sm w) as (l & E & L).
  destruct (m w) as [[a | e] w1]; cbn [snd] in *.
  - exists l. now rewrite Kk.
  - now exists l.
Qed.

Lemma sends_try {A} (n : nat) (m : M A) (h : pyexn -> M A) :
  sends_at_most n m -> (forall e, keeps_sent (h e)) ->
  sends_at_most n (try_with m (on_Exception h)).
Proof.
  intros Sm Sh w. rewrite try_on_Exception. destruct (Sm w) as (l & E & L).
  destruct (m w) as [[a | e] w1]; cbn [snd] in *.
  - now exists l.
  - destruct (Py.is_Exception e); cbn [snd].
    + exists l. now rewrite Sh.
    + now exists l.
Qed.

Lemma sends_exactly {A} (m : M A) (f : world -> list request) (n : nat) :
  (forall w, sent (snd (m w)) = (sent w ++ f w)%list) ->
  (forall w, length (f w) <= n) -> sends_at_most n m.
Proof. intros E L w. exists (f w). auto. Qed.

End Ensures.

Create HintDb sends.

(** Through the binds and branches to each value returned. *)
Ltac ensures_steps :=
  repeat match goal with
         | |- ensures _ (bind _ _) => apply ensures_bind; intro
         | |- ensures _ (try_with _ _) => apply ensures_try; [| intro]
         | |- ensures _ (if ?b then _ else _) => destruct b
         | |- ensures _ (match ?x with _ => _ end) => destruct x
         end;
  try apply ensures_ret.

(** Through the binds and branches of a computation that returns. *)
Ltac returns_steps :=
  repeat first
    [ solve [auto with runs]
    | match goal with
      | |- returns (bind _ _) => apply returns_bind; [| intro]
      | |- returns (try_with _ _) => apply returns_try; [roe_steps | intro]
      | |- returns (if ?b then _ else _) => destruct b
      | |- returns (match ?x with _ => _ end) => destruct x
      end ].

(** Through the binds and branches, counting the requests. *)
Ltac sends_steps :=
  repeat first
    [ solve [auto with sends]
    | apply sends_keeps; solve [keeps_steps]
    | match goal with
      | |- sends_at_most _ (bind _ _) =>
          first [ apply sends_after; [solve [keeps_steps] | intro]
                | apply sends_first; [solve [auto with sends] | intro]
                | apply sends_before; [| intro; solve [keeps_steps]] ]
      | |- sends_at_most _ (try_with _ _) =>
          apply sends_try; [| intro; solve [keeps_steps]]
      | |- sends_at_most _ (if ?b then _ else _) => destruct b
      | |- sends_at_most _ (match ?x with _ => _ end) => destruct x
      end ].

(* ================================================================== *)
(** ** production_integration_script.py: the voice assistant side and the
    complete setup *)

Section VapiSide.
Context {P : Platform} {R : Runtime}.
Import PyString VapiExotelProductionIntegrator ProductionScript.

Lemma returns_read {A} (f : world -> A) : returns (fun w => (Ret (f w), w)).
Proof. intro w. eexists _, _. reflexivity. Qed.

Lemma roe_read {A} (f : world -> A) :
  raises_only_exceptions (fun w => (Ret (f w), w)).
Proof. apply roe_returns, returns_read. Qed.

Lemma keeps_read {A} (f : world -> A) : keeps_sent (fun w => (Ret (f w), w)).
Proof. intro w. reflexivity. Qed.

Lemma requests_call_raises verb url headers json :
  raises_only_exceptions (requests_call verb url headers json).
Proof.
  intros w e w'. unfold requests_call.
  destruct (requests_send _ _); intro H; inversion H; reflexivity.
Qed.

Lemma requests_call_sends verb url headers json :
  sends_at_most 1 (requests_call verb url headers json).
Proof.
  intro w. unfold requests_call. eexists [_].
  destruct (requests_send _ _); cbn [snd after_send sent];
    (split; [reflexivity | cbn; lia]).
Qed.

Lemma make_vapi_request_raises self method endpoint payload :
  raises_only_exceptions (make_vapi_request self method endpoint payload).
Proof.
  unfold make_vapi_request.
  repeat match goal with
         | |- raises_only_exceptions (if ?b then _ else _) => destruct b
         end;
    try apply requests_call_raises.
  now apply roe_raise.
Qed.

Lemma make_vapi_request_sends self method endpoint payload :
  sends_at_most 1 (make_vapi_request self method endpoint payload).
Proof.
  unfold make_vapi_request.
  repeat match goal with
         | |- sends_at_most _ (if ?b then _ else _) => destruct b
         end;
    try apply requests_call_sends.
  apply sends_keeps, keeps_raise.
Qed.

Lemma response_json_raises r : raises_only_exceptions (response_json r).
Proof.
  intros w e w'. unfold response_json, loads.
  destruct (json_loads (text r)); intro H; inversion H; reflexivity.
Qed.

Lemma response_json_keeps r : keeps_sent (response_json r).
Proof.
  intro w. unfold response_json, loads. now destruct (json_loads (text r)).
Qed.

Lemma failure_step (e : string) : step_result (failure e).
Proof. right. cbn. eauto. Qed.

Lemma find_phone_resource_catchable phone items :
  catchable (find_phone_resource phone items).
Proof.
  induction items as [| x rest IH]; cbn [find_phone_resource].
  - catchable_steps.
  - apply catchable_obind; [catchable_steps | intro number].
    destruct (PyMore.eq_opt number phone); [catchable_steps | exact IH].
Qed.

#[local] Hint Resolve make_vapi_request_raises response_json_raises roe_read
  returns_read production_request_raises find_active_raises
  get_active_trunk_returns : runs.
#[local] Hint Resolve find_phone_resource_catchable : catchable.
#[local] Hint Resolve response_json_keeps keeps_read find_active_keeps : keeps.
#[local] Hint Resolve make_vapi_request_sends : sends.

Lemma setup_byo_trunk_returns self : returns (setup_byo_trunk self).
Proof. unfold setup_byo_trunk. returns_steps. Qed.

Lemma setup_byo_trunk_ensures self : ensures step_result (setup_byo_trunk self).
Proof.
  unfold setup_byo_trunk. ensures_steps;
    first [apply failure_step | left; reflexivity].
Qed.

Lemma setup_byo_trunk_sends self : sends_at_most 2 (setup_byo_trunk self).
Proof. unfold setup_byo_trunk. sends_steps. Qed.

(** X14: [setup_byo_trunk] never raises: no reply and no transport failure
    of the voice assistant provider leaves it as an exception; it returns a
    result whose [success] is [True], or [False] with an [error].  It sends
    at most two requests. *)
Theorem setup_byo_trunk_never_raises self w :
  exists r w' l,
    setup_byo_trunk self w = (Ret r, w') /\ step_result r
    /\ sent w' = (sent w ++ l)%list /\ length l <= 2.
Proof.
  destruct (yields_of (setup_byo_trunk_returns self)
                      (setup_byo_trunk_ensures self) w) as (r & w' & E & S).
  destruct (setup_byo_trunk_sends self w) as (l & L & B).
  rewrite E in L. exists r, w', l. auto.
Qed.

Lemma test_outbound_call_raises self :
  raises_only_exceptions (test_outbound_call self).
Proof. unfold test_outbound_call. roe_steps. Qed.

Lemma test_integration_sends self : sends_at_most 2 (test_integration self).
Proof. unfold test_integration, test_outbound_call. sends_steps. Qed.

Lemma test_integration_yields self :
  yields (fun r => r = success_only) (test_integration self).
Proof.
  unfold test_integration.
  repeat (apply yields_then; [solve [auto with runs] | intros _]).
  apply yields_then; [| intros _; now apply yields_ret].
  apply returns_try; [apply test_outbound_call_raises | auto with runs].
Qed.

(** X15: [test_integration] reports success whatever happens: every failure
    of the outbound test, a refused listing, an undecodable body, a listing
    that is no list, is printed and dropped, and the method returns
    [{'success': True}].  It sends at most two requests. *)
Theorem test_integration_always_succeeds self w :
  exists w' l,
    test_integration self w = (Ret success_only, w')
    /\ sent w' = (sent w ++ l)%list /\ length l <= 2.
Proof.
  destruct (test_integration_yields self w) as (r & w' & E & ->).
  destruct (test_integration_sends self w) as (l & L & B).
  rewrite E in L. exists w', l. auto.
Qed.

End VapiSide.

(* ================================================================== *)
(** ** production_integration_script.py: the setups as a whole *)

Section CompleteSetup.
Context {P : Platform} {R : Runtime}.
Import PyString VapiExotelProductionIntegrator ProductionScript.

#[local] Hint Resolve production_request_raises find_active_raises
  get_active_trunk_returns setup_byo_trunk_returns : runs.
#[local] Hint Resolve find_active_keeps : keeps.
#[local] Hint Resolve test_integration_sends setup_byo_trunk_sends : sends.

Lemma attach_destination_total self t sip :
  returns (attach_destination self t sip).
Proof. unfold attach_destination. returns_steps. Qed.

Lemma map_phone_total self t phone : returns (map_phone self t phone).
Proof. unfold map_phone. returns_steps. Qed.

Lemma attach_destination_ensures self t sip :
  ensures (fun o => forall r, o = Some r -> exists e, r = failure e)
          (attach_destination self t sip).
Proof.
  intros w o w' E r ->. eapply attach_destination_returns. exact E.
Qed.

Lemma map_phone_ensures self t phone :
  ensures (fun o => forall r, o = Some r -> exists e, r = failure e)
          (map_phone self t phone).
Proof.
  intros w o w' E r ->. eapply map_phone_returns. exact E.
Qed.

Lemma one_request {A} (m : M A) (o : option request) :
  (forall w, sent (snd (m w))
             = match o with Some r => (sent w ++ [r])%list | None => sent w end) ->
  sends_at_most 1 m.
Proof.
  intros E w. rewrite E. destruct o as [r |].
  - exists [r]. split; [reflexivity | cbn; lia].
  - exists []. rewrite app_nil_r. split; [reflexivity | cbn; lia].
Qed.

Lemma get_active_trunk_sends self : sends_at_most 1 (get_active_trunk self).
Proof.
  apply one_request
    with (o := option_map (fun b => request_for self "GET" (b ++ "/trunks") None)
                          (base_url (exotel self))).
  intro w. rewrite get_active_trunk_world.
  now destruct (base_url (exotel self)).
Qed.

Lemma attach_destination_sends self t sip :
  sends_at_most 1 (attach_destination self t sip).
Proof.
  apply one_request
    with (o := option_map
                 (fun b => request_for self "POST"
                    (b ++ "/trunks/" ++ Py.str t ++ "/destination-uris")
                    (Some (PDict [("destinations",
                                   PList [PDict [("destination", PStr sip)]])])))
                 (base_url (exotel self))).
  intro w. rewrite attach_destination_world.
  now destruct (base_url (exotel self)).
Qed.

Lemma map_phone_sends self t phone : sends_at_most 1 (map_phone self t phone).
Proof.
  apply one_request
    with (o := option_map
                 (fun b => request_for self "POST"
                    (b ++ "/trunks/" ++ Py.str t ++ "/phone-numbers")
                    (Some (PDict [("phone_number", Py.of_opt phone)])))
                 (base_url (exotel self))).
  intro w. rewrite map_phone_world.
  now destruct (base_url (exotel self)).
Qed.

#[local] Hint Resolve attach_destination_total map_phone_total : runs.
#[local] Hint Resolve get_active_trunk_sends attach_destination_sends
  map_phone_sends : sends.

Lemma setup_fqdn_sends self : sends_at_most 3 (setup_fqdn_integration self).
Proof. unfold setup_fqdn_integration. sends_steps. Qed.

Lemma setup_fqdn_yields self fqdn :
  vapi_fqdn (integration self) = Some fqdn ->
  yields step_result (setup_fqdn_integration self).
Proof.
  intro F. unfold setup_fqdn_integration. rewrite F.
  repeat (apply yields_then; [solve [auto with runs] | intro]).
  match goal with
  | |- yields _ (if ?b then _ else _) => destruct b
  end; [apply yields_ret, failure_step |].
  apply yields_then; [solve [auto with runs] | intros _].
  eapply yields_bind;
    [apply yields_of;
       [apply attach_destination_total | apply attach_destination_ensures] |].
  intros [r |] A.
  - destruct (A r eq_refl) as (e & ->). apply yields_ret, failure_step.
  - apply yields_then; [solve [auto with runs] | intros _].
    eapply yields_bind;
      [apply yields_of; [apply map_phone_total | apply map_phone_ensures] |].
    intros [r |] M'.
    + destruct (M' r eq_refl) as (e & ->). apply yields_ret, failure_step.
    + apply yields_ret. left. reflexivity.
Qed.

(** X16: with an address configured, [setup_fqdn_integration] never raises:
    it returns a result whose [success] is [True], or [False] with an
    [error], after at most three requests.  Without an address it raises the
    [AttributeError] of [None.replace] before any request. *)
Theorem setup_fqdn_integration_outcomes self w :
  match vapi_fqdn (integration self) with
  | Some _ =>
      exists r w' l,
        setup_fqdn_integration self w = (Ret r, w') /\ step_result r
        /\ sent w' = (sent w ++ l)%list /\ length l <= 3
  | None =>
      fst (setup_fqdn_integration self w)
      = Raise (ExAttributeError "NoneType" "replace")
      /\ sent (snd (setup_fqdn_integration self w)) = sent w
  end.
Proof.
  destruct (vapi_fqdn (integration self)) as [fqdn |] eqn:F.
  - destruct (setup_fqdn_yields self F w) as (r & w' & E & S).
    destruct (setup_fqdn_sends self w) as (l & L & B).
    rewrite E in L. exists r, w', l. auto.
  - unfold setup_fqdn_integration. rewrite F. split; reflexivity.
Qed.

Lemma validate_configuration_yields self :
  yields (fun v => if v : bool then missing_variables self = []
                   else missing_variables self <> [])
         (validate_configuration self).
Proof.
  intro w. unfold validate_configuration.
  destruct (missing_variables self) as [| x l].
  - eexists _, _. split; reflexivity.
  - eexists _, _. split; [reflexivity | discriminate].
Qed.

Lemma validate_configuration_keeps self : keeps_sent (validate_configuration self).
Proof. unfold validate_configuration. keeps_steps. Qed.

Lemma validated_fqdn self :
  missing_variables self = [] ->
  exists fqdn, vapi_fqdn (integration (settings self)) = Some fqdn.
Proof.
  rewrite missing_variables_filter. cbn [filter fst].
  destruct (vapi_fqdn (integration (settings self))) as [fqdn |]; [eauto |].
  cbn [Py.truthy_opt negb].
  repeat match goal with
         | |- context [if ?b then _ else _] => destruct b
         end; discriminate.
Qed.

Lemma item_is_dict (v : pyval) (k : string) (x : pyval) :
  Py.item v k = Ret x -> exists d, v = PDict d.
Proof. destruct v; try discriminate. eauto. Qed.

Lemma yields_lift {A B} (Q : B -> Prop) (o : outcome A) (a : A) (k : A -> M B) :
  o = Ret a -> yields Q (k a) -> yields Q (bind (lift o) k).
Proof. intros -> Y w. apply Y. Qed.

Lemma step_result_success (r : pyval) :
  step_result r ->
  exists (d : list (string * pyval)) (ok : bool),
    r = PDict d /\ Py.item r "success" = Ret (PBool ok).
Proof.
  intros [S | [S _]]; destruct (item_is_dict _ _ S) as (d & ->); eauto.
Qed.

Lemma returns_get_dict (d : list (string * pyval)) (k : string) :
  returns (lift (Py.get (PDict d) k)).
Proof. intro w. eexists _, _. reflexivity. Qed.

#[local] Hint Resolve returns_get_dict : runs.

(** The part of [run_complete_setup] after a successful address setup. *)
Lemma summary_yields self (d : list (string * pyval)) :
  Py.item (PDict d) "success" = Ret (PBool true) ->
  yields (fun r => exists b,
            r = PDict [("fqdn", PDict d); ("byo", b); ("test", success_only);
                       ("success", PBool true)]
            /\ step_result b)
    (byo_result <- setup_byo_trunk self ;;
     let results := Py.set_item "byo" byo_result [("fqdn", PDict d)] in
     test_result <- test_integration self ;;
     let results := Py.set_item "test" test_result results in
     print (nl ++ "🎯 INTEGRATION SETUP COMPLETE!") ;;;
     print (times "=" 60) ;;;
     fqdn_ok <- lift (Py.item (PDict d) "success") ;;
     (if Py.truthy fqdn_ok then
        print "✅ FQDN Integration: SUCCESS" ;;;
        trunk <- lift (Py.get (PDict d) "trunk_sid") ;;
        print ("   Trunk: " ++ Py.str trunk) ;;;
        destination <- lift (Py.get (PDict d) "sip_destination") ;;
        print ("   Destination: " ++ Py.str destination)
      else ret tt) ;;;
     byo_ok <- lift (Py.item byo_result "success") ;;
     (if Py.truthy byo_ok then
        print "✅ BYO Trunk Integration: SUCCESS" ;;;
        credential <- lift (Py.get byo_result "credential_id") ;;
        print ("   Credential: " ++ Py.str credential) ;;;
        number <- lift (Py.get byo_result "phone_number_id") ;;
        print ("   Phone Number: " ++ Py.str number)
      else ret tt) ;;;
     print "" ;;;
     print "🧪 READY FOR TESTING:" ;;;
     print ("   Call " ++ Py.fmt_opt (phone_number (integration (settings self)))
            ++ " right now!") ;;;
     print "   Expected: 33+ second calls with NORMAL_CLEARING" ;;;
     let results := Py.set_item "success" (PBool true) results in
     ret (PDict results)).
Proof.
  intro S.
  eapply yields_bind;
    [apply yields_of;
       [apply setup_byo_trunk_returns | apply setup_byo_trunk_ensures] |].
  intros b B. cbv zeta.
  eapply yields_bind; [apply test_integration_yields |].
  intros t ->.
  do 2 (apply yields_then; [solve [auto with runs] | intros _]).
  eapply yields_lift; [exact S |]. cbn [Py.truthy].
  apply yields_then; [solve [returns_steps] |].
  intro. cbv beta.
  destruct (step_result_success B) as (bd & ok & -> & Bok).
  eapply yields_lift; [exact Bok |]. cbn [Py.truthy].
  apply yields_then; [destruct ok; solve [returns_steps] |].
  intro. cbv beta.
  repeat (apply yields_then; [solve [auto with runs] | intros _]).
  apply yields_ret. exists (PDict bd). split; [reflexivity | exact B].
Qed.

Lemma run_complete_setup_sends self : sends_at_most 7 (run_complete_setup self).
Proof.
  unfold run_complete_setup.
  do 3 (apply sends_after; [solve [keeps_steps] | intros _]).
  apply sends_after; [apply validate_configuration_keeps | intro valid].
  destruct (negb valid); [apply sends_keeps; keeps_steps |].
  do 5 (apply sends_after; [solve [keeps_steps] | intros _]).
  apply (sends_bind (n := 3) (n' := 4)); [apply setup_fqdn_sends | intro f].
  cbv zeta. apply sends_after; [solve [keeps_steps] | intro ok].
  destruct (negb (Py.truthy ok)); [apply sends_keeps; keeps_steps |].
  apply (sends_bind (n := 2) (n' := 2)); [apply setup_byo_trunk_sends | intro b].
  apply sends_before; [apply test_integration_sends | intro; keeps_steps].
Qed.

Lemma run_complete_setup_validated self :
  missing_variables self = [] ->
  yields
    (fun r =>
       (exists f, r = PDict [("fqdn", f)]
                  /\ Py.item f "success" = Ret (PBool false)
                  /\ Py.item r "success" = Raise (ExKeyError (PStr "success"))
                  /\ Py.get r "error" = Ret PNone)
       \/ (exists f b,
              r = PDict [("fqdn", f); ("byo", b); ("test", success_only);
                         ("success", PBool true)]
              /\ Py.item f "success" = Ret (PBool true)
              /\ step_result b))
    (run_complete_setup self).
Proof.
  intro V. unfold run_complete_setup.
  do 3 (apply yields_then; [solve [auto with runs] | intros _]).
  eapply yields_bind; [apply validate_configuration_yields |].
  intros [|] V'; [| now rewrite V in V'].
  cbn [negb].
  do 5 (apply yields_then; [solve [auto with runs] | intros _]).
  destruct (validated_fqdn self V) as (fqdn & F).
  eapply yields_bind; [apply (setup_fqdn_yields _ F) |].
  intros f S. cbv zeta.
  destruct (step_result_success S) as (d & ok & -> & Sok).
  eapply yields_lift; [exact Sok |]. cbn [Py.truthy].
  destruct ok; cbn [negb].
  - eapply yields_weaken; [| apply (summary_yields self d Sok)].
    intros r (b & -> & B). right. exists (PDict d), b. auto.
  - apply yields_then; [solve [auto with runs] | intros _].
    apply yields_ret. left. exists (PDict d).
    repeat split; [exact Sok].
Qed.

Lemma run_complete_setup_missing self w :
  missing_variables self <> [] ->
  run_complete_setup self w
  = (Ret (failure "Configuration validation failed"),
     printed w ["🚀 VAPI-EXOTEL PRODUCTION INTEGRATION"; times "=" 60; "";
                "❌ Missing required environment variables: "
                ++ join ", " (missing_variables self)]).
Proof.
  intro V. unfold run_complete_setup, validate_configuration.
  destruct (missing_variables self) as [| x miss]; [contradiction |].
  unfold bind, print, ret, printed. cbn [negb sent stdout].
  rewrite <- !app_assoc. reflexivity.
Qed.

(** X17: [run_complete_setup] never raises and sends at most seven
    requests.  With a required value missing it returns the validation
    failure and sends nothing.  Otherwise it returns either the results of a
    failed address setup alone, a dictionary with no [success] and no
    [error] entry, or all results with [success] set to [True]: a failure of
    the voice assistant setup does not make the overall result a failure. *)
Theorem run_complete_setup_report self w :
  exists r w' l,
    run_complete_setup self w = (Ret r, w')
    /\ sent w' = (sent w ++ l)%list /\ length l <= 7
    /\ match missing_variables self with
       | _ :: _ => r = failure "Configuration validation failed" /\ l = []
       | [] =>
           (exists f, r = PDict [("fqdn", f)]
                      /\ Py.item f "success" = Ret (PBool false)
                      /\ Py.item r "success" = Raise (ExKeyError (PStr "success"))
                      /\ Py.get r "error" = Ret PNone)
           \/ (exists f b,
                  r = PDict [("fqdn", f); ("byo", b); ("test", success_only);
                             ("success", PBool true)]
                  /\ Py.item f "success" = Ret (PBool true)
                  /\ step_result b)
       end.
Proof.
  destruct (missing_variables self) as [| x miss] eqn:V.
  - destruct (run_complete_setup_validated self V w) as (r & w' & E & Q).
    destruct (run_complete_setup_sends self w) as (l & L & B).
    rewrite E in L. exists r, w', l. auto.
  - rewrite run_complete_setup_missing by (rewrite V; discriminate).
    eexists _, _, []. cbn [sent printed]. rewrite app_nil_r.
    refine (conj eq_refl (conj eq_refl (conj _ (conj eq_refl eq_refl)))).
    cbn. lia.
Qed.

Lemma load_configuration_cases environ :
  match int_of (VapiExotelIntegrator.environ_get environ
                  "EXOTEL_GATEWAY_PORT" "5070") with
  | inl msg => load_configuration environ = Raise (ExValueError msg)
  | inr port =>
      exists self, load_configuration environ = Ret self
                   /\ exotel_gateway_port self = port
  end.
Proof.
  unfold load_configuration. cbv zeta.
  destruct (int_of _) as [msg | port]; cbn [obind]; [reflexivity |].
  eexists. split; reflexivity.
Qed.

Lemma dispatch_setup_all args self w :
  validate_config args = false -> setup_fqdn_only args = false ->
  test_calls args = false -> setup_all args = true ->
  exists o w',
    dispatch args self w = (o, w')
    /\ match missing_variables self with
       | _ :: _ =>
           o = Raise (ExSystemExit 1) /\ sent w' = sent w
           /\ last (stdout w') ""
              = nl ++ "❌ Setup failed: Configuration validation failed"
       | [] =>
           (o = Ret tt
            /\ exists r, fst (run_complete_setup self w) = Ret r
                         /\ Py.item r "success" = Ret (PBool true))
           \/ (o = Raise (ExKeyError (PStr "success"))
               /\ exists f, fst (run_complete_setup self w) = Ret (PDict [("fqdn", f)])
                            /\ Py.item f "success" = Ret (PBool false))
       end.
Proof.
  intros F1 F2 F3 F4. unfold dispatch. rewrite F1, F2, F3, F4.
  destruct (missing_variables self) as [| x miss] eqn:V.
  - destruct (run_complete_setup_validated self V w)
      as (r & w' & E & [(f & -> & S & K & _) | (f & b & -> & S & B)]);
      unfold bind at 1; rewrite E; unfold bind at 1, lift at 1.
    + rewrite K. eexists _, _. split; [reflexivity |]. right.
      split; [reflexivity |]. exists f. split; [reflexivity | exact S].
    + eexists _, _. split; [reflexivity |]. left.
      split; [reflexivity |]. eexists. split; reflexivity.
  - unfold bind at 1.
    rewrite run_complete_setup_missing by (rewrite V; discriminate).
    eexists _, _. split; [reflexivity |].
    refine (conj eq_refl (conj eq_refl _)).
    cbn [snd stdout printed]. apply last_app_cons.
Qed.

(** X18: on a command line that parses to [--setup-all] alone, [main] ends
    in one of four ways.  When the text of [EXOTEL_GATEWAY_PORT] is no
    integer, the constructor raises the [ValueError] of [int] and [main]
    ends in it with nothing printed and nothing sent.  Otherwise, with a
    required value missing, it exits with status 1 after the failure
    report, and has sent nothing; it returns when the complete setup
    reports success; and when the address setup failed it ends in
    [KeyError: 'success'], raised by [result['success']] on the results
    without that entry: neither the failure report nor the exit status 1 is
    reached. *)
Theorem setup_all_ends environ args w :
  validate_config args = false -> setup_fqdn_only args = false ->
  test_calls args = false -> setup_all args = true ->
  exists o w',
    main environ args w = (o, w')
    /\ match int_of (VapiExotelIntegrator.environ_get environ
                       "EXOTEL_GATEWAY_PORT" "5070") with
       | inl msg => o = Raise (ExValueError msg) /\ w' = w
       | inr _ =>
           exists self,
             load_configuration environ = Ret self
             /\ match missing_variables self with
                | _ :: _ =>
                    o = Raise (ExSystemExit 1) /\ sent w' = sent w
                    /\ last (stdout w') ""
                       = nl ++ "❌ Setup failed: Configuration validation failed"
                | [] =>
                    (o = Ret tt
                     /\ exists r, fst (run_complete_setup self w) = Ret r
                                  /\ Py.item r "success" = Ret (PBool true))
                    \/ (o = Raise (ExKeyError (PStr "success"))
                        /\ exists f,
                             fst (run_complete_setup self w)
                             = Ret (PDict [("fqdn", f)])
                             /\ Py.item f "success" = Ret (PBool false))
                end
       end.
Proof.
  intros F1 F2 F3 F4. unfold main, bind, lift.
  pose proof (load_configuration_cases environ) as L.
  destruct (int_of _) as [msg | port].
  - rewrite L. eexists _, _. split; [reflexivity |]. split; reflexivity.
  - destruct L as (self & L & _). rewrite L.
    destruct (@dispatch_setup_all args self w F1 F2 F3 F4) as (o & w' & E & Q).
    exists o, w'. split; [exact E |]. exists self. split; [reflexivity | exact Q].
Qed.






End CompleteSetup.

Section CompleteSetupWitnesses.
Import PyString VapiExotelProductionIntegrator ProductionScript.

Lemma setup_all_ends_witness :
  fst (@main Fixtures.no_trunk (Fixtures.runtime Fixtures.assistant_server)
         Fixtures.production_environ Fixtures.setup_all_only world0)
  = Raise (ExKeyError (PStr "success")).
Proof.
  destruct (@setup_all_ends Fixtures.no_trunk
              (Fixtures.runtime Fixtures.assistant_server)
              Fixtures.production_environ Fixtures.setup_all_only world0
              eq_refl eq_refl eq_refl eq_refl) as (o & w' & E & Q).
  rewrite E. cbn [fst].
  destruct Q as (self & L & Q).
  assert (S : self = Fixtures.script) by (now inversion L). subst self.
  assert (M0 : missing_variables Fixtures.script = []) by reflexivity.
  rewrite M0 in Q.
  assert (F : fst (@run_complete_setup Fixtures.no_trunk
                     (Fixtures.runtime Fixtures.assistant_server)
                     Fixtures.script world0)
              = Ret (PDict [("fqdn", failure "No active trunk found")]))
    by (vm_compute; reflexivity).
  rewrite F in Q.
  destruct Q as [(_ & r & R & S) | (-> & _)]; [| reflexivity].
  inversion R; subst. discriminate S.
Defined.


End CompleteSetupWitnesses.

(* ================================================================== *)
(** ** src/exotel_outbound_calls.py: configuration and parameters *)

Section OutboundLookups.
Import PyString ExotelOutboundCaller OutboundCalls.

Lemma lookup_set_other (k k' : string) (v : pyval) (d : list (string * pyval)) :
  String.eqb k' k = false -> Py.lookup k (Py.set_item k' v d) = Py.lookup k d.
Proof. intro E. now rewrite lookup_set_item, E. Qed.

Lemma lookup_pass_keyword (k : string) kwargs name key params :
  String.eqb key k = false ->
  Py.lookup k (pass_keyword kwargs name key params) = Py.lookup k params.
Proof.
  intro E. unfold pass_keyword.
  destruct (Py.lookup name kwargs) as [v |]; [| reflexivity].
  destruct (Py.truthy v); [now apply lookup_set_other | reflexivity].
Qed.

Lemma lookup_pass_text (k : string) value key params :
  String.eqb key k = false ->
  Py.lookup k (pass_text value key params) = Py.lookup k params.
Proof.
  intro E. unfold pass_text.
  destruct (Py.truthy_opt value); [now apply lookup_set_other | reflexivity].
Qed.

Lemma lookup_pass_number (k : string) value key params :
  String.eqb key k = false ->
  Py.lookup k (pass_number value key params) = Py.lookup k params.
Proof.
  intro E. unfold pass_number.
  destruct value as [z |]; [| reflexivity].
  destruct (negb (z =? 0)%Z); [now apply lookup_set_other | reflexivity].
Qed.

End OutboundLookups.

(** Past the optional parameters to an entry that they do not set. *)
Ltac past_options :=
  repeat first
    [ rewrite lookup_pass_keyword by reflexivity
    | rewrite lookup_pass_text by reflexivity
    | rewrite lookup_pass_number by reflexivity
    | rewrite lookup_set_other by reflexivity ].

Section OutboundParameters.
Import PyString ExotelOutboundCaller OutboundCalls.

Lemma connect_params_caller_id self from_number to_number caller record
      time_limit timeout status_callback custom_field wait_url kwargs :
  Py.lookup "CallerId"
    (connect_params self from_number to_number caller record time_limit
       timeout status_callback custom_field wait_url kwargs)
  = Some (Py.of_opt (PyMore.or_opt caller (ExotelOutboundCaller.caller_id self))).
Proof.
  unfold connect_params. cbv zeta.
  destruct record, (Py.truthy_opt status_callback); past_options; reflexivity.
Qed.

Lemma flow_params_lookups self to_number flow_id caller record custom_field
      status_callback kwargs :
  Py.lookup "CallerId"
    (flow_params self to_number flow_id caller record custom_field
       status_callback kwargs)
  = Some (Py.of_opt (PyMore.or_opt caller (ExotelOutboundCaller.caller_id self)))
  /\ Py.lookup "Url"
       (flow_params self to_number flow_id caller record custom_field
          status_callback kwargs)
     = Some (PStr ("http://my.exotel.com/" ++ Py.fmt_opt (account_sid self)
                   ++ "/exoml/start_voice/" ++ flow_id)).
Proof.
  unfold flow_params. cbv zeta.
  split; destruct record; past_options; reflexivity.
Qed.

(** X20: the callback options need a callback address: without a
    [status_callback] the parameters of [connect_two_numbers] hold no
    [StatusCallback], no [StatusCallbackEvents] and no
    [StatusCallbackContentType], whatever the keyword arguments ask for.
    So the events and the content type that [create_vapi_to_phone_call]
    passes are never sent. *)
Theorem callback_options_need_an_address
        self from_number to_number caller record time_limit timeout
        status_callback custom_field wait_url kwargs k :
  Py.truthy_opt status_callback = false ->
  In k ["StatusCallback"; "StatusCallbackEvents"; "StatusCallbackContentType"] ->
  Py.lookup k
    (connect_params self from_number to_number caller record time_limit
       timeout status_callback custom_field wait_url kwargs)
  = None.
Proof.
  intros C K. unfold connect_params. cbv zeta. rewrite C.
  destruct K as [<- | [<- | [<- | []]]];
    destruct record; past_options; reflexivity.
Qed.

(** X21: the recording options need [record]: without it the parameters of
    [connect_two_numbers] hold no [Record], no [RecordingChannels] and no
    [RecordingFormat], whatever the keyword arguments ask for. *)
Theorem recording_options_need_record
        self from_number to_number caller time_limit timeout
        status_callback custom_field wait_url kwargs k :
  In k ["Record"; "RecordingChannels"; "RecordingFormat"] ->
  Py.lookup k
    (connect_params self from_number to_number caller false time_limit
       timeout status_callback custom_field wait_url kwargs)
  = None.
Proof.
  intros K. unfold connect_params. cbv zeta.
  destruct K as [<- | [<- | [<- | []]]];
    destruct (Py.truthy_opt status_callback); past_options; reflexivity.
Qed.

Lemma replace_without_plus (rest : string) :
  str_in "+" rest = false -> replace_from "+91" "0" 0 rest = rest.
Proof.
  induction rest as [| c rest IH]; [reflexivity |].
  cbn [str_in replace_from prefix].
  destruct (ascii_dec "+" c) as [E | N].
  - destruct rest; discriminate.
  - intro H. now rewrite IH.
Qed.

Lemma lstrip_zero_kept (rest : string) :
  startswith rest "0" = false -> PyMore.lstrip_char "0" rest = rest.
Proof.
  destruct rest as [| c rest]; [reflexivity |].
  unfold startswith. cbn [prefix PyMore.lstrip_char].
  destruct (ascii_dec "0" c) as [E | N].
  - destruct rest; discriminate.
  - intros _. destruct (Ascii.eqb_spec c "0"); [congruence | reflexivity].
Qed.

(** X22: the caller id derived from an Indian [PHONE_NUMBER] gives the
    number back.  With no [EXO_CALLER_ID] and a [PHONE_NUMBER] of [+91]
    and a rest without a plus sign, the configured caller id is [0] and the
    rest, and the source phone of [create_vapi_to_phone_call] is [+91] and
    the rest without its leading zeros: the number itself when the rest
    does not start with a zero. *)
Theorem indian_number_round_trip environ rest :
  environ "EXO_CALLER_ID" = None ->
  environ "PHONE_NUMBER" = Some ("+91" ++ rest) ->
  str_in "+" rest = false ->
  caller_id (_load_config environ) = Some ("0" ++ rest)
  /\ source_phone (_load_config environ) None
     = Some ("+91" ++ PyMore.lstrip_char "0" rest)
  /\ (startswith rest "0" = false ->
      source_phone (_load_config environ) None = Some ("+91" ++ rest)).
Proof.
  intros C N R.
  assert (I : caller_id (_load_config environ) = Some ("0" ++ rest)).
  { unfold _load_config. cbn [caller_id]. rewrite C, N.
    unfold str_replace. cbn [append replace_from prefix String.length Nat.sub].
    replace (prefix "" rest) with true by (now destruct rest).
    now rewrite replace_without_plus by exact R. }
  assert (S : source_phone (_load_config environ) None
              = Some ("+91" ++ PyMore.lstrip_char "0" rest)).
  { unfold source_phone. rewrite I. reflexivity. }
  refine (conj I (conj S _)).
  intro Z0. now rewrite S, lstrip_zero_kept.
Qed.

Lemma replace_not_blank (p : string) :
  p <> "" -> String.eqb (str_replace "+91" "0" p) "" = false.
Proof.
  destruct p as [| c p]; [congruence |]. intros _.
  unfold str_replace. cbn [replace_from].
  destruct (prefix "+91" (String c p)); reflexivity.
Qed.

(** X23: a blank setting is not replaced by its default.  With the three
    credentials present: an [EXO_SUBSCRIBIX_DOMAIN] that is set and empty is
    reported missing instead of falling back to [api.in.exotel.com]; an
    [EXO_CALLER_ID] that is set and empty is reported missing whatever
    [PHONE_NUMBER] is; and with neither variable set the caller is built
    with the default domain and the caller id derived from a non-empty
    [PHONE_NUMBER]. *)
Theorem blank_settings_do_not_fall_back environ :
  Py.truthy_opt (environ "EXO_AUTH_KEY") = true ->
  Py.truthy_opt (environ "EXO_AUTH_TOKEN") = true ->
  Py.truthy_opt (environ "EXO_ACCOUNT_SID") = true ->
  (environ "EXO_SUBSCRIBIX_DOMAIN" = Some "" ->
   init None environ
   = Raise (ExValueError "Missing required configuration: domain"))
  /\ (environ "EXO_SUBSCRIBIX_DOMAIN" = None ->
      environ "EXO_CALLER_ID" = Some "" ->
      init None environ
      = Raise (ExValueError
                 "Missing caller_id - set EXO_CALLER_ID or PHONE_NUMBER"))
  /\ (environ "EXO_SUBSCRIBIX_DOMAIN" = None ->
      environ "EXO_CALLER_ID" = None ->
      forall p, environ "PHONE_NUMBER" = Some p -> p <> "" ->
      exists self,
        init None environ = Ret self
        /\ domain self = Some "api.in.exotel.com"
        /\ caller_id self = Some (str_replace "+91" "0" p)).
Proof.
  intros K T A. unfold init, _validate_config, _load_config. cbv zeta.
  cbn [api_key auth_token account_sid domain caller_id filter snd fst map].
  rewrite K, T, A. cbn [negb].
  refine (conj _ (conj _ _)).
  - intros ->. reflexivity.
  - intros -> ->. reflexivity.
  - intros -> -> p -> N. cbn [Py.truthy_opt String.eqb negb map obind].
    rewrite replace_not_blank by exact N. cbn [negb obind].
    eexists. split; [reflexivity |]. split; reflexivity.
Qed.

End OutboundParameters.

(* ================================================================== *)
(** ** src/exotel_outbound_calls.py: the calls and the command line *)

Section OutboundRuns.
Context {P : Platform} {R : Runtime}.
Import PyString ExotelOutboundCaller OutboundCalls.

Lemma outbound_request_raises self endpoint data :
  raises_only_exceptions (_make_exotel_request self endpoint data).
Proof.
  intros w e w'. unfold _make_exotel_request, try_with, bind, send, lift,
    read_text, on_HTTPError, ret, raise.
  destruct (urlopen _ _) as [bytes | code reason body | reason];
    [destruct (utf8_decode bytes) as [msg | text];
       [| destruct (json_loads_other text) as [[m | m] |]] | |];
    intro H; inversion H; reflexivity.
Qed.

Lemma outbound_request_world self endpoint data w :
  snd (_make_exotel_request self endpoint data w)
  = after_send w (request_for self endpoint data).
Proof.
  unfold _make_exotel_request, try_with, bind, send, lift, read_text,
    on_HTTPError, ret, raise.
  destruct (urlopen _ _) as [bytes | code reason body | reason];
    [destruct (utf8_decode bytes) as [msg | text];
       [| destruct (json_loads_other text) as [[m | m] |]] | |];
    reflexivity.
Qed.

Lemma outbound_request_sends self endpoint data :
  sends_at_most 1 (_make_exotel_request self endpoint data).
Proof.
  intro w. rewrite outbound_request_world. eexists [_].
  split; [reflexivity | cbn; lia].
Qed.

#[local] Hint Resolve outbound_request_raises : runs.
#[local] Hint Resolve outbound_request_sends : sends.

Lemma outbound_failure_step (e : string) : step_result (failure e).
Proof. right. cbn. eauto. Qed.

Lemma shown_present (key : string) (params : list (string * pyval)) (v : pyval) :
  Py.lookup key params = Some v -> shown key params = Ret (Py.str v).
Proof. intro L. unfold shown, Py.item. now rewrite L. Qed.

(** The body of the [try] of a call, after the request. *)
Lemma call_result_step (m : M pyval) (h : pyexn -> M pyval) :
  ensures step_result m -> (forall e, ensures step_result (h e)) ->
  raises_only_exceptions m -> (forall e, returns (h e)) ->
  yields step_result (try_with m (on_Exception h)).
Proof.
  intros Em Eh Rm Rh. apply yields_of.
  - now apply returns_try.
  - now apply ensures_try.
Qed.

Lemma connect_two_numbers_yields self from_number to_number caller record
      time_limit timeout status_callback custom_field wait_url kwargs :
  yields step_result
    (connect_two_numbers self from_number to_number caller record time_limit
       timeout status_callback custom_field wait_url kwargs).
Proof.
  unfold connect_two_numbers. cbv zeta.
  eapply yields_lift;
    [apply shown_present, connect_params_caller_id |].
  apply yields_then; [solve [auto with runs] | intros _].
  apply call_result_step.
  - ensures_steps; first [left; reflexivity | right; cbn; eauto].
  - intro e. ensures_steps. apply outbound_failure_step.
  - roe_steps.
  - intro e. returns_steps.
Qed.

Lemma connect_two_numbers_world self from_number to_number caller record
      time_limit timeout status_callback custom_field wait_url kwargs w :
  sent (snd (connect_two_numbers self from_number to_number caller record
               time_limit timeout status_callback custom_field wait_url kwargs w))
  = (sent w
     ++ [request_for self "Calls/connect"
           (connect_params self from_number to_number caller record time_limit
              timeout status_callback custom_field wait_url kwargs)])%list.
Proof.
  unfold connect_two_numbers. cbv zeta.
  rewrite (shown_present _ _ (connect_params_caller_id _ _ _ _ _ _ _ _ _ _ _)).
  unfold bind at 1, lift at 1. unfold bind at 1, print at 1.
  rewrite sent_try_after.
  - now rewrite outbound_request_world.
  - intro result. keeps_steps.
  - intro e. keeps_steps.
Qed.

(** X24: [connect_two_numbers] never raises.  It sends one request, always,
    a POST of the prepared parameters to [Calls/connect] of the account, and
    returns a result whose [success] is [True], or [False] with an [error]:
    a refused request, a lost connection and a reply of an unexpected shape
    all come back as results. *)
Theorem connect_two_numbers_never_raises self from_number to_number caller
        record time_limit timeout status_callback custom_field wait_url kwargs w :
  exists r w',
    connect_two_numbers self from_number to_number caller record time_limit
      timeout status_callback custom_field wait_url kwargs w = (Ret r, w')
    /\ step_result r
    /\ exists req,
         sent w' = (sent w ++ [req])%list
         /\ req
            = {| req_method := "POST";
                 req_url := "https://" ++ Py.fmt_opt (domain self)
                            ++ "/v1/Accounts/" ++ Py.fmt_opt (account_sid self)
                            ++ "/Calls/connect";
                 req_headers :=
                   [("Content-Type", "application/x-www-form-urlencoded");
                    ("Authorization",
                     "Basic " ++ b64encode (Py.fmt_opt (api_key self) ++ ":"
                                            ++ Py.fmt_opt (auth_token self)))];
                 req_data :=
                   Some (urlencode
                           (form_data_of
                              (connect_params self from_number to_number caller
                                 record time_limit timeout status_callback
                                 custom_field wait_url kwargs))) |}.
Proof.
  destruct (connect_two_numbers_yields self from_number to_number caller record
              time_limit timeout status_callback custom_field wait_url kwargs w)
    as (r & w' & E & S).
  exists r, w'. refine (conj E (conj S _)).
  pose proof (connect_two_numbers_world self from_number to_number caller record
                time_limit timeout status_callback custom_field wait_url kwargs w)
    as W.
  rewrite E in W. eexists. split; [exact W | reflexivity].
Qed.

Lemma details_yields self endpoint params key :
  yields step_result
    (try_with
       (result <- _make_exotel_request self endpoint params ;;
        ret (PDict [("success", PBool true); (key, result)]))
       (on_Exception (fun e => ret (failure (Py.exn_str e))))).
Proof.
  apply call_result_step.
  - ensures_steps. left. reflexivity.
  - intro e. ensures_steps. apply outbound_failure_step.
  - roe_steps.
  - intro e. returns_steps.
Qed.

Lemma details_world self endpoint params key w :
  sent (snd (try_with
               (result <- _make_exotel_request self endpoint params ;;
                ret (PDict [("success", PBool true); (key, result)]))
               (on_Exception (fun e => ret (failure (Py.exn_str e)))) w))
  = (sent w ++ [request_for self endpoint params])%list.
Proof.
  rewrite sent_try_after.
  - now rewrite outbound_request_world.
  - intro result. keeps_steps.
  - intro e. keeps_steps.
Qed.

(** X25: the two queries never raise, and both are sent as a POST with a
    form body: [get_call_details] posts an empty form to [Calls/<sid>] of
    the account, [bulk_call_details] posts to [Calls] a form with the date
    when one is given and an empty form otherwise.  Each returns a result
    whose [success] is [True], or [False] with an [error]. *)
Theorem queries_are_posted self call_sid date_created w :
  (exists r w',
     get_call_details self call_sid w = (Ret r, w') /\ step_result r
     /\ exists req,
          sent w' = (sent w ++ [req])%list
          /\ req_method req = "POST"
          /\ req_url req = "https://" ++ Py.fmt_opt (domain self)
                           ++ "/v1/Accounts/" ++ Py.fmt_opt (account_sid self)
                           ++ "/Calls/" ++ call_sid
          /\ req_data req = Some (urlencode []))
  /\ (exists r w',
        bulk_call_details self date_created w = (Ret r, w') /\ step_result r
        /\ exists req,
             sent w' = (sent w ++ [req])%list
             /\ req_method req = "POST"
             /\ req_url req = "https://" ++ Py.fmt_opt (domain self)
                              ++ "/v1/Accounts/" ++ Py.fmt_opt (account_sid self)
                              ++ "/Calls"
             /\ req_data req
                = Some (urlencode
                          (if Py.truthy_opt date_created
                           then [("DateCreated", Py.fmt_opt date_created)]
                           else []))).
Proof.
  split.
  - unfold get_call_details.
    destruct (details_yields self ("Calls/" ++ call_sid) [] "call_details" w)
      as (r & w' & E & S).
    pose proof (details_world self ("Calls/" ++ call_sid) [] "call_details" w)
      as W.
    rewrite E in *. exists r, w'. refine (conj eq_refl (conj S _)).
    eexists. split; [exact W |]. repeat split.
  - unfold bulk_call_details. cbv zeta.
    destruct (details_yields self "Calls"
                (pass_text date_created "DateCreated" []) "calls" w)
      as (r & w' & E & S).
    pose proof (details_world self "Calls"
                  (pass_text date_created "DateCreated" []) "calls" w) as W.
    rewrite E in *. exists r, w'. refine (conj eq_refl (conj S _)).
    eexists. split; [exact W |]. repeat split.
    unfold request_for, pass_text. cbn [req_data].
    destruct date_created as [d |]; [| reflexivity].
    cbn [Py.truthy_opt]. destruct (negb (String.eqb d "")); reflexivity.
Qed.

Lemma connect_to_flow_yields self to_number flow_id caller record custom_field
      status_callback kwargs :
  yields step_result
    (connect_to_flow self to_number flow_id caller record custom_field
       status_callback kwargs).
Proof.
  unfold connect_to_flow. cbv zeta.
  destruct (flow_params_lookups self to_number flow_id caller record
              custom_field status_callback kwargs) as (C & U).
  apply yields_then; [solve [auto with runs] | intros _].
  eapply yields_lift; [apply shown_present, U |].
  apply yields_then; [solve [auto with runs] | intros _].
  eapply yields_lift; [apply shown_present, C |].
  apply yields_then; [solve [auto with runs] | intros _].
  apply call_result_step.
  - ensures_steps; first [left; reflexivity | right; cbn; eauto].
  - intro e. ensures_steps. apply outbound_failure_step.
  - roe_steps.
  - intro e. returns_steps.
Qed.

Lemma connect_to_flow_world self to_number flow_id caller record custom_field
      status_callback kwargs w :
  sent (snd (connect_to_flow self to_number flow_id caller record custom_field
               status_callback kwargs w))
  = (sent w
     ++ [request_for self "Calls/connect"
           (flow_params self to_number flow_id caller record custom_field
              status_callback kwargs)])%list.
Proof.
  unfold connect_to_flow. cbv zeta.
  destruct (flow_params_lookups self to_number flow_id caller record
              custom_field status_callback kwargs) as (C & U).
  rewrite (shown_present _ _ C), (shown_present _ _ U).
  unfold bind at 1, print at 1. unfold bind at 1, lift at 1.
  unfold bind at 1, print at 1. unfold bind at 1, lift at 1.
  unfold bind at 1, print at 1.
  rewrite sent_try_after.
  - now rewrite outbound_request_world.
  - intro result. keeps_steps.
  - intro e. keeps_steps.
Qed.

(** X26: [connect_to_flow] never raises.  It sends one request, always, a
    POST to [Calls/connect] of the account in which the number to call goes
    as [From], no [To] is given, and the [Url] is the flow address of the
    account; it returns a result whose [success] is [True], or [False] with
    an [error]. *)
Theorem connect_to_flow_never_raises self to_number flow_id caller record
        custom_field status_callback kwargs w :
  exists r w',
    connect_to_flow self to_number flow_id caller record custom_field
      status_callback kwargs w = (Ret r, w')
    /\ step_result r
    /\ exists params,
         sent w' = (sent w ++ [request_for self "Calls/connect" params])%list
         /\ Py.lookup "From" params = Some (PStr to_number)
         /\ Py.lookup "To" params = None
         /\ Py.lookup "Url" params
            = Some (PStr ("http://my.exotel.com/" ++ Py.fmt_opt (account_sid self)
                          ++ "/exoml/start_voice/" ++ flow_id)).
Proof.
  destruct (connect_to_flow_yields self to_number flow_id caller record
              custom_field status_callback kwargs w) as (r & w' & E & S).
  exists r, w'. refine (conj E (conj S _)).
  pose proof (connect_to_flow_world self to_number flow_id caller record
                custom_field status_callback kwargs w) as W.
  rewrite E in W. eexists. split; [exact W |].
  destruct (flow_params_lookups self to_number flow_id caller record
              custom_field status_callback kwargs) as (_ & U).
  refine (conj _ (conj _ U)); unfold flow_params; cbv zeta;
    destruct record; past_options; reflexivity.
Qed.

Lemma connect_to_flow_sends self to_number flow_id caller record custom_field
      status_callback kwargs :
  sends_at_most 1
    (connect_to_flow self to_number flow_id caller record custom_field
       status_callback kwargs).
Proof. unfold connect_to_flow. cbv zeta. sends_steps. Qed.

Lemma connect_two_numbers_sends self from_number to_number caller record
      time_limit timeout status_callback custom_field wait_url kwargs :
  sends_at_most 1
    (connect_two_numbers self from_number to_number caller record time_limit
       timeout status_callback custom_field wait_url kwargs).
Proof.
  intro w. rewrite connect_two_numbers_world. eexists [_].
  split; [reflexivity | cbn; lia].
Qed.

Lemma get_call_details_sends self call_sid :
  sends_at_most 1 (get_call_details self call_sid).
Proof. unfold get_call_details. sends_steps. Qed.

Lemma bulk_call_details_sends self date_created :
  sends_at_most 1 (bulk_call_details self date_created).
Proof. unfold bulk_call_details. cbv zeta. sends_steps. Qed.

Lemma connect_two_numbers_returns self from_number to_number caller record
      time_limit timeout status_callback custom_field wait_url kwargs :
  returns
    (connect_two_numbers self from_number to_number caller record time_limit
       timeout status_callback custom_field wait_url kwargs).
Proof. eapply yields_returns, connect_two_numbers_yields. Qed.

Lemma connect_two_numbers_raises self from_number to_number caller record
      time_limit timeout status_callback custom_field wait_url kwargs :
  raises_only_exceptions
    (connect_two_numbers self from_number to_number caller record time_limit
       timeout status_callback custom_field wait_url kwargs).
Proof. apply roe_returns, connect_two_numbers_returns. Qed.

Lemma connect_to_flow_raises self to_number flow_id caller record custom_field
      status_callback kwargs :
  raises_only_exceptions
    (connect_to_flow self to_number flow_id caller record custom_field
       status_callback kwargs).
Proof. eapply roe_returns, yields_returns, connect_to_flow_yields. Qed.

Lemma get_call_details_raises self call_sid :
  raises_only_exceptions (get_call_details self call_sid).
Proof. eapply roe_returns, yields_returns, details_yields. Qed.

Lemma bulk_call_details_raises self date_created :
  raises_only_exceptions (bulk_call_details self date_created).
Proof. eapply roe_returns, yields_returns, details_yields. Qed.

Lemma validate_catchable self : catchable (_validate_config self).
Proof.
  unfold _validate_config. cbv zeta. intros e.
  destruct (map fst _); [destruct (negb _) |]; intro H; inversion H; reflexivity.
Qed.

Lemma init_catchable cfg environ : catchable (init cfg environ).
Proof.
  unfold init. cbv zeta. intros e.
  destruct (_validate_config _) as [[] | e'] eqn:V; cbn [obind]; intro H;
    inversion H; subst. eapply validate_catchable. exact V.
Qed.

#[local] Hint Resolve connect_two_numbers_raises connect_to_flow_raises
  get_call_details_raises bulk_call_details_raises : runs.
#[local] Hint Resolve init_catchable : catchable.
#[local] Hint Resolve connect_two_numbers_sends connect_to_flow_sends
  get_call_details_sends bulk_call_details_sends : sends.

Lemma sent_try_keeps {A} (m : M A) (h : pyexn -> M A) (w : world) :
  (forall e, keeps_sent (h e)) ->
  sent (snd (try_with m (on_Exception h) w)) = sent (snd (m w)).
Proof.
  intro Hh. rewrite try_on_Exception. destruct (m w) as [[a | e] w1]; cbn [snd].
  - reflexivity.
  - destruct (Py.is_Exception e); [now rewrite Hh | reflexivity].
Qed.

Lemma sent_bind_keeps {A B} (m : M A) (k : A -> M B) (w : world) :
  (forall a, keeps_sent (k a)) -> sent (snd (bind m k w)) = sent (snd (m w)).
Proof.
  intro Hk. unfold bind. destruct (m w) as [[a | e] w1]; cbn [snd].
  - now rewrite Hk.
  - reflexivity.
Qed.

Lemma create_vapi_yields environ assistant target from_phone record custom_field :
  yields step_result
    (create_vapi_to_phone_call environ assistant target from_phone record
       custom_field).
Proof.
  unfold create_vapi_to_phone_call. apply call_result_step.
  - apply ensures_bind. intro caller. cbv zeta.
    do 4 (apply ensures_bind; intros _).
    eapply ensures_after;
      [eapply yields_ensures, connect_two_numbers_yields |].
    intros result S. ensures_steps. exact S.
  - intro e. ensures_steps. apply outbound_failure_step.
  - roe_steps.
  - intro e. returns_steps.
Qed.

Lemma create_vapi_sends environ assistant target from_phone record custom_field :
  sends_at_most 1
    (create_vapi_to_phone_call environ assistant target from_phone record
       custom_field).
Proof. unfold create_vapi_to_phone_call. cbv zeta. sends_steps. Qed.

(** X27: [create_vapi_to_phone_call] never raises.  When the environment
    does not configure the caller it returns the failure with the message
    of the [ValueError] and sends nothing; otherwise it sends one request,
    the connect request from the source phone to the target with a time
    limit of 300 seconds.  It returns a result whose [success] is [True],
    or [False] with an [error]. *)
Theorem create_vapi_to_phone_call_never_raises
        environ assistant target from_phone record custom_field w :
  exists r w',
    create_vapi_to_phone_call environ assistant target from_phone record
      custom_field w = (Ret r, w')
    /\ step_result r
    /\ exists l,
         sent w' = (sent w ++ l)%list
         /\ match init None environ with
            | Ret caller =>
                l = [request_for caller "Calls/connect"
                       (connect_params caller (source_phone caller from_phone)
                          target None record (Some 300%Z) None None
                          (Some ("vapi_assistant_" ++ assistant ++ "_"
                                 ++ Py.or_else custom_field "outbound"))
                          None
                          [("callback_events",
                            PList [PStr "terminal"; PStr "answered"]);
                           ("callback_content_type", PStr "application/json")])]
            | Raise e => l = [] /\ r = failure (Py.exn_str e)
            end.
Proof.
  destruct (create_vapi_yields environ assistant target from_phone record
              custom_field w) as (r & w' & E & S).
  exists r, w'. refine (conj E (conj S _)).
  destruct (init None environ) as [caller | e] eqn:I.
  - eexists. split; [| reflexivity].
    replace w' with (snd (create_vapi_to_phone_call environ assistant target
                            from_phone record custom_field w))
      by now rewrite E.
    unfold create_vapi_to_phone_call.
    rewrite sent_try_keeps by (intro; keeps_steps).
    unfold bind at 1, lift at 1. rewrite I. cbv zeta.
    do 4 (unfold bind at 1, print at 1).
    rewrite sent_bind_keeps by (intro; keeps_steps).
    now rewrite connect_two_numbers_world.
  - exists []. rewrite app_nil_r.
    revert E. unfold create_vapi_to_phone_call. rewrite try_on_Exception.
    unfold bind at 1, lift at 1. rewrite I.
    rewrite (init_catchable None environ I). unfold bind, print, ret.
    intro E. inversion E. repeat split.
Qed.

Lemma create_vapi_raises environ assistant target from_phone record custom_field :
  raises_only_exceptions
    (create_vapi_to_phone_call environ assistant target from_phone record
       custom_field).
Proof. eapply roe_returns, yields_returns, create_vapi_yields. Qed.

#[local] Hint Resolve create_vapi_raises : runs.
#[local] Hint Resolve create_vapi_sends : sends.

Lemma outbound_main_returns environ args : returns (main environ args).
Proof.
  unfold main. apply returns_try; [roe_steps | intro; returns_steps].
Qed.

Lemma outbound_main_sends environ args : sends_at_most 1 (main environ args).
Proof. unfold main. sends_steps. Qed.

(** X28: once the command line of the outbound calls has parsed, [main]
    ends normally: for every parsed arguments, environment and provider it
    returns, so that the exit status is zero, after at most one request.  A
    caller that the environment does not configure is reported on one line
    and nothing is sent.  (Before that, [parser.parse_args()] ends a
    command line that it rejects with status 2, and [-h] with status 0.) *)
Theorem outbound_main_always_returns environ args w :
  exists w' l,
    main environ args w = (Ret tt, w')
    /\ sent w' = (sent w ++ l)%list /\ length l <= 1
    /\ forall e, init None environ = Raise e ->
         w' = printed w ["❌ Error: " ++ Py.exn_str e].
Proof.
  destruct (outbound_main_returns environ args w) as ([] & w' & E).
  destruct (outbound_main_sends environ args w) as (l & L & B).
  rewrite E in L. exists w', l. refine (conj E (conj L (conj B _))).
  intros e I. revert E. unfold main. rewrite try_on_Exception.
  unfold bind at 1, lift at 1. rewrite I. rewrite (init_catchable None environ I).
  unfold print, printed. intro E. now inversion E.
Qed.

End OutboundRuns.

Section OutboundWitnesses.
Import PyString ExotelOutboundCaller OutboundCalls.

Lemma callback_options_need_an_address_witness :
  Py.lookup "StatusCallbackEvents"
    (connect_params Demo.caller (Some "+911234567890") "+919876543210" None true
       (Some 300%Z) None None (Some "vapi_assistant_a1_outbound") None
       Fixtures.callback_keywords)
  = None.
Proof.
  apply (@callback_options_need_an_address Demo.caller (Some "+911234567890")
           "+919876543210" None true (Some 300%Z) None None
           (Some "vapi_assistant_a1_outbound") None Fixtures.callback_keywords
           "StatusCallbackEvents" eq_refl).
  right. left. reflexivity.
Defined.

Lemma recording_options_need_record_witness :
  Py.lookup "RecordingFormat"
    (connect_params Demo.caller (Some "+911234567890") "+919876543210" None false
       None None None None None Fixtures.recording_keywords)
  = None.
Proof.
  apply (@recording_options_need_record Demo.caller (Some "+911234567890")
           "+919876543210" None None None None None None
           Fixtures.recording_keywords "RecordingFormat").
  right. right. left. reflexivity.
Defined.

Lemma indian_number_round_trip_witness :
  caller_id (_load_config Fixtures.indian_environ) = Some "09876543210"
  /\ source_phone (_load_config Fixtures.indian_environ) None
     = Some "+919876543210".
Proof.
  destruct (@indian_number_round_trip Fixtures.indian_environ "9876543210"
              eq_refl eq_refl eq_refl) as (C & _ & S).
  split; [exact C | exact (S eq_refl)].
Defined.

Lemma blank_settings_do_not_fall_back_witness :
  exists self,
    init None Fixtures.indian_environ = Ret self
    /\ domain self = Some "api.in.exotel.com"
    /\ caller_id self = Some (str_replace "+91" "0" "+919876543210").
Proof.
  destruct (@blank_settings_do_not_fall_back Fixtures.indian_environ
              eq_refl eq_refl eq_refl) as (_ & _ & B).
  apply (B eq_refl eq_refl "+919876543210" eq_refl). discriminate.
Defined.

End OutboundWitnesses.

(* ================================================================== *)
(** ** The trunk resolution on every listing *)

Section TrunkResolution.
Context {P : Platform}.
Import PyString Spec VapiExotelProductionIntegrator.

Lemma find_active_step entry rest w :
  match kind_of entry with
  | Passed => find_active (entry :: rest) w = find_active rest w
  | Active sid =>
      exists line,
        find_active (entry :: rest) w = (Ret (Some sid), printed w [line])
  | Malformed =>
      exists e, find_active (entry :: rest) w = (Raise e, w)
                /\ Py.is_Exception e = true
  end.
Proof.
  destruct entry as [| b | z | r | s | l | e];
    try (cbn; eexists; split; reflexivity).
  unfold kind_of, value_of. cbn [find_active].
  unfold bind, lift, print, ret, Py.get, Py.get_or, Py.item, printed.
  cbn [obind].
  destruct (Py.lookup "status" e) as [st |];
    [destruct (Py.eq_str st "success") |]; cbn [Py.eq_str andb obind];
    try reflexivity.
  destruct (Py.lookup "data" e) as [d |]; cbn [Py.truthy obind];
    [| reflexivity].
  destruct d as [| b | z | r | s | l | t]; cbn [Py.truthy obind];
    try reflexivity;
    try (match goal with
         | |- context [if ?c then _ else _] => destruct c
         end; cbn [obind]; try reflexivity; eexists; split; reflexivity).
  destruct t as [| kv t]; cbn [obind]; [reflexivity |].
  destruct (Py.lookup "status" (kv :: t)) as [ts |]; cbn [obind Py.lower];
    [| reflexivity].
  destruct ts as [| b | z | r | s | l | t'];
    try (cbn; eexists; split; reflexivity).
  cbn [Py.lower]. destruct (String.eqb (lower s) "active"); [| reflexivity].
  cbn [obind]. eexists. reflexivity.
Qed.

Lemma find_active_decisive entries w :
  match decisive entries with
  | Passed => find_active entries w = (Ret None, w)
  | Active sid =>
      exists line, find_active entries w = (Ret (Some sid), printed w [line])
  | Malformed =>
      exists e, find_active entries w = (Raise e, w)
                /\ Py.is_Exception e = true
  end.
Proof.
  induction entries as [| entry rest IH]; [reflexivity |].
  pose proof (find_active_step entry rest w) as S.
  cbn [decisive]. destruct (kind_of entry) as [| sid |].
  - rewrite S. exact IH.
  - exact S.
  - exact S.
Qed.

Lemma chars_not_empty (c : ascii) (s : string) : chars (String c s) <> [].
Proof.
  cbn [chars]. destruct s as [| d s]; [discriminate |].
  destruct (is_cont d); [| discriminate].
  destruct (chars (String d s)); discriminate.
Qed.

(** The listing that a decoded reply holds: the entries under [response]
    when that is a list. *)
Lemma get_active_trunk_reply self b body reply w :
  base_url (exotel self) = Some b ->
  urlopen (sent w) (request_for self "GET" (b ++ "/trunks") None) = Reply2xx body ->
  json_loads body = inr reply ->
  fst (get_active_trunk self w) = Ret (resolution (listing_of reply)).
Proof.
  intros B U J. unfold get_active_trunk.
  unfold bind at 1. unfold print at 1. rewrite try_on_Exception.
  unfold bind at 1.
  fold (printed w ["🔍 Finding active Exotel trunk..."]).
  rewrite (production_request_reply self "GET" "/trunks" None
             (printed w ["🔍 Finding active Exotel trunk..."]) B U).
  rewrite J. unfold bind at 1. unfold lift at 1.
  unfold listing_of.
  destruct reply as [| x | z | r | s | l | d];
    try (cbn; repeat (match goal with
                      | |- context [if ?c then _ else _] => destruct c
                      | |- context [match ?c with _ => _ end] => destruct c
                      end; cbn); reflexivity).
  destruct d as [| kv d]; [reflexivity |].
  cbn [Py.truthy]. unfold Py.get, Py.get_or, Py.item. cbn [obind].
  destruct (Py.lookup "response" (kv :: d)) as [v |]; [| reflexivity].
  destruct (Py.truthy v) eqn:T; cbn [obind].
  - unfold bind at 1. unfold bind at 1. unfold lift at 1.
    destruct v as [| x | z | r | s | l | d']; try reflexivity.
    + (* a text *)
      cbn [Py.iter obind]. destruct s as [| c s]; [discriminate |].
      pose proof (chars_not_empty c s) as N.
      destruct (chars (String c s)) as [| ch rest]; [contradiction |].
      cbn [map].
      match goal with
      | |- context [find_active ?items ?w1] =>
          pose proof (find_active_decisive items w1) as F
      end.
      cbn [decisive kind_of] in F. destruct F as (e & F & C).
      rewrite F, C. reflexivity.
    + (* a list *)
      cbn [Py.iter obind].
      match goal with
      | |- context [find_active ?items ?w1] =>
          pose proof (find_active_decisive items w1) as F
      end.
      unfold resolution. destruct (decisive l) as [| sid |].
      * rewrite F. reflexivity.
      * destruct F as (line & F). rewrite F. reflexivity.
      * destruct F as (e & F & C). rewrite F, C. reflexivity.
    + (* a dictionary *)
      cbn [Py.iter obind]. destruct d' as [| kv' d']; [discriminate |].
      cbn [map].
      match goal with
      | |- context [find_active ?items ?w1] =>
          pose proof (find_active_decisive items w1) as F
      end.
      cbn [decisive kind_of] in F. destruct F as (e & F & C).
      rewrite F, C. reflexivity.
  - destruct v as [| x | z | r | s | l | d']; try reflexivity.
    destruct l; [reflexivity | discriminate].
Qed.

Lemma decisive_after_passed before entry after :
  Forall (fun x => kind_of x = Passed) before ->
  decisive (before ++ entry :: after)
  = match kind_of entry with
    | Passed => decisive after
    | kind => kind
    end.
Proof.
  induction 1 as [| x before Px _ IH]; [reflexivity |].
  cbn [app decisive]. now rewrite Px.
Qed.

Lemma decisive_all_passed entries :
  Forall (fun x => kind_of x = Passed) entries -> decisive entries = Passed.
Proof.
  induction 1 as [| x entries Px _ IH]; [reflexivity |].
  cbn [decisive]. now rewrite Px.
Qed.

Lemma kind_of_trunk_entry (t : trunk) :
  kind_of (trunk_entry t)
  = if is_active t then Active (PStr (trunk_sid t)) else Passed.
Proof.
  destruct t as [status sid name]. unfold is_active. cbn [trunk_status trunk_sid].
  unfold kind_of, trunk_entry, trunk_data, value_of.
  cbn [trunk_status trunk_sid trunk_name].
  destruct name; reflexivity.
Qed.

Lemma decisive_trunk_entries (ts : list trunk) :
  decisive (map trunk_entry ts)
  = match List.find is_active ts with
    | Some t => Active (PStr (trunk_sid t))
    | None => Passed
    end.
Proof.
  induction ts as [| t ts IH]; [reflexivity |].
  cbn [map decisive List.find]. rewrite kind_of_trunk_entry.
  now destruct (is_active t).
Qed.

Lemma setup_without_trunk self b body reply fqdn w :
  base_url (exotel self) = Some b ->
  urlopen (sent w) (request_for self "GET" (b ++ "/trunks") None) = Reply2xx body ->
  json_loads body = inr reply ->
  Py.truthy (resolution (listing_of reply)) = false ->
  vapi_fqdn (integration self) = Some fqdn ->
  fst (setup_fqdn_integration self w) = Ret (failure "No active trunk found")
  /\ sent (snd (setup_fqdn_integration self w))
     = (sent w ++ [request_for self "GET" (b ++ "/trunks") None])%list.
Proof.
  intros B U J N F. unfold setup_fqdn_integration. rewrite F.
  unfold bind, print, ret. cbn [sent stdout].
  match goal with
  | |- context [get_active_trunk self ?w1] =>
      pose proof (get_active_trunk_reply self w1 B U J) as G;
      pose proof (get_active_trunk_world self w1) as W;
      destruct (get_active_trunk self w1) as [o w2]
  end.
  cbn [fst snd] in G, W. subst o. rewrite N. cbn [negb fst snd].
  rewrite B in W. split; [reflexivity | exact W].
Qed.

(** C4, amended: the trunk listing is resolved by a scan of the entries
    under [response] of the decoded 2xx reply.  The scan passes over every
    entry whose status is not [success] or whose data are empty, and over
    every trunk whose status, lower-cased, is not [active]; it returns the
    [trunk_sid] of the first trunk whose status, lower-cased, is [active],
    unless a malformed entry comes before it, and [None] in every other
    case.  So on a listing in which exactly one trunk is active, and no
    malformed entry comes before it, resolution returns that trunk's
    identifier; on a listing without an active trunk it returns [None];
    and whenever it returns [None], [setup_fqdn_integration], given its
    [VAPI_FQDN], returns the failure [No active trunk found] after the one
    listing request. *)
Theorem active_trunk_resolution self b body reply w :
  base_url (exotel self) = Some b ->
  urlopen (sent w) (request_for self "GET" (b ++ "/trunks") None) = Reply2xx body ->
  json_loads body = inr reply ->
  fst (get_active_trunk self w) = Ret (resolution (listing_of reply))
  /\ (forall before entry after identifier,
         listing_of reply = (before ++ entry :: after)%list ->
         Forall (fun x => kind_of x = Passed) before ->
         kind_of entry = Active identifier ->
         fst (get_active_trunk self w) = Ret identifier)
  /\ (Forall (fun x => kind_of x = Passed) (listing_of reply) ->
      fst (get_active_trunk self w) = Ret PNone)
  /\ (forall ts,
         listing_of reply = map trunk_entry ts ->
         (forall t, filter is_active ts = [t] ->
                    fst (get_active_trunk self w) = Ret (PStr (trunk_sid t)))
         /\ (filter is_active ts = [] ->
             fst (get_active_trunk self w) = Ret PNone))
  /\ (Py.truthy (resolution (listing_of reply)) = false ->
      forall fqdn,
        vapi_fqdn (integration self) = Some fqdn ->
        fst (setup_fqdn_integration self w)
        = Ret (failure "No active trunk found")
        /\ sent (snd (setup_fqdn_integration self w))
           = (sent w ++ [request_for self "GET" (b ++ "/trunks") None])%list).
Proof.
  intros B U J.
  pose proof (get_active_trunk_reply self w B U J) as G.
  refine (conj G (conj _ (conj _ (conj _ _)))).
  - intros before entry after identifier L Pb K.
    rewrite G, L. unfold resolution.
    now rewrite (decisive_after_passed entry after Pb), K.
  - intro Pa. rewrite G. unfold resolution.
    now rewrite (decisive_all_passed Pa).
  - intros ts L. rewrite G, L. unfold resolution.
    rewrite decisive_trunk_entries. split.
    + intros t O. now rewrite (find_first_of_only _ _ O).
    + intro N. apply find_none_of_none in N. now rewrite N.
  - intros N fqdn F. exact (setup_without_trunk self w B U J N F).
Qed.

End TrunkResolution.

Section TrunkResolutionWitness.
Import PyString Spec VapiExotelProductionIntegrator.

Lemma active_trunk_resolution_witness :
  fst (@get_active_trunk (Demo.listing Demo.one_active) Demo.production world0)
  = Ret (PStr "trmum1")
  /\ fst (@setup_fqdn_integration (Demo.listing Demo.none_active)
            Demo.production world0)
     = Ret (failure "No active trunk found").
Proof.
  split.
  - destruct (@active_trunk_resolution (Demo.listing Demo.one_active)
                Demo.production "https://api.in.exotel.com/v2/accounts/acme"
                (Demo.dumps (trunk_list_response Demo.one_active))
                (trunk_list_response Demo.one_active) world0
                eq_refl eq_refl eq_refl) as (_ & _ & _ & T & _).
    exact (proj1 (T Demo.one_active eq_refl)
             {| trunk_status := "active"; trunk_sid := "trmum1";
                trunk_name := Some "main" |} eq_refl).
  - destruct (@active_trunk_resolution (Demo.listing Demo.none_active)
                Demo.production "https://api.in.exotel.com/v2/accounts/acme"
                (Demo.dumps (trunk_list_response Demo.none_active))
                (trunk_list_response Demo.none_active) world0
                eq_refl eq_refl eq_refl) as (_ & _ & _ & _ & N).
    exact (proj1 (N eq_refl "mybot@sip.vapi.ai" eq_refl)).
Defined.

End TrunkResolutionWitness.

(* ================================================================== *)
(** ** Missing configuration in every entry point *)

Section MissingConfiguration.
Context {P : Platform} {R : Runtime}.
Import PyString Spec.

Lemma example_missing environ w :
  VapiExotelIntegrator.has_credentials (VapiExotelIntegrator._load_config environ)
  = false ->
  ExampleUsage.main environ w
  = (Ret tt,
     printed w
       ["🎯 VAPI-EXOTEL INTEGRATION EXAMPLE";
        times "=" 50;
        "Setting up integration for:";
        "  FQDN: mybot@sip.vapi.ai";
        "  Phone: +1234567890";
        "";
        "❌ FAILED!";
        "   Error: Failed to add destination: "
          ++ VapiExotelIntegrator.missing_credentials]).
Proof.
  intro H. unfold ExampleUsage.main, VapiExotelIntegrator.init.
  unfold bind at 1 2 3 4 5 6, print at 1 2 3 4 5 6. cbn [sent stdout].
  rewrite try_on_Exception.
  unfold bind, print. cbn [sent stdout].
  erewrite configure_after_failed_attach;
    [| apply add_vapi_destination_missing; exact H
     | reflexivity | reflexivity | reflexivity].
  unfold lift, printed.
  cbn -[times VapiExotelIntegrator.missing_credentials append].
  rewrite <- !app_assoc. reflexivity.
Qed.

Lemma outbound_validation_missing environ :
  provided environ "EXO_AUTH_KEY" && provided environ "EXO_AUTH_TOKEN"
  && provided environ "EXO_ACCOUNT_SID" = false ->
  exists names,
    names <> []
    /\ OutboundCalls.init None environ
       = Raise (ExValueError ("Missing required configuration: "
                              ++ join ", " names)).
Proof.
  unfold provided, OutboundCalls.init, ExotelOutboundCaller._validate_config,
    ExotelOutboundCaller._load_config.
  cbv zeta.
  cbn [ExotelOutboundCaller.api_key ExotelOutboundCaller.auth_token
       ExotelOutboundCaller.account_sid ExotelOutboundCaller.domain
       filter snd fst map].
  destruct (Py.truthy_opt (environ "EXO_AUTH_KEY")),
           (Py.truthy_opt (environ "EXO_AUTH_TOKEN")),
           (Py.truthy_opt (environ "EXO_ACCOUNT_SID"));
    cbn [andb negb]; try discriminate; intros _;
    match goal with
    | |- context [Py.truthy_opt ?d] => destruct (Py.truthy_opt d)
    end; cbn [negb map fst obind];
    (eexists; split; [| reflexivity]; discriminate).
Qed.

Lemma outbound_main_missing environ args w e :
  OutboundCalls.init None environ = Raise e ->
  OutboundCalls.main environ args w
  = (Ret tt, printed w ["❌ Error: " ++ Py.exn_str e]).
Proof.
  intro I. unfold OutboundCalls.main. rewrite try_on_Exception.
  unfold bind at 1, lift at 1. rewrite I.
  rewrite (init_catchable None environ I). reflexivity.
Qed.

Lemma loaded_credentials environ self :
  ProductionScript.load_configuration environ = Ret self ->
  provided environ "EXO_AUTH_KEY" && provided environ "EXO_AUTH_TOKEN"
  && provided environ "EXO_ACCOUNT_SID" = false ->
  ProductionScript.missing_variables self <> [].
Proof.
  unfold ProductionScript.load_configuration. cbv zeta.
  destruct (int_of _) as [msg | port]; cbn [obind]; [discriminate |].
  intros L. inversion L; subst self; clear L.
  unfold provided. intro H.
  rewrite missing_variables_filter.
  cbn [ProductionScript.settings VapiExotelProductionIntegrator.exotel
       VapiExotelProductionIntegrator.auth_key
       VapiExotelProductionIntegrator.auth_token
       VapiExotelProductionIntegrator.account_sid filter fst].
  destruct (Py.truthy_opt (environ "EXO_AUTH_KEY")); cbn [negb];
    [| discriminate].
  destruct (Py.truthy_opt (environ "EXO_AUTH_TOKEN")); cbn [negb];
    [| discriminate].
  destruct (Py.truthy_opt (environ "EXO_ACCOUNT_SID")); cbn [negb];
    [discriminate H | discriminate].
Qed.

Lemma dispatch_validate_missing args self w :
  ProductionScript.validate_config args = true ->
  ProductionScript.missing_variables self <> [] ->
  ProductionScript.dispatch args self w
  = (Raise (ExSystemExit 1),
     printed w ["❌ Missing required environment variables: "
                  ++ join ", " (ProductionScript.missing_variables self);
                "❌ Configuration validation failed"]).
Proof.
  intros F V. unfold ProductionScript.dispatch. rewrite F.
  unfold ProductionScript.validate_configuration.
  destruct (ProductionScript.missing_variables self) as [| x miss];
    [contradiction |].
  unfold bind, print, ret, sys_exit, raise, printed. cbn [sent stdout].
  now rewrite <- app_assoc.
Qed.

(** C9, as stated, fails.  With [EXO_AUTH_TOKEN] absent the example run
    reports the missing credentials and ends normally, with exit status 0;
    and with all credentials absent the production script under
    [--setup-fqdn-only] reports nothing and sends the trunk listing. *)
Lemma missing_credential_run_ends_normally :
  provided (Demo.without "EXO_AUTH_TOKEN" Demo.environ) "EXO_AUTH_TOKEN" = false
  /\ (let run := @ExampleUsage.main Demo.happy
                   (Demo.without "EXO_AUTH_TOKEN" Demo.environ) world0 in
      fst run = Ret tt /\ exit_status (fst run) = 0%Z /\ sent (snd run) = [])
  /\ provided Fixtures.address_environ "EXO_AUTH_KEY" = false
  /\ List.length
       (sent (snd (@ProductionScript.main Fixtures.no_trunk
                     (Fixtures.runtime Fixtures.unreachable)
                     Fixtures.address_environ Fixtures.setup_fqdn_alone world0)))
     = 1.
Proof.
  refine (conj eq_refl (conj _ (conj eq_refl _))).
  - vm_compute. repeat split.
  - vm_compute. reflexivity.
Qed.

(** C9, amended: when a required environment value (credential key, token
    or account identifier) is absent or blank, the missing configuration
    is reported with a descriptive message before any network call in each
    of these runs.  [_make_request] raises the descriptive [ValueError]
    without sending anything; the run of vapi_exotel_integration.py prints
    that message and exits with status 1; a program that imports
    _client.py and posts prints which variables are missing and exits with
    status 1; the production script under [--validate-config], and under
    [--setup-all] alone, when [EXOTEL_GATEWAY_PORT] is unset or reads as an
    integer, reports the failed validation and exits with status 1.  The
    example and the command line of the outbound calls
    print the message and end normally, with exit status 0.  In each of
    these runs nothing is sent. *)
Theorem missing_configuration_aborts_before_any_request :
  (forall self method endpoint payload w,
      VapiExotelIntegrator.has_credentials self = false ->
      VapiExotelIntegrator._make_request self method endpoint payload w
      = (Raise (ExValueError VapiExotelIntegrator.missing_credentials), w))
  /\ (forall environ fqdn phone trunk w,
         provided environ "EXO_AUTH_KEY" && provided environ "EXO_AUTH_TOKEN"
         && provided environ "EXO_ACCOUNT_SID" = false ->
         let run := VapiExotelIntegrator.main environ fqdn phone trunk w in
         exit_status (fst run) = 1%Z
         /\ sent (snd run) = sent w
         /\ last (stdout (snd run)) ""
            = "   Error: Failed to add destination: "
                ++ VapiExotelIntegrator.missing_credentials)
  /\ (forall environ path payload w,
         provided environ "EXO_SUBSCRIBIX_DOMAIN"
         && provided environ "EXO_ACCOUNT_SID"
         && provided environ "EXO_AUTH_KEY"
         && provided environ "EXO_AUTH_TOKEN" = false ->
         let run := Client.import_and_post environ path payload w in
         exit_status (fst run) = 1%Z
         /\ sent (snd run) = sent w
         /\ (last (stdout (snd run)) "" = Client.missing_base
             \/ last (stdout (snd run)) "" = Client.missing_auth))
  /\ (forall environ args w port,
         int_of (VapiExotelIntegrator.environ_get environ
                   "EXOTEL_GATEWAY_PORT" "5070") = inr port ->
         provided environ "EXO_AUTH_KEY" && provided environ "EXO_AUTH_TOKEN"
         && provided environ "EXO_ACCOUNT_SID" = false ->
         ProductionScript.validate_config args = true
         \/ (ProductionScript.validate_config args = false
             /\ ProductionScript.setup_fqdn_only args = false
             /\ ProductionScript.test_calls args = false
             /\ ProductionScript.setup_all args = true) ->
         let run := ProductionScript.main environ args w in
         exit_status (fst run) = 1%Z
         /\ sent (snd run) = sent w
         /\ (last (stdout (snd run)) "" = "❌ Configuration validation failed"
             \/ last (stdout (snd run)) ""
                = VapiExotelProductionIntegrator.nl
                    ++ "❌ Setup failed: Configuration validation failed"))
  /\ (forall environ w,
         provided environ "EXO_AUTH_KEY" && provided environ "EXO_AUTH_TOKEN"
         && provided environ "EXO_ACCOUNT_SID" = false ->
         let run := ExampleUsage.main environ w in
         exit_status (fst run) = 0%Z
         /\ sent (snd run) = sent w
         /\ last (stdout (snd run)) ""
            = "   Error: Failed to add destination: "
                ++ VapiExotelIntegrator.missing_credentials)
  /\ (forall environ args w,
         provided environ "EXO_AUTH_KEY" && provided environ "EXO_AUTH_TOKEN"
         && provided environ "EXO_ACCOUNT_SID" = false ->
         let run := OutboundCalls.main environ args w in
         exit_status (fst run) = 0%Z
         /\ sent (snd run) = sent w
         /\ exists names,
             names <> []
             /\ last (stdout (snd run)) ""
                = "❌ Error: Missing required configuration: "
                    ++ join ", " names).
Proof.
  refine (conj _ (conj _ (conj _ (conj _ (conj _ _))))).
  - intros. now apply make_request_missing.
  - intros environ fqdn phone trunk w H. cbv zeta.
    rewrite (main_missing environ fqdn phone trunk w H).
    refine (conj eq_refl (conj eq_refl _)).
    unfold printed. cbn [snd stdout]. now rewrite last_app_cons.
  - intros environ path payload w H. cbv zeta.
    destruct (import_and_post_missing environ path payload w H)
      as (lines & line & E & L).
    rewrite E. refine (conj eq_refl (conj eq_refl _)).
    unfold printed. cbn [snd stdout]. rewrite app_assoc, last_last.
    exact L.
  - intros environ args w port I H C. cbv zeta.
    pose proof (load_configuration_cases environ) as L. rewrite I in L.
    destruct L as (self & L & _).
    pose proof (loaded_credentials environ L H) as V.
    unfold ProductionScript.main, bind, lift. rewrite L.
    destruct C as [F | (F1 & F2 & F3 & F4)].
    + rewrite (dispatch_validate_missing args self w F V).
      refine (conj eq_refl (conj eq_refl _)). left.
      unfold printed. cbn [snd stdout]. apply last_app_cons.
    + destruct (@dispatch_setup_all P R args self w F1 F2 F3 F4)
        as (o & w' & E & Q).
      rewrite E. cbn [fst snd].
      destruct (ProductionScript.missing_variables self); [contradiction |].
      destruct Q as (-> & S & T). auto.
  - intros environ w H. cbv zeta.
    rewrite (example_missing environ w H).
    refine (conj eq_refl (conj eq_refl _)).
    unfold printed. cbn [snd stdout]. now rewrite last_app_cons.
  - intros environ args w H. cbv zeta.
    destruct (outbound_validation_missing environ H) as (names & N & I).
    rewrite (outbound_main_missing environ args w I).
    refine (conj eq_refl (conj eq_refl _)).
    exists names. split; [exact N |].
    unfold printed. cbn [snd stdout Py.exn_str]. apply last_last.
Qed.

End MissingConfiguration.

Section MissingConfigurationWitness.
Import PyString Spec.

Lemma missing_configuration_aborts_before_any_request_witness :
  (let run := @VapiExotelIntegrator.main Demo.happy
                (Demo.without "EXO_AUTH_TOKEN" Demo.environ)
                "mybot@sip.vapi.ai" "+1234567890" None world0 in
   exit_status (fst run) = 1%Z /\ sent (snd run) = [])
  /\ (let run := @Client.import_and_post Demo.happy
                   (Demo.without "EXO_ACCOUNT_SID" Demo.environ)
                   "/trunks" (PDict [("trunk_name", PStr "main")]) world0 in
      exit_status (fst run) = 1%Z /\ sent (snd run) = [])
  /\ (let run := @ProductionScript.main Demo.happy
                   (Fixtures.runtime Fixtures.unreachable)
                   (Demo.without "EXO_AUTH_KEY" Fixtures.production_environ)
                   Fixtures.setup_all_only world0 in
      exit_status (fst run) = 1%Z /\ sent (snd run) = [])
  /\ (let run := @OutboundCalls.main Demo.happy
                   (Fixtures.runtime Fixtures.unreachable)
                   (Demo.without "EXO_ACCOUNT_SID" Fixtures.indian_environ)
                   {| OutboundCalls.connect := Some ("+911234567890", "+919876543210");
                      OutboundCalls.arg_connect_to_flow := None;
                      OutboundCalls.arg_record := false;
                      OutboundCalls.arg_timeout := None;
                      OutboundCalls.arg_time_limit := None;
                      OutboundCalls.arg_custom_field := None;
                      OutboundCalls.vapi_call := None;
                      OutboundCalls.call_details := None;
                      OutboundCalls.list_calls := false |} world0 in
      exit_status (fst run) = 0%Z /\ sent (snd run) = []).
Proof.
  destruct (@missing_configuration_aborts_before_any_request Demo.happy
              (Fixtures.runtime Fixtures.unreachable))
    as (_ & from_main & from_client & from_production & _ & from_outbound).
  refine (conj _ (conj _ (conj _ _))).
  - destruct (from_main (Demo.without "EXO_AUTH_TOKEN" Demo.environ)
                "mybot@sip.vapi.ai" "+1234567890" None world0 eq_refl)
      as (E & S & _).
    exact (conj E S).
  - destruct (from_client (Demo.without "EXO_ACCOUNT_SID" Demo.environ)
                "/trunks" (PDict [("trunk_name", PStr "main")]) world0 eq_refl)
      as (E & S & _).
    exact (conj E S).
  - destruct (from_production
                (Demo.without "EXO_AUTH_KEY" Fixtures.production_environ)
                Fixtures.setup_all_only world0 5070%Z eq_refl eq_refl
                (or_intror (conj eq_refl (conj eq_refl (conj eq_refl eq_refl)))))
      as (E & S & _).
    exact (conj E S).
  - destruct (from_outbound
                (Demo.without "EXO_ACCOUNT_SID" Fixtures.indian_environ)
                {| OutboundCalls.connect := Some ("+911234567890", "+919876543210");
                   OutboundCalls.arg_connect_to_flow := None;
                   OutboundCalls.arg_record := false;
                   OutboundCalls.arg_timeout := None;
                   OutboundCalls.arg_time_limit := None;
                   OutboundCalls.arg_custom_field := None;
                   OutboundCalls.vapi_call := None;
                   OutboundCalls.call_details := None;
                   OutboundCalls.list_calls := false |} world0 eq_refl)
      as (E & S & _).
    exact (conj E S).
Defined.

End MissingConfigurationWitness.
